(** * Smart tool routing: the search and invocation controllers

    A shallow embedding of [src/controllers/toolController.ts]
    ([searchTools] and [callTool]) together with the pieces of ECMAScript
    the two handlers rely on: truthiness, [typeof], [String(v)],
    [parseInt], [Math.min]/[Math.max], [String.prototype.split] /
    [includes], the stable [Array.prototype.sort] and the insertion
    ordered [Map].

    Modelling conventions.
    - A request body is JSON.  A JSON number literal is a decimal
      [m * 10^e] and is read as the binary64 number nearest to it.  A
      finite binary64 number is kept as the rational it is; sums and
      quotients are rounded to binary64, comparisons, [Math.max] and
      [Math.min] are exact.  A threshold is carried as the decimal of its
      literal, which stands for the binary64 number nearest to it: the
      handler only compares it with 0 and 1 and passes it on.
    - Strings are sequences of code units below 256.
    - The three collaborators imported by the controller
      ([getSmartRoutingConfig], [searchToolsByVector],
      [handleCallToolRequest]) are fields of an environment record; every
      call to one of them, and every console write, is recorded in a
      trace.

    The development also covers the frontend that talks to [searchTools]:
    the search service ([frontend/src/services/smartSearchService.ts]),
    the search state of the servers page, and the configuration
    generators of [frontend/src/components/ServerCard.tsx]. *)

From Stdlib Require Import List String Ascii Bool ZArith QArith Qminmax Lia.
From Stdlib Require Import Qround Qpower NArith Nnat.
From Stdlib Require Import Decimal DecimalString DecimalPos DecimalN.
From Stdlib Require DecimalFacts.
From Stdlib Require Import Sorted Permutation.
Import ListNotations.

#[local] Set Warnings "-register-all".
#[local] Open Scope string_scope.
#[local] Open Scope Z_scope.

(* ================================================================= *)
(** ** ECMAScript values and conversions *)

Module Js.

(** Values that can reach the handlers through a parsed JSON body
    ([Undefined] is what reading an absent field gives).  A number is the
    binary64 number its literal is read as, see [number_value]; JSON has
    no text for NaN, so no value here is NaN. *)
Inductive value : Type :=
| Undefined
| Null
| Bool (b : bool)
| Number (m e : Z)                       (* written m * 10^e *)
| Str (s : string)
| Array (items : list value)
| Object (fields : list (string * value)).

Inductive type_tag : Type :=
| TUndefined | TObject | TBoolean | TNumber | TString.

(** [typeof v] *)
Definition typeof (v : value) : type_tag :=
  match v with
  | Undefined => TUndefined
  | Null => TObject
  | Bool _ => TBoolean
  | Number _ _ => TNumber
  | Str _ => TString
  | Array _ => TObject
  | Object _ => TObject
  end.

Definition type_tag_eqb (a b : type_tag) : bool :=
  match a, b with
  | TUndefined, TUndefined | TObject, TObject | TBoolean, TBoolean
  | TNumber, TNumber | TString, TString => true
  | _, _ => false
  end.

(** The rational denoted by the decimal [m * 10^e]. *)
Definition decimal_value (m e : Z) : Q :=
  (inject_Z m * Qpower (10 # 1) e)%Q.

(** *** Binary64 numbers

    A finite number is kept as the rational it is, the two zeros as one
    zero (no operation modelled here tells them apart). *)
Inductive num : Type :=
| Fin (q : Q)
| PosInfinity
| NegInfinity
| NaN.

Definition pow2 (k : Z) : Q := Qpower (2 # 1) k.

Definition pow10 (k : Z) : Q := Qpower (10 # 1) k.

(** [floor (log2 a)] for a positive [a]. *)
Definition ilog2 (a : Q) : Z :=
  let k := Z.log2 (Qnum a) - Z.log2 (Zpos (Qden a)) in
  if Qle_bool (pow2 k) a then k else k - 1.

(** The nearest integer, the even one of two that are equally near. *)
Definition rint (y : Q) : Z :=
  let f := Qfloor y in
  match (y - inject_Z f ?= 1 # 2)%Q with
  | Lt => f
  | Gt => f + 1
  | Eq => if Z.even f then f else f + 1
  end.

(** Rounding of a positive real to binary64, to nearest and ties to
    even: 53 bits of significand, the last of them worth [2^e] with [e]
    no less than -1074, and infinity from [2^1024] on. *)
Definition round_pos (a : Q) : num :=
  let e := Z.max (ilog2 a - 52) (-1074) in
  let r := (inject_Z (rint (a / pow2 e)) * pow2 e)%Q in
  if Qle_bool (pow2 1024) r then PosInfinity else Fin (Qred r).

Definition neg (n : num) : num :=
  match n with
  | Fin q => Fin (- q)
  | PosInfinity => NegInfinity
  | NegInfinity => PosInfinity
  | NaN => NaN
  end.

(** Rounding of a real, taken in lowest terms. *)
Definition round64 (x : Q) : num :=
  let x := Qred x in
  match Qnum x with
  | Z0 => Fin 0
  | Zpos _ => round_pos x
  | Zneg _ => neg (round_pos (- x))
  end.

(** The number a literal [m * 10^e] is read as. *)
Definition number_value (m e : Z) : num := round64 (decimal_value m e).

Definition is_finite (n : num) : bool :=
  match n with
  | Fin _ => true
  | _ => false
  end.

(** [a + b] *)
Definition add (a b : num) : num :=
  match a, b with
  | Fin x, Fin y => round64 (x + y)
  | NaN, _ | _, NaN => NaN
  | PosInfinity, NegInfinity | NegInfinity, PosInfinity => NaN
  | PosInfinity, _ | _, PosInfinity => PosInfinity
  | NegInfinity, _ | _, NegInfinity => NegInfinity
  end.

(** [x / n] for a length [n]. *)
Definition div_length (x : num) (n : nat) : num :=
  match n, x with
  | _, NaN => NaN
  | O, Fin q =>
      match Qnum q with
      | Z0 => NaN
      | Zpos _ => PosInfinity
      | Zneg _ => NegInfinity
      end
  | S _, Fin q => round64 (q / inject_Z (Z.of_nat n))
  | _, PosInfinity => PosInfinity
  | _, NegInfinity => NegInfinity
  end.

(** [ToBoolean v]: what [!v], [v || d] and [if (v)] test. *)
Definition truthy (v : value) : bool :=
  match v with
  | Undefined | Null => false
  | Bool b => b
  | Number m e =>
      match number_value m e with
      | Fin q => negb (Qeq_bool q 0)
      | NaN => false
      | PosInfinity | NegInfinity => true
      end
  | Str s => negb (String.eqb s "")
  | Array _ | Object _ => true
  end.

(** *** Number::toString, radix 10 *)

Fixpoint zeros (n : nat) : string :=
  match n with
  | O => ""
  | S n' => String "0" (zeros n')
  end.

Definition digits_of (d : uint) : string := NilEmpty.string_of_uint d.

(** The decimal text of a natural number, ["0"] for zero. *)
Definition decimal_of_N (n : N) : string := digits_of (N.to_uint n).

(** Text of the positive decimal [p * 10^e].  With [d] the digits of [p],
    [s] those digits without trailing zeros and [k] their number, the
    value is [s * 10^(n-k)] for [n = nb_digits d + e]; the four notations
    are those of the language definition. *)
Definition positive_to_string (p : positive) (e : Z) : string :=
  let d := Pos.to_uint p in
  let s := fst (Decimal.nztail d) in
  let k := Z.of_nat (nb_digits s) in
  let n := Z.of_nat (nb_digits d) + e in
  if (k <=? n) && (n <=? 21) then
    digits_of s ++ zeros (Z.to_nat (n - k))
  else if (0 <? n) && (n <=? 21) then
    digits_of (del_tail (Z.to_nat (k - n)) s) ++ "." ++
    digits_of (del_head (Z.to_nat n) s)
  else if (-6 <? n) && (n <=? 0) then
    "0." ++ zeros (Z.to_nat (- n)) ++ digits_of s
  else
    let ex := (if 0 <=? n - 1 then "e+" else "e-") ++
              decimal_of_N (Z.to_N (Z.abs (n - 1))) in
    if k =? 1 then digits_of s ++ ex
    else digits_of (del_tail (Z.to_nat (k - 1)) s) ++ "." ++
         digits_of (del_head 1 s) ++ ex.

(** The number of decimal digits of a positive integer. *)
Definition digits10 (p : positive) : Z :=
  Z.of_nat (nb_digits (Pos.to_uint p)).

(** The [n] with [10^(n-1) <= a < 10^n], for a positive [a]. *)
Definition decade (a : Q) : Z :=
  if Qle_bool 1 a then digits10 (Z.to_pos (Qfloor a))
  else 1 - digits10 (Z.to_pos (Qceiling (/ a) - 1)).

(** The decimal [v] is read as the number [x]. *)
Definition round_trips (v x : Q) : bool :=
  match round64 v with
  | Fin r => Qeq_bool r x
  | _ => false
  end.

(** The digits of a positive number [x]: the decimal [s * 10^q] with the
    fewest digits [s] that is read as [x], the nearest to [x] if there
    are two, the even one if they are equally near.  With [q] the place
    of the last digit, the decimals to try are the two around [x]; one
    digit is tried first, then one more at a time.  Seventeen digits tell
    any two binary64 numbers apart, so the search ends there. *)
Fixpoint shortest_from (fuel : nat) (q : Z) (x : Q) : Z * Z :=
  let lo := Qfloor (x / pow10 q) in
  let hi := lo + 1 in
  let vlo := (inject_Z lo * pow10 q)%Q in
  let vhi := (inject_Z hi * pow10 q)%Q in
  match fuel with
  | O => (lo, q)
  | S fuel' =>
      match round_trips vlo x, round_trips vhi x with
      | true, true =>
          match (x - vlo ?= vhi - x)%Q with
          | Lt => (lo, q)
          | Gt => (hi, q)
          | Eq => if Z.even lo then (lo, q) else (hi, q)
          end
      | true, false => (lo, q)
      | false, true => (hi, q)
      | false, false => shortest_from fuel' (q - 1) x
      end
  end.

Definition shortest (x : Q) : Z * Z := shortest_from 17 (decade x - 1) x.

Definition shortest_text (x : Q) : string :=
  let '(s, q) := shortest x in positive_to_string (Z.to_pos s) q.

(** [Number::toString(x)] *)
Definition num_to_string (x : num) : string :=
  match x with
  | NaN => "NaN"
  | PosInfinity => "Infinity"
  | NegInfinity => "-Infinity"
  | Fin q =>
      match Qnum q with
      | Z0 => "0"
      | Zpos _ => shortest_text q
      | Zneg _ => "-" ++ shortest_text (- q)
      end
  end.

Definition number_to_string (m e : Z) : string :=
  num_to_string (number_value m e).

(** [o.hasOwnProperty(k)] on a parsed JSON object. *)
Definition has_own (o : list (string * value)) (k : string) : bool :=
  existsb (fun kv => String.eqb (fst kv) k) o.

(** The message of the TypeError thrown by the conversion of an object
    that has no primitive value. *)
Definition cannot_convert : string :=
  "Cannot convert object to primitive value".

(** [String(v)]; [None] when the conversion throws.  An array is its
    elements joined by commas, [null] and [undefined] elements giving the
    empty text.  An object is converted by its [toString]: the inherited
    one gives ["[object Object]"]; an own property [toString] of a parsed
    body is never callable, [valueOf] then returns the object itself and
    the conversion throws a TypeError. *)
Fixpoint ToString (v : value) : option string :=
  match v with
  | Undefined => Some "undefined"
  | Null => Some "null"
  | Bool true => Some "true"
  | Bool false => Some "false"
  | Number m e => Some (number_to_string m e)
  | Str s => Some s
  | Array items =>
      (fix join (l : list value) : option string :=
         match l with
         | [] => Some ""
         | x :: rest =>
             let tx := match x with
                       | Undefined | Null => Some ""
                       | _ => ToString x
                       end in
             match tx, rest with
             | None, _ => None
             | Some tx, [] => Some tx
             | Some tx, _ :: _ =>
                 match join rest with
                 | Some tr => Some (tx ++ "," ++ tr)
                 | None => None
                 end
             end
         end) items
  | Object fields =>
      if has_own fields "toString" then None else Some "[object Object]"
  end.

(** What [JSON.stringify] writes for [v], read back: a number that is not
    finite is written [null], as is an [undefined] element of an array,
    and a field that is [undefined] is left out. *)
Fixpoint json (v : value) : value :=
  match v with
  | Number m e => if is_finite (number_value m e) then v else Null
  | Array items =>
      Array (map (fun x => match x with
                           | Undefined => Null
                           | _ => json x
                           end) items)
  | Object fields =>
      Object ((fix each (l : list (string * value)) :=
                 match l with
                 | [] => []
                 | (k, x) :: rest =>
                     match x with
                     | Undefined => each rest
                     | _ => (k, json x) :: each rest
                     end
                 end) fields)
  | _ => v
  end.

(** *** parseInt, radix omitted *)

Definition is_white_space (c : ascii) : bool :=
  let n := Z.of_nat (nat_of_ascii c) in
  ((9 <=? n) && (n <=? 13)) || (n =? 32) || (n =? 160).

Fixpoint trim_start (s : string) : string :=
  match s with
  | String c s' => if is_white_space c then trim_start s' else s
  | EmptyString => s
  end.

(** Value of a code unit as a digit of the given radix. *)
Definition digit_value (radix : Z) (c : ascii) : option Z :=
  let n := Z.of_nat (nat_of_ascii c) in
  let v := if (48 <=? n) && (n <=? 57) then Some (n - 48)
           else if (97 <=? n) && (n <=? 122) then Some (n - 87)
           else if (65 <=? n) && (n <=? 90) then Some (n - 55)
           else None in
  match v with
  | Some d => if d <? radix then Some d else None
  | None => None
  end.

(** Reads the longest prefix of digits; [seen] tells whether one was read. *)
Fixpoint parse_digits (radix : Z) (s : string) (seen : bool) (acc : Z)
  : option Z :=
  match s with
  | String c s' =>
      match digit_value radix c with
      | Some d => parse_digits radix s' true (acc * radix + d)
      | None => if seen then Some acc else None
      end
  | EmptyString => if seen then Some acc else None
  end.

(** [parseInt(s)]; [None] is NaN.  Minus zero and zero are not told apart. *)
Definition parseInt (input : string) : option Z :=
  let s := trim_start input in
  let '(sign, s) :=
    match s with
    | String "-" s' => (-1, s')
    | String "+" s' => (1, s')
    | _ => (1, s)
    end in
  let '(radix, s) :=
    match s with
    | String "0" (String "x" s') => (16, s')
    | String "0" (String "X" s') => (16, s')
    | _ => (10, s)
    end in
  match parse_digits radix s false 0 with
  | Some n => Some (sign * n)
  | None => None
  end.

(** [n || d] for a number [n] that may be NaN. *)
Definition number_or (n : option Z) (d : Z) : Z :=
  match n with
  | Some z => if z =? 0 then d else z
  | None => d
  end.

(** *** Objects and strings *)

(** [o.k] on a parsed JSON object. *)
Fixpoint field (o : list (string * value)) (k : string) : value :=
  match o with
  | [] => Undefined
  | (k', v) :: o' => if String.eqb k' k then v else field o' k
  end.

(** A destructuring default, [{ k = d }]: used only for [undefined]. *)
Definition default_to (v d : value) : value :=
  match v with
  | Undefined => d
  | _ => v
  end.

(** [s.split(c)] for a separator of one code unit. *)
Fixpoint split (c : ascii) (s : string) : list string :=
  match s with
  | EmptyString => [""]
  | String a s' =>
      if Ascii.eqb a c then "" :: split c s'
      else match split c s' with
           | piece :: rest => String a piece :: rest
           | [] => [String a ""]
           end
  end.

(** [s.includes(sub)] *)
Fixpoint includes (s sub : string) : bool :=
  String.prefix sub s ||
  match s with
  | EmptyString => false
  | String _ s' => includes s' sub
  end.

(** *** [Math.max] and the sign of a difference *)

(** [Math.max(...xs)]; no argument gives [-Infinity]. *)
Definition Math_max (xs : list Q) : num :=
  fold_left (fun acc x =>
               match acc with
               | Fin a => Fin (Qmax a x)
               | NegInfinity => Fin x
               | PosInfinity => PosInfinity
               | NaN => NaN
               end) xs NegInfinity.

(** Sign of [b - a] as the sort sees it: a NaN difference counts as zero. *)
Definition sub_sign (b a : num) : comparison :=
  match b, a with
  | Fin x, Fin y => (x - y ?= 0)%Q
  | Fin _, NegInfinity | PosInfinity, Fin _ | PosInfinity, NegInfinity => Gt
  | NegInfinity, Fin _ | Fin _, PosInfinity | NegInfinity, PosInfinity => Lt
  | _, _ => Eq
  end.

(** *** Array.prototype.sort

    [cmp a b] is the sign of [comparefn(a, b)].  The sort is stable, so for
    a consistent comparison its result is the one of the insertion sort
    below whatever algorithm the engine runs. *)
Section Sort.
Context {A : Type} (cmp : A -> A -> comparison).

Fixpoint insert (x : A) (l : list A) : list A :=
  match l with
  | [] => [x]
  | y :: l' =>
      match cmp x y with
      | Gt => y :: insert x l'
      | _ => x :: l
      end
  end.

Fixpoint sort (l : list A) : list A :=
  match l with
  | [] => []
  | x :: l' => insert x (sort l')
  end.

(** A second stable algorithm, the insertion run the other way round:
    the elements are taken from the left and each one is put behind
    every element that does not sort after it. *)
Fixpoint insert_behind (x : A) (l : list A) : list A :=
  match l with
  | [] => [x]
  | y :: l' =>
      match cmp y x with
      | Gt => x :: l
      | _ => y :: insert_behind x l'
      end
  end.

Definition sort_left (l : list A) : list A :=
  fold_left (fun acc x => insert_behind x acc) l [].
End Sort.

End Js.

Arguments Js.round64 : simpl never.
Arguments Js.number_value : simpl never.
Arguments Js.number_to_string : simpl never.
Arguments Js.json : simpl never.


(* ================================================================= *)
(** ** Data model of the controller *)

(** An element of the array [searchToolsByVector] resolves to. *)
Module Candidate.
Record t : Type := mk {
  serverName : string;
  toolName : string;
  description : string;
  inputSchema : Js.value;
  similarity : Q
}.
End Candidate.

(** A tool as pushed into its server's group. *)
Module Tool.
Record t : Type := mk {
  name : string;
  description : string;
  inputSchema : Js.value;
  similarity : Q;
  serverName : string
}.
End Tool.

(** A value of [serverMap]. *)
Module Group.
Record t : Type := mk {
  serverName : string;
  tools : list Tool.t
}.
End Group.

(** An element of [servers]. *)
Module Server.
Record t : Type := mk {
  serverName : string;
  tools : list Tool.t;
  maxSimilarity : Js.num;
  avgSimilarity : Js.num
}.
End Server.

Record Metadata : Type := {
  meta_query : string;
  meta_threshold : Q;
  totalResults : nat;
  serverCount : nat;
  guideline : string;
  nextSteps : string
}.

(** [ToolCallResult] *)
Record ToolCallResult : Type := {
  content : option (list Js.value);
  isError : option bool
}.

Inductive ResponseData : Type :=
| SearchData (tools : list Candidate.t) (servers : list Server.t)
             (metadata : Metadata)
| CallData (content : list Js.value) (toolName : Js.value)
           (arguments : Js.value).

(** [ApiResponse] *)
Record ApiResponse : Type := {
  success : bool;
  message : option string;
  error : option string;
  data : option ResponseData
}.

(** What the handler leaves in [res]: the status and the JSON body. *)
Record HttpResponse : Type := {
  status : Z;
  body : ApiResponse
}.

(** The parts of an Express request the handlers read.  The body is the
    object the JSON body parser produced, as its list of fields; a field
    that is not there reads as [undefined]. *)
Record Request : Type := {
  req_body : list (string * Js.value);
  req_params_server : option string;
  req_header_x_session_id : option string
}.

Record ToolCallArguments : Type := {
  call_toolName : Js.value;
  call_arguments : Js.value
}.

Record MockRequest : Type := {
  params_name : string;
  params_arguments : ToolCallArguments
}.

Record Extra : Type := {
  sessionId : string;
  server : option string
}.

Record SmartRoutingConfig : Type := {
  enabled : bool
}.

(* ================================================================= *)
(** ** Effects: exceptions and the trace of outside calls *)

Inductive thrown : Type :=
| ErrorObject (message : string)      (* [error instanceof Error] *)
| OtherThrown.

Inductive outcome (A : Type) : Type :=
| Returned (a : A)
| Threw (e : thrown).
Arguments Returned {A} a.
Arguments Threw {A} e.

Inductive event : Type :=
| GetSmartRoutingConfig
| SearchToolsByVector (query : string) (limit : Z) (threshold : Q)
| HandleCallToolRequest (request : MockRequest) (extra : Extra)
| ConsoleLog (threshold : Q) (query : string)
| ConsoleError (label : string) (e : thrown).

(** The collaborators, as they answer while one request is handled. *)
Record Env : Type := {
  getSmartRoutingConfig : outcome SmartRoutingConfig;
  searchToolsByVector : string -> Z -> Q -> outcome (list Candidate.t);
  handleCallToolRequest : MockRequest -> Extra -> outcome ToolCallResult
}.

Definition M (A : Type) : Type := list event -> outcome A * list event.

Definition ret {A : Type} (a : A) : M A := fun tr => (Returned a, tr).

Definition bind {A B : Type} (c : M A) (k : A -> M B) : M B :=
  fun tr =>
    match c tr with
    | (Returned a, tr') => k a tr'
    | (Threw e, tr') => (Threw e, tr')
    end.

(** A step that may throw and does nothing outside. *)
Definition lift {A : Type} (o : outcome A) : M A := fun tr => (o, tr).

(** A call to the outside: recorded, then answered. *)
Definition call {A : Type} (ev : event) (answer : outcome A) : M A :=
  fun tr => (answer, (tr ++ [ev])%list).

Definition emit (ev : event) : M unit := call ev (Returned tt).

Definition try_catch {A : Type} (c : M A) (handler : thrown -> M A) : M A :=
  fun tr =>
    match c tr with
    | (Returned a, tr') => (Returned a, tr')
    | (Threw e, tr') => handler e tr'
    end.

Notation "x <- c ;; k" := (bind c (fun x => k))
  (at level 61, c at next level, right associativity).
Notation "c ;;; k" := (bind c (fun _ => k))
  (at level 61, right associativity).

(** Runs a handler from an empty trace. *)
Definition run {A : Type} (c : M A) : outcome A * list event := c [].

(* ================================================================= *)
(** ** searchTools *)

(** [!query || typeof query !== 'string'] fails exactly when this is
    [Some]: the test narrows [query] to a non-empty string. *)
Definition checked_query (query : Js.value) : option string :=
  if negb (Js.truthy query)
     || negb (Js.type_tag_eqb (Js.typeof query) Js.TString)
  then None
  else match query with
       | Js.Str q => Some q
       | _ => None
       end.

(** [Math.min(Math.max(parseInt(String(limit)) || 10, 1), 100)]; it
    throws when [String(limit)] does. *)
Definition limitNum (limit : Js.value) : outcome Z :=
  match Js.ToString limit with
  | Some text =>
      Returned (Z.min (Z.max (Js.number_or (Js.parseInt text) 10) 1) 100)
  | None => Threw (ErrorObject Js.cannot_convert)
  end.

Definition is_number (v : Js.value) : bool :=
  Js.type_tag_eqb (Js.typeof v) Js.TNumber.

(** The threshold handed to the vector search: the [let thresholdNum] and
    the two assignments that may follow it. *)
Definition thresholdNum (threshold : Js.value) (query : string) : Q :=
  let thresholdNum :=
    match threshold with
    | Js.Number m e => Qmax 0 (Qmin 1 (Js.decimal_value m e))
    | _ => 0.65%Q
    end in
  if negb (is_number threshold) then
    let thresholdNum :=
      if (Z.of_nat (String.length query) <? 10)
         || (Z.of_nat (List.length (Js.split " " query)) <=? 2)
      then 0.5%Q else thresholdNum in
    let thresholdNum :=
      if (30 <? Z.of_nat (String.length query))
         || Js.includes query "specific" || Js.includes query "exact"
      then 0.75%Q else thresholdNum in
    thresholdNum
  else thresholdNum.

(** *** Ranking and grouping *)

(** [(a, b) => b.similarity - a.similarity] *)
Definition by_similarity (a b : Candidate.t) : comparison :=
  (Candidate.similarity b - Candidate.similarity a ?= 0)%Q.

Definition tool_by_similarity (a b : Tool.t) : comparison :=
  (Tool.similarity b - Tool.similarity a ?= 0)%Q.

(** [(a, b) => b.maxSimilarity - a.maxSimilarity] *)
Definition by_maxSimilarity (a b : Server.t) : comparison :=
  Js.sub_sign (Server.maxSimilarity b) (Server.maxSimilarity a).

(** The object pushed for a result. *)
Definition tool_of (result : Candidate.t) : Tool.t :=
  {| Tool.name := Candidate.toolName result;
     Tool.description := Candidate.description result;
     Tool.inputSchema := Candidate.inputSchema result;
     Tool.similarity := Candidate.similarity result;
     Tool.serverName := Candidate.serverName result |}.

(** [serverMap]: a [Map] keeps its keys in insertion order. *)
Definition ServerMap : Type := list (string * Group.t).

Definition Map_has (m : ServerMap) (k : string) : bool :=
  existsb (fun kv => String.eqb (fst kv) k) m.

Definition Map_set (m : ServerMap) (k : string) (v : Group.t) : ServerMap :=
  if Map_has m k
  then map (fun kv => if String.eqb (fst kv) k then (k, v) else kv) m
  else (m ++ [(k, v)])%list.

(** [serverMap.get(k)!.tools.push(tool)]: the group held under [k] grows
    by one tool.  It is only run after [k] was set. *)
Definition Map_push (m : ServerMap) (k : string) (tool : Tool.t) : ServerMap :=
  map (fun kv =>
         if String.eqb (fst kv) k
         then (fst kv,
               {| Group.serverName := Group.serverName (snd kv);
                  Group.tools := (Group.tools (snd kv) ++ [tool])%list |})
         else kv) m.

(** The body of the [forEach]. *)
Definition group_step (serverMap : ServerMap) (result : Candidate.t)
  : ServerMap :=
  let k := Candidate.serverName result in
  let serverMap :=
    if negb (Map_has serverMap k)
    then Map_set serverMap k {| Group.serverName := k; Group.tools := [] |}
    else serverMap in
  Map_push serverMap k (tool_of result).

Definition group_by_server (sortedResults : list Candidate.t) : ServerMap :=
  fold_left group_step sortedResults [].

(** The rest of the pipeline calls [Array.prototype.sort] three times.
    It is written over the sort the engine provides; the handler runs it
    with [Js.sort]. *)
Section Pipeline.
Variable array_sort :
  forall A : Type, (A -> A -> comparison) -> list A -> list A.

(** The object built by the [map] over [serverMap.values()]. *)
Definition score_server_with (server : Group.t) : Server.t :=
  let tools := array_sort _ tool_by_similarity (Group.tools server) in
  {| Server.serverName := Group.serverName server;
     Server.tools := tools;
     Server.maxSimilarity := Js.Math_max (map Tool.similarity tools);
     Server.avgSimilarity :=
       Js.div_length
         (fold_left (fun sum tool => Js.add sum (Js.Fin (Tool.similarity tool)))
                    tools (Js.Fin 0))
         (List.length tools) |}.

Definition rank_servers_with (sortedResults : list Candidate.t)
  : list Server.t :=
  array_sort _ by_maxSimilarity
             (map (fun kv => score_server_with (snd kv))
                  (group_by_server sortedResults)).

Definition search_data_with (query : string) (thresholdNum : Q)
           (searchResults : list Candidate.t) : ResponseData :=
  let sortedResults := array_sort _ by_similarity searchResults in
  let servers := rank_servers_with sortedResults in
  SearchData sortedResults servers
    {| meta_query := query;
       meta_threshold := thresholdNum;
       totalResults := List.length sortedResults;
       serverCount := List.length servers;
       guideline :=
         if (0 <? Z.of_nat (List.length sortedResults))
         then "Found relevant tools. If these tools don't match exactly what you need, try another search with more specific keywords."
         else "No tools found. Try broadening your search or using different keywords.";
       nextSteps :=
         if (0 <? Z.of_nat (List.length sortedResults))
         then "Use the found tools in your servers."
         else "Consider searching for related capabilities or more general terms." |}.
End Pipeline.

Definition score_server : Group.t -> Server.t :=
  score_server_with (@Js.sort).

Definition rank_servers : list Candidate.t -> list Server.t :=
  rank_servers_with (@Js.sort).

Definition search_data : string -> Q -> list Candidate.t -> ResponseData :=
  search_data_with (@Js.sort).

(** *** The handler *)

Definition failure (code : Z) (msg : string) : HttpResponse :=
  {| status := code;
     body := {| success := false; message := Some msg;
                error := None; data := None |} |}.

Definition ok (d : ResponseData) : HttpResponse :=
  {| status := 200;
     body := {| success := true; message := None;
                error := None; data := Some d |} |}.

(** [error instanceof Error ? error.message : 'Unknown error occurred'] *)
Definition error_message (e : thrown) : string :=
  match e with
  | ErrorObject msg => msg
  | OtherThrown => "Unknown error occurred"
  end.

Definition internal_failure (msg : string) (e : thrown) : HttpResponse :=
  {| status := 500;
     body := {| success := false; message := Some msg;
                error := Some (error_message e); data := None |} |}.

Definition searchTools (env : Env) (req : Request) : M HttpResponse :=
  try_catch
    (let query := Js.field (req_body req) "query" in
     let limit :=
       Js.default_to (Js.field (req_body req) "limit") (Js.Number 10 0) in
     let threshold :=
       Js.default_to (Js.field (req_body req) "threshold")
                     (Js.Number 65 (-2)) in
     match checked_query query with
     | None =>
         ret (failure 400 "Query parameter is required and must be a string")
     | Some query =>
         smartRoutingConfig <-
           call GetSmartRoutingConfig (getSmartRoutingConfig env) ;;
         if negb (enabled smartRoutingConfig) then
           ret (failure 503
                  "Smart routing is not enabled. Please enable it in settings.")
         else
           limitNum <- lift (limitNum limit) ;;
           let thresholdNum := thresholdNum threshold query in
           emit (ConsoleLog thresholdNum query) ;;;
           searchResults <-
             call (SearchToolsByVector query limitNum thresholdNum)
                  (searchToolsByVector env query limitNum thresholdNum) ;;
           ret (ok (search_data query thresholdNum searchResults))
     end)
    (fun error =>
       emit (ConsoleError "Error searching tools:" error) ;;;
       ret (internal_failure "Failed to search tools" error)).

(* ================================================================= *)
(** ** callTool *)

(** [v || d] on an optional text. *)
Definition text_or (v : option string) (d : string) : string :=
  match v with
  | Some s => if String.eqb s "" then d else s
  | None => d
  end.

(** The envelope handed to [handleCallToolRequest]. *)
Definition mockRequest_of (toolName toolArgs : Js.value) : MockRequest :=
  {| params_name := "call_tool";
     params_arguments :=
       {| call_toolName := toolName; call_arguments := toolArgs |} |}.

(** [{ sessionId: req.headers['x-session-id'] || 'api-session',
       server: server || undefined }] *)
Definition extra_of (req : Request) : Extra :=
  {| sessionId := text_or (req_header_x_session_id req) "api-session";
     server := match req_params_server req with
               | Some s => if String.eqb s "" then None else Some s
               | None => None
               end |}.

(** [result.content || []] *)
Definition content_or_empty (result : ToolCallResult) : list Js.value :=
  match content result with
  | Some c => c
  | None => []
  end.

Definition callTool (env : Env) (req : Request) : M HttpResponse :=
  try_catch
    (let toolName := Js.field (req_body req) "toolName" in
     let toolArgs :=
       Js.default_to (Js.field (req_body req) "arguments") (Js.Object []) in
     if negb (Js.truthy toolName) then
       ret (failure 400 "toolName is required")
     else
       let mockRequest := mockRequest_of toolName toolArgs in
       let extra := extra_of req in
       result <-
         call (HandleCallToolRequest mockRequest extra)
              (handleCallToolRequest env mockRequest extra) ;;
       ret (ok (CallData (content_or_empty result) toolName toolArgs)))
    (fun error =>
       emit (ConsoleError "Error calling tool:" error) ;;;
       ret (internal_failure "Failed to call tool" error)).

(* ================================================================= *)
(** ** The search service of the frontend
       ([frontend/src/services/smartSearchService.ts]) *)

(** [s.trim()] *)
Fixpoint string_rev (s : string) : string :=
  match s with
  | EmptyString => EmptyString
  | String c s' => string_rev s' ++ String c EmptyString
  end.

Definition trim (s : string) : string :=
  string_rev (Js.trim_start (string_rev (Js.trim_start s))).

(** [s.endsWith(suffix)] *)
Definition ends_with (s suffix : string) : bool :=
  (String.length suffix <=? String.length s)%nat
  && String.eqb (String.substring (String.length s - String.length suffix)
                                  (String.length suffix) s)
                suffix.

Module Frontend.

(** [SearchTool], the fields the service reads.  Both are tested for
    truthiness before use, so each may be absent. *)
Record SearchTool : Type := {
  name : option string;
  serverName : option string
}.

(** An element of [allServers]: its name and, when it has them, the names
    of its tools. *)
Record Server : Type := {
  server_name : string;
  server_tools : option (list string)
}.

(** [searchData], the data of a search response as the service reads it:
    [servers] is [Some] when the field is an array, then holding the
    [serverName] of each entry; [tools] is [Some] when the field is truthy. *)
Record SearchData : Type := {
  servers : option (list string);
  tools : option (list SearchTool)
}.

(** [Set.prototype.add] on a set kept in insertion order. *)
Definition Set_add (set : list string) (k : string) : list string :=
  if existsb (String.eqb k) set then set else (set ++ [k])%list.

Definition Set_has (set : list string) (k : string) : bool :=
  existsb (String.eqb k) set.

(** A text that is there and not empty. *)
Definition present (s : option string) : bool :=
  match s with
  | Some s => negb (String.eqb s "")
  | None => false
  end.

(** The body of the [forEach] that collects the server names. *)
Definition collect_server_names (serverNames : list string)
           (tool : SearchTool) : list string :=
  let serverNames :=
    match serverName tool with
    | Some s => if present (Some s) then Set_add serverNames s
                else serverNames
    | None => serverNames
    end in
  match name tool with
  | Some n =>
      if present (Some n) && Js.includes n "/" then
        let parts := Js.split "/" n in
        if (2 <=? List.length parts)%nat
        then Set_add serverNames (List.hd "" parts)
        else serverNames
      else serverNames
  | None => serverNames
  end.

(** [serverTool.name === tool.name ||
     (tool.name && tool.name.endsWith(`/${serverTool.name}`))] *)
Definition tool_matches (tool : SearchTool) (serverTool : string) : bool :=
  match name tool with
  | Some n =>
      String.eqb serverTool n
      || (present (Some n) && ends_with n ("/" ++ serverTool))
  | None => false
  end.

(** [server.tools?.some(serverTool => ...)] *)
Definition owns_tool (server : Server) (tool : SearchTool) : bool :=
  match server_tools server with
  | Some serverTools => existsb (tool_matches tool) serverTools
  | None => false
  end.

Definition getServersFromSearchResults
           (searchResults : option (list SearchTool))
           (allServers : list Server) : list Server :=
  match searchResults with
  | None => []
  | Some [] => []
  | Some results =>
      let serverNames := fold_left collect_server_names results [] in
      filter (fun server =>
                Set_has serverNames (server_name server)
                || existsb (owns_tool server) results)
             allServers
  end.

(** [new Map(allServers.map(server => [server.name, server])).get(k)]:
    of several servers with one name the last is kept. *)
Definition Map_get (allServers : list Server) (k : string) : option Server :=
  find (fun server => String.eqb (server_name server) k) (List.rev allServers).

Definition getServersFromSearchResponse (searchData : SearchData)
           (allServers : list Server) : list Server :=
  match servers searchData with
  | Some entries =>
      (* .map(...).filter(Boolean) *)
      flat_map (fun entry =>
                  match Map_get allServers entry with
                  | Some server => [server]
                  | None => []
                  end) entries
  | None =>
      getServersFromSearchResults
        (Some (match tools searchData with
               | Some found => found
               | None => []
               end))
        allServers
  end.

(** *** The call to the search API *)

(** The JSON body of an API answer, the fields the service reads. *)
Record ApiBody : Type := {
  body_success : bool;
  body_message : option string;
  body_data : option SearchData
}.

(** What [fetch] resolves to; [json] is the outcome of [response.json()]. *)
Record Reply : Type := {
  ok : bool;
  reply_status : Z;
  statusText : string;
  json : outcome ApiBody
}.

(** The request handed to [fetch]: POST, JSON content type, the token
    header and the fields of the stringified body, as a JSON parser reads
    them back. *)
Record FetchRequest : Type := {
  url : string;
  x_auth_token : string;
  fetch_body : list (string * Js.value)
}.

Inductive event : Type :=
| Fetch (request : FetchRequest)
| ConsoleError (label : string) (e : thrown).

(** The browser and the helpers the service imports. *)
Record Env : Type := {
  getApiUrl : string -> string;
  token : option string;          (* localStorage.getItem('mcphub_token') *)
  fetch : FetchRequest -> outcome Reply
}.

(** The object [searchTools] resolves to. *)
Record SearchOutcome : Type := {
  outcome_success : bool;
  outcome_data : option SearchData;
  outcome_error : option string
}.

(** The text of the fallback error. *)
Definition search_failed : string := "搜索失败".

Definition console_label : string := "搜索工具失败:".

(** The [catch] clause. *)
Definition caught (request : FetchRequest) (error : thrown)
  : SearchOutcome * list event :=
  ({| outcome_success := false;
      outcome_data := None;
      outcome_error := Some (match error with
                             | ErrorObject msg => msg
                             | OtherThrown => search_failed
                             end) |},
   [Fetch request; ConsoleError console_label error]).

Definition searchTools (env : Env) (query : string)
           (limit threshold : Js.value) : SearchOutcome * list event :=
  let limit := Js.default_to limit (Js.Number 10 0) in
  let threshold := Js.default_to threshold (Js.Number 65 (-2)) in
  let request :=
    {| url := getApiUrl env "/tools/search";
       x_auth_token := text_or (token env) "";
       fetch_body := [("query", Js.Str query); ("limit", Js.json limit);
                      ("threshold", Js.json threshold)] |} in
  match fetch env request with
  | Threw error => caught request error
  | Returned response =>
      if negb (ok response) then
        caught request
               (ErrorObject ("HTTP "
                             ++ Js.number_to_string (reply_status response) 0
                             ++ ": " ++ statusText response))
      else
        match json response with
        | Threw error => caught request error
        | Returned data =>
            if negb (body_success data) then
              ({| outcome_success := false;
                  outcome_data := None;
                  outcome_error :=
                    Some (text_or (body_message data) search_failed) |},
               [Fetch request])
            else
              ({| outcome_success := true;
                  outcome_data := body_data data;
                  outcome_error := None |},
               [Fetch request])
        end
  end.

End Frontend.

(* ================================================================= *)
(** ** Definitions used to state the properties *)

(** The threshold policy in the words of the specification: start from
    0.65, the broadness rule sets 0.5, the specificity rule, applied
    after it, sets 0.75. *)
Definition spec_deriveThreshold (query : string) : Q :=
  let broad :=
    (Z.of_nat (String.length query) <? 10)
    || (Z.of_nat (List.length (Js.split " " query)) <=? 2) in
  let specific :=
    (30 <? Z.of_nat (String.length query))
    || Js.includes query "specific" || Js.includes query "exact" in
  if specific then 0.75%Q else if broad then 0.5%Q else 0.65%Q.

(** The values the handler destructures from the body. *)
Definition query_of (req : Request) : Js.value :=
  Js.field (req_body req) "query".

Definition limit_of (req : Request) : Js.value :=
  Js.default_to (Js.field (req_body req) "limit") (Js.Number 10 0).

Definition threshold_of (req : Request) : Js.value :=
  Js.default_to (Js.field (req_body req) "threshold") (Js.Number 65 (-2)).

Definition toolName_of (req : Request) : Js.value :=
  Js.field (req_body req) "toolName".

Definition toolArgs_of (req : Request) : Js.value :=
  Js.default_to (Js.field (req_body req) "arguments") (Js.Object []).



(** The literal [m * 10^e] is read as the number zero. *)
Definition reads_as_zero (m e : Z) : Prop :=
  exists q, Js.number_value m e = Js.Fin q /\ (q == 0)%Q.

(** *** The contract of [Array.prototype.sort] *)

Definition is_Eq (c : comparison) : bool :=
  match c with
  | Eq => true
  | _ => false
  end.

(** [cmp] orders the elements of [l] by a key, larger keys first; it is
    then a consistent comparison function for them. *)
Definition ranks_on {A : Type} (key : A -> Q) (cmp : A -> A -> comparison)
           (l : list A) : Prop :=
  forall x y, In x l -> In y l -> cmp x y = (key y ?= key x)%Q.

(** What the language demands of a sort called with such a comparison:
    the result is a rearrangement of the array, no element is followed by
    one that compares smaller, and elements that compare equal keep their
    order. *)
Definition sort_contract
           (array_sort : forall A : Type,
               (A -> A -> comparison) -> list A -> list A) : Prop :=
  forall (A : Type) (key : A -> Q) (cmp : A -> A -> comparison) (l : list A),
    ranks_on key cmp l ->
    Permutation (array_sort A cmp l) l /\
    StronglySorted (fun x y => cmp x y <> Gt) (array_sort A cmp l) /\
    (forall x, In x l ->
       filter (fun y => is_Eq (cmp x y)) (array_sort A cmp l) =
       filter (fun y => is_Eq (cmp x y)) l).

(** Larger key first. *)
Definition descending {A : Type} (key : A -> Q) (x y : A) : Prop :=
  (key y <= key x)%Q.

(** The elements of [l] whose key is [k]. *)
Definition with_key {A : Type} (key : A -> Q) (k : Q) (l : list A) : list A :=
  filter (fun y => Qeq_bool (key y) k) l.

(** The comparison induced by a key. *)
Definition key_compare {A : Type} (key : A -> Q) (x y : A) : comparison :=
  (key y ?= key x)%Q.

(** *** Grouping and aggregates *)

(** The tools of server [k] among the results, in their order. *)
Definition tools_of_server (k : string) (results : list Candidate.t)
  : list Tool.t :=
  map tool_of
      (filter (fun c => String.eqb (Candidate.serverName c) k) results).

(** What the [forEach] has built once it has gone through [results]. *)
Definition grouped (results : list Candidate.t) (m : ServerMap) : Prop :=
  NoDup (map fst m) /\
  (forall kv, In kv m ->
     Group.serverName (snd kv) = fst kv /\
     Group.tools (snd kv) = tools_of_server (fst kv) results /\
     Group.tools (snd kv) <> []) /\
  (forall c, In c results -> In (Candidate.serverName c) (map fst m)).

Definition Qsum (xs : list Q) : Q := fold_right Qplus 0%Q xs.

(** The binary64 number written [m * 10^e], when it is finite. *)
Definition double (m e : Z) : Q :=
  match Js.number_value m e with
  | Js.Fin q => q
  | _ => 0%Q
  end.

(** The mean as [reduce] and the division compute it: the binary64 sum
    of the numbers, taken from the left and from 0, divided by their
    count. *)
Definition mean64 (xs : list Q) : Js.num :=
  Js.div_length
    (fold_left (fun sum x => Js.add sum (Js.Fin x)) xs (Js.Fin 0))
    (List.length xs).

(** The key the servers are ordered by. *)
Definition max_key (s : Server.t) : Q :=
  match Server.maxSimilarity s with
  | Js.Fin q => q
  | _ => 0%Q
  end.

(** A server entry carries the largest similarity of its own tools and
    their mean as binary64 arithmetic gives it. *)
Definition scored (s : Server.t) : Prop :=
  exists mx : Q,
    Server.maxSimilarity s = Js.Fin mx /\
    In mx (map Tool.similarity (Server.tools s)) /\
    (forall t, In t (Server.tools s) -> (Tool.similarity t <= mx)%Q) /\
    Server.avgSimilarity s = mean64 (map Tool.similarity (Server.tools s)).

(** The number [n] is the finite value [q]. *)
Definition num_is (n : Js.num) (q : Q) : Prop :=
  match n with
  | Js.Fin a => (a == q)%Q
  | _ => False
  end.

(** Environments and requests on which the statements are exercised. *)
Definition env_of (cfg : outcome SmartRoutingConfig)
           (found : outcome (list Candidate.t))
           (dispatched : outcome ToolCallResult) : Env :=
  {| getSmartRoutingConfig := cfg;
     searchToolsByVector := fun _ _ _ => found;
     handleCallToolRequest := fun _ _ => dispatched |}.

Definition request_of (fields : list (string * Js.value)) : Request :=
  {| req_body := fields;
     req_params_server := None;
     req_header_x_session_id := None |}.

(** Candidates with equal scores on two servers. *)
Definition tied_candidates : list Candidate.t :=
  [ Candidate.mk "A" "x" "" (Js.Object []) (double 9 (-1));
    Candidate.mk "B" "y" "" (Js.Object []) (double 9 (-1));
    Candidate.mk "A" "z" "" (Js.Object []) (double 9 (-1));
    Candidate.mk "B" "w" "" (Js.Object []) (double 95 (-2)) ].

(** A dispatch result that reports a failed tool and has no content. *)
Definition failed_tool_result : ToolCallResult :=
  {| content := None; isError := Some true |}.

(* ================================================================= *)
(** ** The configuration offered by a server card ([ServerCard])

    [generateSingleServerConfig] and [generateCursorDeepLinkConfig] of
    [frontend/src/components/ServerCard.tsx].  Both read the stored
    settings with [GET /settings] and fall back on the [config] of the
    server on the card.  The settings are JSON; their fields are typed
    here as the code uses them (strings, an array of strings, string
    dictionaries), each of them optional, and the server's name is not
    the name of a property every object inherits. *)

Module Card.

Definition Dict : Type := list (string * string).

(** An entry of [mcpServers], and the [config] of a [Server]. *)
Record ServerConfig : Type := {
  type : option string;
  url : option string;
  command : option string;
  args : option (list string);
  env : option Dict;
  headers : option Dict
}.

Record Server : Type := {
  name : string;
  config : option ServerConfig
}.

(** The answer of [GET /settings], as far as the card reads it. *)
Record SettingsData : Type := {
  mcpServers : option (list (string * ServerConfig))
}.

Record SettingsBody : Type := {
  success : bool;
  data : option SettingsData
}.

Record Response : Type := {
  ok : bool;
  json : outcome SettingsBody
}.

(** What a generator returns. *)
Inductive Config : Type :=
| Stdio (command : string) (args : list string) (env : option Dict)
| CommandLine (command : string) (env : option Dict)
| Remote (url type : string) (headers : option Dict)
| Stored (serverSettings : ServerConfig).

(** [o[key]] *)
Fixpoint property (key : string) (o : list (string * ServerConfig))
  : option ServerConfig :=
  match o with
  | [] => None
  | (k, v) :: o' => if (k =? key)%string then Some v else property key o'
  end.

(** A string field that is truthy. *)
Definition truthy_string (s : option string) : option string :=
  match s with
  | Some (String _ _ as v) => Some v
  | _ => None
  end.

(** [s || d] *)
Definition or_string (s : option string) (d : string) : string :=
  match truthy_string s with
  | Some v => v
  | None => d
  end.

(** [...(d && Object.keys(d).length > 0 && { d })] *)
Definition when_filled (d : option Dict) : option Dict :=
  match d with
  | Some (_ :: _) => d
  | _ => None
  end.

(** [serverSettings.command && (!serverSettings.type ||
    serverSettings.type === 'stdio')], with the command where it holds. *)
Definition stdio_command (serverSettings : ServerConfig) : option string :=
  match truthy_string (command serverSettings) with
  | Some c =>
      match truthy_string (type serverSettings) with
      | None => Some c
      | Some t => if (t =? "stdio")%string then Some c else None
      end
  | None => None
  end.

Definition default_package (name : string) : string :=
  "@modelcontextprotocol/server-" ++ name.

(** The completion of the package name of an [npx -y <package>]. *)
Definition complete_args (name command : string) (args : list string)
  : list string :=
  match args with
  | [flag; package] =>
      if (command =? "npx")%string && (flag =? "-y")%string then
        if negb (String.prefix "@" package) && negb (Js.includes package "/")
        then [flag; default_package name]
        else args
      else args
  | _ => args
  end.

(** [args.join(' ')] *)
Definition join (args : list string) : string := String.concat " " args.

(** The [try] block up to the entry of the server: the outcome of the
    block ([fetch] or [json] may reject) and the entry, if any. *)
Definition stored_settings (fetch : outcome Response) (server : Server)
  : outcome (option ServerConfig) :=
  match fetch with
  | Threw e => Threw e
  | Returned response =>
      if ok response then
        match json response with
        | Threw e => Threw e
        | Returned result =>
            Returned
              (if success result then
                 match data result with
                 | Some d =>
                     match mcpServers d with
                     | Some servers => property (name server) servers
                     | None => None
                     end
                 | None => None
                 end
               else None)
        end
      else Returned None
  end.

(** The remote configurations, the same in both generators. *)
Definition remote_config (c : ServerConfig) : option Config :=
  match type c with
  | Some t =>
      if (t =? "sse")%string then
        Some (Remote (or_string (url c) "") "sse" None)
      else if (t =? "streamable-http")%string then
        Some (Remote (or_string (url c) "") "streamable-http"
                (when_filled (headers c)))
      else None
  | None => None
  end.

Definition settings_error : string := "Error fetching server settings:".

(** *** generateSingleServerConfig *)

Definition single_of_settings (server : Server) (serverSettings : ServerConfig)
  : Config :=
  match stdio_command serverSettings with
  | Some c =>
      let a := match args serverSettings with
               | Some a => a
               | None => ["-y"; name server]
               end in
      Stdio c (complete_args (name server) c a)
        (when_filled (env serverSettings))
  | None => Stored serverSettings
  end.

Definition single_of_server (server : Server) : Config :=
  match config server with
  | None => Stdio "npx" ["-y"; default_package (name server)] None
  | Some c =>
      match remote_config c with
      | Some remote => remote
      | None =>
          let cmd := or_string (command c) "npx" in
          let a := match args c with
                   | Some a => a
                   | None => ["-y"; name server]
                   end in
          Stdio cmd (complete_args (name server) cmd a) (when_filled (env c))
      end
  end.

Definition generateSingleServerConfig
    (fetch : outcome Response) (server : Server) : Config * list event :=
  match stored_settings fetch server with
  | Returned (Some serverSettings) =>
      (single_of_settings server serverSettings, [])
  | Returned None => (single_of_server server, [])
  | Threw e => (single_of_server server, [ConsoleError settings_error e])
  end.

(** *** generateCursorDeepLinkConfig *)

Definition deep_link_of_settings
    (server : Server) (serverSettings : ServerConfig) : Config :=
  match stdio_command serverSettings with
  | Some c =>
      let fullCommand :=
        match args serverSettings with
        | Some ((_ :: _) as a) => c ++ " " ++ join a
        | _ => c ++ " -y @modelcontextprotocol/server-" ++ name server
        end in
      CommandLine fullCommand (when_filled (env serverSettings))
  | None => Stored serverSettings
  end.

Definition deep_link_of_server (server : Server) : Config :=
  match config server with
  | None =>
      CommandLine ("npx -y @modelcontextprotocol/server-" ++ name server) None
  | Some c =>
      match remote_config c with
      | Some remote => remote
      | None =>
          let cmd := or_string (command c) "npx" in
          let a := match args c with
                   | Some a => a
                   | None => ["-y"; default_package (name server)]
                   end in
          CommandLine (cmd ++ " " ++ join a) (when_filled (env c))
      end
  end.

Definition generateCursorDeepLinkConfig
    (fetch : outcome Response) (server : Server) : Config * list event :=
  match stored_settings fetch server with
  | Returned (Some serverSettings) =>
      (deep_link_of_settings server serverSettings, [])
  | Returned None => (deep_link_of_server server, [])
  | Threw e => (deep_link_of_server server, [ConsoleError settings_error e])
  end.

(** *** Notions used to state the properties of the two generators *)

(** The settings a generator works from: the stored entry, else the
    [config] of the server. *)
Definition settings_used (fetch : outcome Response) (server : Server)
  : option ServerConfig :=
  match stored_settings fetch server with
  | Returned (Some serverSettings) => Some serverSettings
  | _ => config server
  end.

(** The type of a remote server. *)
Definition is_remote (c : ServerConfig) : bool :=
  match type c with
  | Some t => (t =? "sse")%string || (t =? "streamable-http")%string
  | None => false
  end.

(** A launch configuration written as the single command line of a deep
    link. *)
Definition as_command_line (c : Config) : Config :=
  match c with
  | Stdio cmd a e => CommandLine (cmd ++ " " ++ join a) e
  | _ => c
  end.

(** What every generated configuration satisfies. *)
Definition well_formed (c : Config) : Prop :=
  match c with
  | Stdio cmd _ e => cmd <> "" /\ e <> Some []
  | CommandLine cmd e => cmd <> "" /\ e <> Some []
  | Remote _ t h =>
      h <> Some [] /\
      ((t = "sse" /\ h = None) \/ t = "streamable-http")
  | Stored serverSettings => stdio_command serverSettings = None
  end.

End Card.

(* ================================================================= *)
(** ** The search state of the servers page ([ServersPage]) *)

Module Page.

(** The state hooks the search reads and writes. *)
Record State : Type := {
  searchQuery : string;
  isSearching : bool;
  searchResults : option Frontend.SearchData;
  hasSearched : bool;
  searchThreshold : Js.value
}.

(** The toasts of the search:
    [t('pages.servers.search.results', { count })] as success,
    [t('pages.servers.search.noResults')] as info,
    [t('pages.servers.search.error', { error })] as error. *)
Inductive toast : Type :=
| ToastResults (count : nat)
| ToastNoResults
| ToastError (error : string).

Definition unknown_error : string := "未知错误".

(** [result.data.tools?.length || 0] *)
Definition toolCount (data : Frontend.SearchData) : nat :=
  match Frontend.tools data with
  | Some found => List.length found
  | None => 0
  end.

(** [handleSearch], from the state it is called in to the state once it
    has settled, with the calls it made and the toasts it showed.  The
    service it awaits catches every exception itself. *)
Definition handleSearch (env : Frontend.Env) (st : State)
  : State * list Frontend.event * list toast :=
  if String.eqb (trim (searchQuery st)) "" then
    ({| searchQuery := searchQuery st;
        isSearching := isSearching st;
        searchResults := None;
        hasSearched := false;
        searchThreshold := searchThreshold st |}, [], [])
  else
    let '(result, events) :=
      Frontend.searchTools env (trim (searchQuery st)) (Js.Number 20 0)
                           (searchThreshold st) in
    match (if Frontend.outcome_success result
           then Frontend.outcome_data result else None) with
    | Some data =>
        ({| searchQuery := searchQuery st;
            isSearching := false;
            searchResults := Some data;
            hasSearched := true;
            searchThreshold := searchThreshold st |},
         events,
         [if (0 <? toolCount data)%nat
          then ToastResults (toolCount data) else ToastNoResults])
    | None =>
        ({| searchQuery := searchQuery st;
            isSearching := false;
            searchResults := None;
            hasSearched := true;
            searchThreshold := searchThreshold st |},
         events,
         [ToastError (text_or (Frontend.outcome_error result) unknown_error)])
    end.

Definition handleClearSearch (st : State) : State :=
  {| searchQuery := "";
     isSearching := isSearching st;
     searchResults := None;
     hasSearched := false;
     searchThreshold := searchThreshold st |}.

(** [filteredServers] *)
Definition filteredServers (st : State) (servers : list Frontend.Server)
  : list Frontend.Server :=
  match searchResults st with
  | Some data =>
      if negb (hasSearched st) then servers
      else Frontend.getServersFromSearchResponse data servers
  | None => servers
  end.

End Page.

(* ================================================================= *)
(** ** The two sides on the wire

    The controller's answer is sent as JSON and read back by the
    service; the service's body is what the controller finds in
    [req.body]. *)

(** The data of an answer as the frontend reads it.  The flat tools of
    the controller carry [toolName], so their [name] is absent. *)
Definition view_of_data (d : ResponseData) : Frontend.SearchData :=
  match d with
  | SearchData found ranked _ =>
      {| Frontend.servers := Some (map Server.serverName ranked);
         Frontend.tools :=
           Some (map (fun c =>
                        {| Frontend.name := None;
                           Frontend.serverName :=
                             Some (Candidate.serverName c) |}) found) |}
  | CallData _ _ _ =>
      {| Frontend.servers := None; Frontend.tools := None |}
  end.

Definition body_of (r : ApiResponse) : Frontend.ApiBody :=
  {| Frontend.body_success := success r;
     Frontend.body_message := message r;
     Frontend.body_data := option_map view_of_data (data r) |}.

(** [response.ok] is a status from 200 to 299; [reason] gives the status
    text the server sends with a code. *)
Definition reply_of (reason : Z -> string) (r : HttpResponse)
  : Frontend.Reply :=
  {| Frontend.ok := (200 <=? status r) && (status r <=? 299);
     Frontend.reply_status := status r;
     Frontend.statusText := reason (status r);
     Frontend.json := Returned (body_of (body r)) |}.

(** A [fetch] answered by the search controller. *)
Definition served_by (backend : Env) (reason : Z -> string)
           (request : Frontend.FetchRequest) : outcome Frontend.Reply :=
  match fst (run (searchTools backend
                              (request_of (Frontend.fetch_body request)))) with
  | Returned r => Returned (reply_of reason r)
  | Threw e => Threw e
  end.

(* ================================================================= *)
(** ** Binary64 numbers *)

Lemma round_pos_cases (a : Q) :
  Js.round_pos a = Js.PosInfinity \/ exists r, Js.round_pos a = Js.Fin r.
Proof.
  unfold Js.round_pos; cbv zeta.
  destruct (Qle_bool _ _); eauto.
Qed.

(** Rounding gives a number: a literal is never read as NaN. *)
Lemma round64_not_NaN (x : Q) : Js.round64 x <> Js.NaN.
Proof.
  unfold Js.round64; cbv zeta; destruct (Qnum (Qred x)); [discriminate | |].
  - destruct (round_pos_cases (Qred x)) as [-> | [r ->]]; discriminate.
  - destruct (round_pos_cases (- Qred x)) as [-> | [r ->]]; discriminate.
Qed.

Lemma number_value_not_NaN (m e : Z) : Js.number_value m e <> Js.NaN.
Proof. apply round64_not_NaN. Qed.

(* ================================================================= *)
(** ** Properties of the handlers *)

(** *** What a run of [searchTools] does *)

Lemma checked_query_spec (v : Js.value) (q : string) :
  checked_query v = Some q <-> v = Js.Str q /\ q <> "".
Proof.
  unfold checked_query; split.
  - destruct v as [| |b|m e|s|items|fields]; simpl;
      rewrite ?orb_true_r; try discriminate.
    destruct (String.eqb_spec s ""); simpl; try discriminate.
    intros [= ->]; auto.
  - intros [-> Hq]; simpl.
    destruct (String.eqb_spec q ""); [contradiction | reflexivity].
Qed.

Lemma checked_query_not_string (v : Js.value) :
  Js.typeof v <> Js.TString -> checked_query v = None.
Proof.
  unfold checked_query; destruct v; simpl;
    rewrite ?orb_true_r; try reflexivity.
  intros H; now elim H.
Qed.

Lemma searchTools_rejects (env : Env) (req : Request) :
  checked_query (query_of req) = None ->
  run (searchTools env req) =
  (Returned (failure 400 "Query parameter is required and must be a string"),
   []).
Proof.
  unfold query_of; intros H.
  unfold run, searchTools, try_catch; rewrite H; reflexivity.
Qed.

Lemma searchTools_disabled (env : Env) (req : Request) (q : string)
      (cfg : SmartRoutingConfig) :
  checked_query (query_of req) = Some q ->
  getSmartRoutingConfig env = Returned cfg ->
  enabled cfg = false ->
  run (searchTools env req) =
  (Returned (failure 503
               "Smart routing is not enabled. Please enable it in settings."),
   [GetSmartRoutingConfig]).
Proof.
  unfold query_of; intros Hq Hc He.
  unfold run, searchTools, try_catch, bind, call; rewrite Hq, Hc, He.
  reflexivity.
Qed.

Lemma searchTools_enabled (env : Env) (req : Request) (q : string)
      (cfg : SmartRoutingConfig) (l : Z) :
  checked_query (query_of req) = Some q ->
  getSmartRoutingConfig env = Returned cfg ->
  enabled cfg = true ->
  limitNum (limit_of req) = Returned l ->
  let t := thresholdNum (threshold_of req) q in
  run (searchTools env req) =
  match searchToolsByVector env q l t with
  | Returned found =>
      (Returned (ok (search_data q t found)),
       [GetSmartRoutingConfig; ConsoleLog t q; SearchToolsByVector q l t])
  | Threw e =>
      (Returned (internal_failure "Failed to search tools" e),
       [GetSmartRoutingConfig; ConsoleLog t q; SearchToolsByVector q l t;
        ConsoleError "Error searching tools:" e])
  end.
Proof.
  intros Hq Hc He Hl; cbv zeta.
  unfold query_of, limit_of, threshold_of in *.
  unfold run, searchTools, try_catch, bind, call, emit, call, lift.
  rewrite Hq, Hc, He; cbn [negb]; cbv iota; rewrite Hl; cbn [app].
  match goal with
  | |- context [searchToolsByVector env q ?l ?t] =>
      destruct (searchToolsByVector env q l t)
  end; reflexivity.
Qed.

(** A limit without a text: the conversion throws before the threshold
    is looked at, nothing is logged but the error and no search is made. *)
Lemma searchTools_config_throws (env : Env) (req : Request) (q : string)
      (e : thrown) :
  checked_query (query_of req) = Some q ->
  getSmartRoutingConfig env = Threw e ->
  run (searchTools env req) =
  (Returned (internal_failure "Failed to search tools" e),
   [GetSmartRoutingConfig; ConsoleError "Error searching tools:" e]).
Proof.
  unfold query_of; intros Hq Hc.
  unfold run, searchTools, try_catch, bind, call; rewrite Hq, Hc.
  reflexivity.
Qed.

Lemma searchTools_limit_throws (env : Env) (req : Request) (q : string)
      (cfg : SmartRoutingConfig) (e : thrown) :
  checked_query (query_of req) = Some q ->
  getSmartRoutingConfig env = Returned cfg ->
  enabled cfg = true ->
  limitNum (limit_of req) = Threw e ->
  run (searchTools env req) =
  (Returned (internal_failure "Failed to search tools" e),
   [GetSmartRoutingConfig; ConsoleError "Error searching tools:" e]).
Proof.
  intros Hq Hc He Hl.
  unfold query_of, limit_of, threshold_of in *.
  unfold run, searchTools, try_catch, bind, call, emit, call, lift.
  rewrite Hq, Hc, He; cbn [negb]; cbv iota; rewrite Hl; reflexivity.
Qed.

Lemma limitNum_range (limit : Js.value) (l : Z) :
  limitNum limit = Returned l -> 1 <= l <= 100.
Proof.
  unfold limitNum; destruct (Js.ToString limit); [| discriminate].
  intros [= <-]; lia.
Qed.

(** *** What a run of [callTool] does *)

Lemma callTool_rejects (env : Env) (req : Request) :
  Js.truthy (toolName_of req) = false ->
  run (callTool env req) = (Returned (failure 400 "toolName is required"), []).
Proof.
  unfold toolName_of; intros H.
  unfold run, callTool, try_catch; rewrite H; reflexivity.
Qed.

Lemma callTool_dispatches (env : Env) (req : Request) :
  Js.truthy (toolName_of req) = true ->
  let m := mockRequest_of (toolName_of req) (toolArgs_of req) in
  let x := extra_of req in
  run (callTool env req) =
  match handleCallToolRequest env m x with
  | Returned result =>
      (Returned (ok (CallData (content_or_empty result)
                              (toolName_of req) (toolArgs_of req))),
       [HandleCallToolRequest m x])
  | Threw e =>
      (Returned (internal_failure "Failed to call tool" e),
       [HandleCallToolRequest m x; ConsoleError "Error calling tool:" e])
  end.
Proof.
  intros H; cbv zeta.
  unfold toolName_of, toolArgs_of in *.
  unfold run, callTool, try_catch, bind, call, emit, call.
  rewrite H; simpl.
  match goal with
  | |- context [handleCallToolRequest env ?m ?x] =>
      destruct (handleCallToolRequest env m x)
  end; reflexivity.
Qed.



(** *** The threshold policy *)

Lemma thresholdNum_derived (threshold : Js.value) (query : string) :
  is_number threshold = false ->
  thresholdNum threshold query = spec_deriveThreshold query.
Proof.
  intros H; unfold thresholdNum, spec_deriveThreshold; rewrite H; simpl.
  destruct threshold; try discriminate H;
    destruct (_ || Js.includes query "exact"); try reflexivity;
    destruct (_ || _); reflexivity.
Qed.

Lemma thresholdNum_explicit (m e : Z) (query : string) :
  thresholdNum (Js.Number m e) query =
  Qmax 0 (Qmin 1 (Js.decimal_value m e)).
Proof. reflexivity. Qed.

Lemma thresholdNum_omitted (req : Request) (query : string) :
  Js.field (req_body req) "threshold" = Js.Undefined ->
  thresholdNum (threshold_of req) query = 0.65%Q.
Proof.
  intros H; unfold threshold_of; rewrite H; reflexivity.
Qed.

(* ================================================================= *)
(** ** The stable sort *)

Lemma Qcompare_sub_0 (x y : Q) : (x - y ?= 0)%Q = (x ?= y)%Q.
Proof.
  unfold Qcompare, Qminus, Qplus, Qopp; simpl.
  rewrite Z.mul_1_r, Z.mul_opp_l, Z.add_opp_r.
  symmetry; apply Z.compare_sub.
Qed.

Section SortFacts.
Context {A : Type}.

Lemma insert_perm (cmp : A -> A -> comparison) (x : A) (l : list A) :
  Permutation (Js.insert cmp x l) (x :: l).
Proof.
  induction l as [| y l IH]; simpl; [reflexivity |].
  destruct (cmp x y); try reflexivity.
  rewrite IH; apply perm_swap.
Qed.

Lemma sort_perm (cmp : A -> A -> comparison) (l : list A) :
  Permutation (Js.sort cmp l) l.
Proof.
  induction l as [| x l IH]; simpl; [reflexivity |].
  rewrite insert_perm; now constructor.
Qed.

Lemma sort_In (cmp : A -> A -> comparison) (l : list A) (x : A) :
  In x (Js.sort cmp l) <-> In x l.
Proof.
  split; apply Permutation_in;
    [| symmetry]; apply sort_perm.
Qed.

Lemma sort_length (cmp : A -> A -> comparison) (l : list A) :
  List.length (Js.sort cmp l) = List.length l.
Proof. apply Permutation_length, sort_perm. Qed.

(** Only the comparisons between elements of the array matter. *)
Lemma insert_ext (cmp cmp' : A -> A -> comparison) (x : A) (l : list A) :
  (forall y, In y l -> cmp x y = cmp' x y) ->
  Js.insert cmp x l = Js.insert cmp' x l.
Proof.
  induction l as [| y l IH]; intros H; simpl; [reflexivity |].
  rewrite <- (H y) by now left.
  rewrite IH by (intros; apply H; now right).
  reflexivity.
Qed.

Lemma sort_ext (cmp cmp' : A -> A -> comparison) (l : list A) :
  (forall x y, In x l -> In y l -> cmp x y = cmp' x y) ->
  Js.sort cmp l = Js.sort cmp' l.
Proof.
  induction l as [| x l IH]; intros H; simpl; [reflexivity |].
  rewrite <- IH by (intros; apply H; now right).
  apply insert_ext; intros y Hy.
  apply H; [now left | right; now apply (sort_In cmp)].
Qed.

Variable key : A -> Q.

Lemma insert_sorted (x : A) (l : list A) :
  StronglySorted (descending key) l ->
  StronglySorted (descending key) (Js.insert (key_compare key) x l).
Proof.
  induction 1 as [| y l Hs IH Hy]; simpl.
  - repeat constructor.
  - unfold key_compare at 1.
    destruct (Qcompare_spec (key y) (key x)) as [E | E | E].
    + constructor; [now constructor |].
      constructor; [unfold descending; rewrite E; apply Qle_refl |].
      eapply Forall_impl; [| exact Hy].
      unfold descending; intros z Hz; now rewrite <- E.
    + constructor; [now constructor |].
      constructor; [now apply Qlt_le_weak |].
      eapply Forall_impl; [| exact Hy].
      unfold descending; intros z Hz.
      apply Qle_trans with (key y); [exact Hz | now apply Qlt_le_weak].
    + constructor; [exact IH |].
      eapply Permutation_Forall; [symmetry; apply insert_perm |].
      constructor; [now apply Qlt_le_weak | exact Hy].
Qed.

Lemma sort_sorted (l : list A) :
  StronglySorted (descending key) (Js.sort (key_compare key) l).
Proof.
  induction l as [| x l IH]; simpl; [constructor |].
  now apply insert_sorted.
Qed.

Lemma with_key_insert (k : Q) (x : A) (l : list A) :
  with_key key k (Js.insert (key_compare key) x l) =
  with_key key k (x :: l).
Proof.
  induction l as [| y l IH]; [reflexivity |].
  simpl Js.insert. unfold key_compare at 1.
  destruct (Qcompare_spec (key y) (key x)) as [E | E | E]; try reflexivity.
  unfold with_key in *; simpl in *; rewrite IH.
  destruct (Qeq_bool (key x) k) eqn:Hx; [| reflexivity].
  destruct (Qeq_bool (key y) k) eqn:Hy; [| reflexivity].
  apply Qeq_bool_iff in Hx, Hy.
  rewrite Hx, Hy in E; now apply Qlt_irrefl in E.
Qed.

Lemma sort_stable (k : Q) (l : list A) :
  with_key key k (Js.sort (key_compare key) l) = with_key key k l.
Proof.
  induction l as [| x l IH]; [reflexivity |].
  simpl Js.sort; rewrite with_key_insert.
  unfold with_key in *; simpl; now rewrite IH.
Qed.

(** A sorted list is determined by its elements of each key, in order. *)
Lemma sorted_stable_unique (l1 l2 : list A) :
  StronglySorted (descending key) l1 ->
  StronglySorted (descending key) l2 ->
  (forall k, with_key key k l1 = with_key key k l2) ->
  l1 = l2.
Proof.
  intros H1; revert l2.
  induction H1 as [| a l1 Hs1 IH Ha]; intros l2 H2 Hk.
  - destruct l2 as [| b l2]; [reflexivity |].
    specialize (Hk (key b)); unfold with_key in Hk; simpl in Hk.
    rewrite Qeq_bool_refl in Hk; discriminate.
  - destruct H2 as [| b l2 Hs2 Hb].
    + specialize (Hk (key a)); unfold with_key in Hk; simpl in Hk.
      rewrite Qeq_bool_refl in Hk; discriminate.
    + assert (Hab : (key b <= key a)%Q).
      { assert (In b (with_key key (key b) (a :: l1))) as Hin.
        { rewrite Hk; unfold with_key; simpl.
          rewrite Qeq_bool_refl; now left. }
        apply filter_In in Hin; destruct Hin as [[<- | Hin] _].
        - apply Qle_refl.
        - rewrite Forall_forall in Ha; now apply Ha. }
      assert (Hba : (key a <= key b)%Q).
      { assert (In a (with_key key (key a) (b :: l2))) as Hin.
        { rewrite <- Hk; unfold with_key; simpl.
          rewrite Qeq_bool_refl; now left. }
        apply filter_In in Hin; destruct Hin as [[<- | Hin] _].
        - apply Qle_refl.
        - rewrite Forall_forall in Hb; now apply Hb. }
      assert (E : (key a == key b)%Q) by now apply Qle_antisym.
      assert (Hhead : a = b).
      { specialize (Hk (key a)); unfold with_key in Hk; simpl in Hk.
        rewrite Qeq_bool_refl in Hk.
        assert (Qeq_bool (key b) (key a) = true) as Hb'
            by (apply Qeq_bool_iff; now symmetry).
        rewrite Hb' in Hk; now injection Hk. }
      subst b; f_equal.
      apply IH; [exact Hs2 |].
      intros k; specialize (Hk k); unfold with_key in *; simpl in Hk.
      destruct (Qeq_bool (key a) k); [now injection Hk | exact Hk].
Qed.
End SortFacts.

Lemma is_Eq_Qcompare (p q : Q) : is_Eq (p ?= q)%Q = Qeq_bool p q.
Proof.
  destruct (Qeq_bool p q) eqn:E.
  - apply Qeq_bool_iff, Qeq_alt in E; now rewrite E.
  - destruct (p ?= q)%Q eqn:C; try reflexivity.
    apply Qeq_alt, Qeq_bool_iff in C; congruence.
Qed.

Lemma StronglySorted_impl_in {A : Type} (R R' : A -> A -> Prop) (l : list A) :
  (forall x y, In x l -> In y l -> R x y -> R' x y) ->
  StronglySorted R l -> StronglySorted R' l.
Proof.
  intros H Hs; induction Hs as [| a l Hs IH Ha]; constructor.
  - apply IH; intros; apply H; simpl; auto.
  - rewrite Forall_forall in *; intros y Hy.
    apply H; simpl; auto.
Qed.

Lemma with_key_absent {A : Type} (key : A -> Q) (k : Q) (l : list A) :
  (forall x, In x l -> Qeq_bool (key x) k = false) ->
  with_key key k l = [].
Proof.
  intros H; induction l as [| y l IH]; [reflexivity |].
  unfold with_key in *; simpl; rewrite H by now left.
  apply IH; intros; apply H; now right.
Qed.

Lemma key_present_dec {A : Type} (key : A -> Q) (k : Q) (l : list A) :
  (exists x, In x l /\ Qeq_bool (key x) k = true) \/
  (forall x, In x l -> Qeq_bool (key x) k = false).
Proof.
  induction l as [| y l [[x [Hx E]] | IH]].
  - right; intros x [].
  - left; exists x; simpl; auto.
  - destruct (Qeq_bool (key y) k) eqn:E.
    + left; exists y; simpl; auto.
    + right; intros x [<- | Hx]; auto.
Qed.

(** The insertion sort meets the contract. *)
Lemma Js_sort_meets_contract : sort_contract (@Js.sort).
Proof.
  intros A key cmp l Hr.
  assert (Hk : Js.sort cmp l = Js.sort (key_compare key) l)
    by (apply sort_ext; exact Hr).
  split; [apply sort_perm | split].
  - rewrite Hk.
    apply StronglySorted_impl_in with (R := descending key);
      [| apply sort_sorted].
    intros x y Hx Hy Hd; apply sort_In in Hx, Hy.
    rewrite (Hr x y Hx Hy); now apply Qle_alt.
  - intros x Hx.
    transitivity (with_key key (key x) (Js.sort cmp l)).
    + apply filter_ext_in; intros y Hy; apply sort_In in Hy.
      rewrite (Hr x y Hx Hy); apply is_Eq_Qcompare.
    + rewrite Hk, sort_stable.
      apply filter_ext_in; intros y Hy.
      rewrite (Hr x y Hx Hy); symmetry; apply is_Eq_Qcompare.
Qed.

(** Two sorts that meet the contract agree: the engine's choice of
    algorithm cannot be observed. *)
Lemma contract_determines_sort
      (array_sort : forall A : Type,
          (A -> A -> comparison) -> list A -> list A)
      (A : Type) (key : A -> Q) (cmp : A -> A -> comparison) (l : list A) :
  sort_contract array_sort ->
  ranks_on key cmp l ->
  array_sort A cmp l = Js.sort cmp l.
Proof.
  intros Hc Hr.
  destruct (Hc A key cmp l Hr) as (Hp & Hs & Hst).
  assert (Hin : forall y, In y (array_sort A cmp l) -> In y l)
    by (intros y; apply Permutation_in; exact Hp).
  rewrite (sort_ext cmp (key_compare key) l Hr).
  apply (sorted_stable_unique key).
  - apply StronglySorted_impl_in with (R := fun x y => cmp x y <> Gt);
      [| exact Hs].
    intros x y Hx Hy Hd; apply Hin in Hx, Hy.
    rewrite (Hr x y Hx Hy) in Hd; now apply Qle_alt.
  - apply sort_sorted.
  - intros k; rewrite sort_stable.
    destruct (key_present_dec key k l) as [[x [Hx E]] | Habs].
    + transitivity (filter (fun y => is_Eq (cmp x y)) (array_sort A cmp l)).
      * apply filter_ext_in; intros y Hy; apply Hin in Hy.
        rewrite (Hr x y Hx Hy), is_Eq_Qcompare.
        destruct (Qeq_bool (key y) k) eqn:Ey.
        -- symmetry; apply Qeq_bool_trans with k;
             [exact Ey | now apply Qeq_bool_sym].
        -- destruct (Qeq_bool (key y) (key x)) eqn:Eyx; [| reflexivity].
           rewrite (Qeq_bool_trans _ _ _ Eyx E) in Ey; discriminate.
      * rewrite (Hst x Hx).
        apply filter_ext_in; intros y Hy.
        rewrite (Hr x y Hx Hy), is_Eq_Qcompare.
        destruct (Qeq_bool (key y) k) eqn:Ey.
        -- apply Qeq_bool_trans with k;
             [exact Ey | now apply Qeq_bool_sym].
        -- destruct (Qeq_bool (key y) (key x)) eqn:Eyx; [| reflexivity].
           rewrite (Qeq_bool_trans _ _ _ Eyx E) in Ey; discriminate.
    + rewrite !with_key_absent; auto.
Qed.

Lemma sort_of_sorted {A : Type} (key : A -> Q) (l : list A) :
  StronglySorted (descending key) l ->
  Js.sort (key_compare key) l = l.
Proof.
  intros H; apply (sorted_stable_unique key);
    [apply sort_sorted | exact H | intros k; apply sort_stable].
Qed.

(* ================================================================= *)
(** ** Grouping by server *)

Lemma Map_has_In (m : ServerMap) (k : string) :
  Map_has m k = true <-> In k (map fst m).
Proof.
  unfold Map_has; rewrite existsb_exists, in_map_iff; split.
  - intros [kv [Hin E]]; apply String.eqb_eq in E; eauto.
  - intros [kv [E Hin]]; exists kv; split; [exact Hin |].
    now apply String.eqb_eq.
Qed.

Lemma Map_push_keys (m : ServerMap) (k : string) (tool : Tool.t) :
  map fst (Map_push m k tool) = map fst m.
Proof.
  unfold Map_push; rewrite map_map; apply map_ext.
  intros kv; now destruct (String.eqb (fst kv) k).
Qed.

Lemma tools_of_server_snoc (k : string) (l : list Candidate.t)
      (c : Candidate.t) :
  tools_of_server k (l ++ [c])%list =
  (tools_of_server k l ++
   (if String.eqb (Candidate.serverName c) k then [tool_of c] else []))%list.
Proof.
  unfold tools_of_server; rewrite filter_app, map_app; simpl.
  now destruct (String.eqb (Candidate.serverName c) k).
Qed.

Lemma tools_of_server_none (k : string) (l : list Candidate.t) :
  (forall c, In c l -> Candidate.serverName c <> k) ->
  tools_of_server k l = [].
Proof.
  intros H; unfold tools_of_server.
  induction l as [| c l IH]; [reflexivity |]; simpl.
  destruct (String.eqb_spec (Candidate.serverName c) k) as [E | _].
  - now elim (H c (or_introl eq_refl)).
  - apply IH; intros; apply H; now right.
Qed.

Lemma grouped_push (l : list Candidate.t) (m : ServerMap) (c : Candidate.t) :
  grouped l m ->
  In (Candidate.serverName c) (map fst m) ->
  grouped (l ++ [c]) (Map_push m (Candidate.serverName c) (tool_of c)).
Proof.
  intros (Hnd & Hg & Hall) Hk; split; [| split].
  - now rewrite Map_push_keys.
  - intros kv Hin; unfold Map_push in Hin.
    apply in_map_iff in Hin; destruct Hin as [kv0 [E Hin0]].
    destruct (Hg kv0 Hin0) as (Hn & Ht & Hne).
    rewrite tools_of_server_snoc.
    destruct (String.eqb_spec (fst kv0) (Candidate.serverName c)) as [Ek | Ek];
      subst kv; simpl.
    + rewrite Ek, String.eqb_refl, <- Ek, <- Ht.
      repeat split; [exact Hn |].
      intros E; now apply app_eq_nil in E.
    + destruct (String.eqb_spec (Candidate.serverName c) (fst kv0));
        [now elim Ek |].
      rewrite app_nil_r; auto.
  - intros c' Hc'; rewrite Map_push_keys.
    apply in_app_or in Hc'; destruct Hc' as [Hc' | [<- | []]]; auto.
Qed.

Lemma group_step_grouped (l : list Candidate.t) (m : ServerMap)
      (c : Candidate.t) :
  grouped l m -> grouped (l ++ [c]) (group_step m c).
Proof.
  intros Hg; unfold group_step.
  destruct (Map_has m (Candidate.serverName c)) eqn:Hhas; simpl.
  - apply grouped_push; [exact Hg | now apply Map_has_In].
  - assert (Hnot : ~ In (Candidate.serverName c) (map fst m)).
    { intros Hin; apply Map_has_In in Hin; congruence. }
    unfold Map_set; rewrite Hhas.
    destruct Hg as (Hnd & Hg & Hall).
    set (k := Candidate.serverName c) in *.
    set (fresh := {| Group.serverName := k; Group.tools := [] |}).
    assert (Hnone : tools_of_server k l = []).
    { apply tools_of_server_none; intros c' Hc' E.
      apply Hnot; rewrite <- E; now apply Hall. }
    split; [| split].
    + rewrite Map_push_keys, map_app; simpl.
      apply Permutation_NoDup with (l := k :: map fst m).
      * apply Permutation_cons_append.
      * now constructor.
    + intros kv Hin; unfold Map_push in Hin.
      apply in_map_iff in Hin; destruct Hin as [kv0 [E Hin0]].
      rewrite tools_of_server_snoc; fold k.
      apply in_app_or in Hin0; destruct Hin0 as [Hin0 | [<- | []]].
      * destruct (Hg kv0 Hin0) as (Hn & Ht & Hne).
        assert (Ek : fst kv0 <> k).
        { intros Ek; apply Hnot; rewrite <- Ek; now apply in_map. }
        destruct (String.eqb_spec (fst kv0) k); [now elim Ek |].
        subst kv.
        destruct (String.eqb_spec k (fst kv0)); [now elim Ek |].
        rewrite app_nil_r; auto.
      * simpl in E; rewrite String.eqb_refl in E; subst kv; simpl.
        rewrite String.eqb_refl, Hnone; simpl.
        repeat split; discriminate.
    + intros c' Hc'; rewrite Map_push_keys, map_app; simpl.
      apply in_or_app.
      apply in_app_or in Hc'; destruct Hc' as [Hc' | [<- | []]]; auto.
      right; now left.
Qed.

Lemma group_by_server_grouped (l : list Candidate.t) :
  grouped l (group_by_server l).
Proof.
  unfold group_by_server.
  induction l as [| c l IH] using rev_ind.
  - split; [constructor | split]; intros ? [].
  - rewrite fold_left_app; simpl; now apply group_step_grouped.
Qed.

(* ================================================================= *)
(** ** The comparison functions and the aggregates *)

Lemma by_similarity_key (a b : Candidate.t) :
  by_similarity a b = key_compare Candidate.similarity a b.
Proof. apply Qcompare_sub_0. Qed.

Lemma tool_by_similarity_key (a b : Tool.t) :
  tool_by_similarity a b = key_compare Tool.similarity a b.
Proof. apply Qcompare_sub_0. Qed.

Lemma by_maxSimilarity_key (a b : Server.t) (x y : Q) :
  Server.maxSimilarity a = Js.Fin x ->
  Server.maxSimilarity b = Js.Fin y ->
  by_maxSimilarity a b = key_compare max_key a b.
Proof.
  intros Ha Hb; unfold by_maxSimilarity, key_compare, max_key.
  rewrite Ha, Hb; apply Qcompare_sub_0.
Qed.

Lemma by_similarity_ranks (l : list Candidate.t) :
  ranks_on Candidate.similarity by_similarity l.
Proof. intros a b _ _; apply by_similarity_key. Qed.

Lemma tool_by_similarity_ranks (l : list Tool.t) :
  ranks_on Tool.similarity tool_by_similarity l.
Proof. intros a b _ _; apply tool_by_similarity_key. Qed.

Lemma by_maxSimilarity_ranks (l : list Server.t) :
  (forall s, In s l -> exists x, Server.maxSimilarity s = Js.Fin x) ->
  ranks_on max_key by_maxSimilarity l.
Proof.
  intros H a b Ha Hb.
  destruct (H a Ha) as [x Hx], (H b Hb) as [y Hy].
  now apply by_maxSimilarity_key with x y.
Qed.

Lemma sort_by_similarity (l : list Candidate.t) :
  Js.sort by_similarity l = Js.sort (key_compare Candidate.similarity) l.
Proof. apply sort_ext; intros; apply by_similarity_key. Qed.

Lemma sort_tool_by_similarity (l : list Tool.t) :
  Js.sort tool_by_similarity l = Js.sort (key_compare Tool.similarity) l.
Proof. apply sort_ext; intros; apply tool_by_similarity_key. Qed.

Lemma Qmax_cases (a x : Q) : Qmax a x = a \/ Qmax a x = x.
Proof.
  unfold Qmax, GenericMinMax.gmax; destruct (a ?= x)%Q; auto.
Qed.

Lemma Math_max_from (xs : list Q) (a : Q) :
  exists m,
    fold_left (fun acc x =>
                 match acc with
                 | Js.Fin a => Js.Fin (Qmax a x)
                 | Js.NegInfinity => Js.Fin x
                 | Js.PosInfinity => Js.PosInfinity
                 | Js.NaN => Js.NaN
                 end) xs (Js.Fin a) = Js.Fin m /\
    (m = a \/ In m xs) /\
    (a <= m)%Q /\
    (forall x, In x xs -> (x <= m)%Q).
Proof.
  revert a; induction xs as [| x xs IH]; intros a; simpl.
  - exists a; repeat split; auto using Qle_refl; intros ? [].
  - destruct (IH (Qmax a x)) as (m & E & Hin & Hle & Hall).
    exists m; split; [exact E | split; [| split]].
    + destruct Hin as [-> | Hin]; [| auto].
      destruct (Qmax_cases a x) as [-> | ->]; auto.
    + apply Qle_trans with (Qmax a x); [apply Q.le_max_l | exact Hle].
    + intros y [E' | Hy]; [subst y | now apply Hall].
      apply Qle_trans with (Qmax a x); [apply Q.le_max_r | exact Hle].
Qed.

(** [Math.max] of a non-empty array is its largest element. *)
Lemma Math_max_spec (xs : list Q) :
  xs <> [] ->
  exists m, Js.Math_max xs = Js.Fin m /\ In m xs /\
            forall x, In x xs -> (x <= m)%Q.
Proof.
  destruct xs as [| a xs]; [congruence | intros _].
  unfold Js.Math_max; simpl.
  destruct (Math_max_from xs a) as (m & E & Hin & Hle & Hall).
  exists m; split; [exact E | split].
  - destruct Hin as [-> | Hin]; simpl; auto.
  - intros x [<- | Hx]; auto.
Qed.

Lemma sum_from (tools : list Tool.t) (start : Js.num) :
  fold_left (fun sum tool => Js.add sum (Js.Fin (Tool.similarity tool)))
            tools start =
  fold_left (fun sum x => Js.add sum (Js.Fin x))
            (map Tool.similarity tools) start.
Proof.
  revert start; induction tools as [| t tools IH]; intros start;
    [reflexivity | apply IH].
Qed.

Lemma tools_of_server_sorted (k : string) (l : list Candidate.t) :
  StronglySorted (descending Candidate.similarity) l ->
  StronglySorted (descending Tool.similarity) (tools_of_server k l).
Proof.
  unfold tools_of_server.
  induction 1 as [| c l Hs IH Hc]; simpl; [constructor |].
  destruct (String.eqb (Candidate.serverName c) k); [| exact IH].
  simpl; constructor; [exact IH |].
  rewrite Forall_forall in *; intros t Ht.
  apply in_map_iff in Ht; destruct Ht as [c' [<- Hc']].
  apply filter_In in Hc'; destruct Hc' as [Hc' _].
  exact (Hc c' Hc').
Qed.

(* ================================================================= *)
(** ** The ranked response *)

Lemma sorted_results_sorted (found : list Candidate.t) :
  StronglySorted (descending Candidate.similarity)
                 (Js.sort by_similarity found).
Proof. rewrite sort_by_similarity; apply sort_sorted. Qed.

(** What [score_server] makes of a group built from sorted results. *)
Lemma score_server_grouped (sorted : list Candidate.t) (m : ServerMap)
      (kv : string * Group.t) :
  StronglySorted (descending Candidate.similarity) sorted ->
  grouped sorted m ->
  In kv m ->
  Server.serverName (score_server (snd kv)) = fst kv /\
  Server.tools (score_server (snd kv)) = tools_of_server (fst kv) sorted /\
  Server.tools (score_server (snd kv)) <> [] /\
  scored (score_server (snd kv)).
Proof.
  intros Hs (Hnd & Hg & Hall) Hin.
  destruct (Hg kv Hin) as (Hn & Ht & Hne).
  assert (Htools : Js.sort tool_by_similarity (Group.tools (snd kv)) =
                   tools_of_server (fst kv) sorted).
  { rewrite sort_tool_by_similarity, Ht.
    apply sort_of_sorted, tools_of_server_sorted, Hs. }
  unfold scored, score_server, score_server_with.
  cbn [Server.serverName Server.tools Server.maxSimilarity
       Server.avgSimilarity].
  rewrite Htools, <- Ht.
  destruct (Group.tools (snd kv)) as [| t0 ts] eqn:Ets; [congruence |].
  repeat split; try assumption.
  destruct (Math_max_spec (map Tool.similarity (t0 :: ts)))
    as (mx & Emx & Hmx & Hle); [discriminate |].
  exists mx.
  split; [exact Emx |].
  split; [exact Hmx |].
  split; [intros t Ht'; apply Hle; now apply in_map |].
  unfold mean64; now rewrite sum_from, length_map.
Qed.

Lemma ranked_servers_In (sorted : list Candidate.t) (s : Server.t) :
  In s (rank_servers sorted) <->
  exists kv, In kv (group_by_server sorted) /\ s = score_server (snd kv).
Proof.
  unfold rank_servers, rank_servers_with.
  rewrite sort_In, in_map_iff; split; intros [kv [H1 H2]]; eauto.
Qed.





Lemma search_data_unfold (query : string) (t : Q) (found : list Candidate.t) :
  search_data query t found =
  SearchData (Js.sort by_similarity found)
             (rank_servers (Js.sort by_similarity found))
             {| meta_query := query;
                meta_threshold := t;
                totalResults := List.length (Js.sort by_similarity found);
                serverCount :=
                  List.length (rank_servers (Js.sort by_similarity found));
                guideline :=
                  if (0 <? Z.of_nat (List.length (Js.sort by_similarity found)))
                  then "Found relevant tools. If these tools don't match exactly what you need, try another search with more specific keywords."
                  else "No tools found. Try broadening your search or using different keywords.";
                nextSteps :=
                  if (0 <? Z.of_nat (List.length (Js.sort by_similarity found)))
                  then "Use the found tools in your servers."
                  else "Consider searching for related capabilities or more general terms." |}.
Proof. reflexivity. Qed.

Lemma ranked_server_spec (found : list Candidate.t) (s : Server.t) :
  In s (rank_servers (Js.sort by_similarity found)) ->
  In (Server.serverName s)
     (map fst (group_by_server (Js.sort by_similarity found))) /\
  Server.tools s =
    tools_of_server (Server.serverName s) (Js.sort by_similarity found) /\
  Server.tools s <> [] /\
  scored s.
Proof.
  intros Hin; apply ranked_servers_In in Hin.
  destruct Hin as [kv [Hkv ->]].
  destruct (score_server_grouped _ _ kv (sorted_results_sorted found)
              (group_by_server_grouped _) Hkv) as (Hn & Ht & Hne & Hsc).
  rewrite Hn; repeat split; auto.
  now apply in_map.
Qed.



Lemma rank_servers_by_key (found : list Candidate.t) :
  rank_servers (Js.sort by_similarity found) =
  Js.sort (key_compare max_key)
          (map (fun kv => score_server (snd kv))
               (group_by_server (Js.sort by_similarity found))).
Proof.
  unfold rank_servers, rank_servers_with.
  apply sort_ext; apply by_maxSimilarity_ranks.
  intros s Hs; apply in_map_iff in Hs; destruct Hs as [kv [<- Hkv]].
  destruct (score_server_grouped _ _ kv (sorted_results_sorted found)
              (group_by_server_grouped _) Hkv)
    as (_ & _ & _ & (mx & Hmx & _)).
  now exists mx.
Qed.

(** C7 (amended).  The flat list is in descending order of similarity, so
    is the tool list of every group; a group's [maxSimilarity] is the
    largest similarity of its tools; its [avgSimilarity] is their binary64
    sum, taken from the left in the order of the group, divided in
    binary64 by their number; the groups are in descending order of
    [maxSimilarity]. *)
Theorem ranking_is_ordered (found : list Candidate.t) :
  let sortedResults := Js.sort by_similarity found in
  let servers := rank_servers sortedResults in
  StronglySorted (descending Candidate.similarity) sortedResults /\
  (forall s, In s servers ->
     StronglySorted (descending Tool.similarity) (Server.tools s) /\
     scored s /\
     Server.maxSimilarity s = Js.Fin (max_key s)) /\
  StronglySorted (descending max_key) servers.
Proof.
  intros sortedResults servers; split; [| split].
  - apply sorted_results_sorted.
  - intros s Hs; apply ranked_server_spec in Hs.
    destruct Hs as (_ & Ht & _ & Hsc); split; [| split; [exact Hsc |]].
    + rewrite Ht; apply tools_of_server_sorted, sorted_results_sorted.
    + destruct Hsc as (mx & Hmx & _).
      unfold max_key; now rewrite Hmx.
  - unfold servers, sortedResults; rewrite rank_servers_by_key.
    apply sort_sorted.
Qed.

(** C7 (the claim fails).  The [avgSimilarity] of a group is not always
    the arithmetic mean of its similarities: for the two tools of
    similarity 0.9 and 0.8 the sum is rounded, and the result is the
    binary64 number written 0.8500000000000001, above the mean of the two
    numbers. *)
Lemma mean_is_rounded_counterexample :
  let x := Candidate.mk "A" "x" "" (Js.Object []) (double 9 (-1)) in
  let z := Candidate.mk "A" "z" "" (Js.Object []) (double 8 (-1)) in
  exists (A : Server.t) (avg : Q),
    rank_servers (Js.sort by_similarity [z; x]) = [A] /\
    map Tool.similarity (Server.tools A) = [double 9 (-1); double 8 (-1)] /\
    Server.avgSimilarity A = Js.Fin avg /\
    Js.num_to_string (Js.Fin avg) = "0.8500000000000001" /\
    ((double 9 (-1) + double 8 (-1)) / 2 < avg)%Q /\
    ~ (avg == Qsum (map Tool.similarity (Server.tools A))
              / inject_Z (Z.of_nat (List.length (Server.tools A))))%Q.
Proof.
  cbv zeta; do 2 eexists.
  split; [vm_compute; reflexivity |].
  split; [now vm_compute |].
  split; [reflexivity |].
  split; [now vm_compute |].
  split; [now vm_compute | now vm_compute].
Qed.

(* ================================================================= *)
(** ** Independence from the sorting algorithm *)

Section SortLeft.
Context {A : Type}.

Lemma insert_behind_perm (cmp : A -> A -> comparison) (x : A) (l : list A) :
  Permutation (Js.insert_behind cmp x l) (x :: l).
Proof.
  induction l as [| y l IH]; simpl; [reflexivity |].
  destruct (cmp y x); try reflexivity; rewrite IH; apply perm_swap.
Qed.

Lemma insert_behind_ext (cmp cmp' : A -> A -> comparison) (x : A)
      (l : list A) :
  (forall y, In y l -> cmp y x = cmp' y x) ->
  Js.insert_behind cmp x l = Js.insert_behind cmp' x l.
Proof.
  induction l as [| y l IH]; intros H; simpl; [reflexivity |].
  rewrite <- (H y) by now left.
  rewrite IH by (intros; apply H; now right).
  reflexivity.
Qed.

Lemma sort_left_from_ext (cmp cmp' : A -> A -> comparison)
      (l acc : list A) :
  (forall x y, In x (acc ++ l) -> In y (acc ++ l) -> cmp x y = cmp' x y) ->
  fold_left (fun acc x => Js.insert_behind cmp x acc) l acc =
  fold_left (fun acc x => Js.insert_behind cmp' x acc) l acc.
Proof.
  revert acc; induction l as [| x l IH]; intros acc H; simpl;
    [reflexivity |].
  rewrite (insert_behind_ext cmp cmp' x acc).
  - apply IH; intros a b Ha Hb; apply H.
    + eapply Permutation_in; [| exact Ha].
      rewrite insert_behind_perm; apply Permutation_middle.
    + eapply Permutation_in; [| exact Hb].
      rewrite insert_behind_perm; apply Permutation_middle.
  - intros y Hy; apply H; apply in_or_app; simpl; auto.
Qed.

Variable key : A -> Q.

Lemma insert_behind_sorted (x : A) (l : list A) :
  StronglySorted (descending key) l ->
  StronglySorted (descending key)
                 (Js.insert_behind (key_compare key) x l).
Proof.
  induction 1 as [| y l Hs IH Hy]; simpl.
  - repeat constructor.
  - unfold key_compare at 1.
    destruct (Qcompare_spec (key x) (key y)) as [E | E | E].
    + constructor; [exact IH |].
      eapply Permutation_Forall; [symmetry; apply insert_behind_perm |].
      constructor; [unfold descending; rewrite E; apply Qle_refl | exact Hy].
    + constructor; [exact IH |].
      eapply Permutation_Forall; [symmetry; apply insert_behind_perm |].
      constructor; [now apply Qlt_le_weak | exact Hy].
    + constructor; [now constructor |].
      constructor; [now apply Qlt_le_weak |].
      eapply Forall_impl; [| exact Hy].
      unfold descending; intros z Hz.
      apply Qle_trans with (key y); [exact Hz | now apply Qlt_le_weak].
Qed.

Lemma with_key_insert_behind (k : Q) (x : A) (l : list A) :
  StronglySorted (descending key) l ->
  with_key key k (Js.insert_behind (key_compare key) x l) =
  (with_key key k l ++ with_key key k [x])%list.
Proof.
  induction 1 as [| y l Hs IH Hy]; [reflexivity |].
  simpl Js.insert_behind. unfold key_compare at 1.
  destruct (Qcompare_spec (key x) (key y)) as [E | E | E];
    try (unfold with_key in *; simpl in *; rewrite IH;
         now destruct (Qeq_bool (key y) k)).
  unfold with_key; simpl.
  destruct (Qeq_bool (key x) k) eqn:Hx; [| now rewrite app_nil_r].
  assert (Hless : forall z, In z (y :: l) -> Qeq_bool (key z) k = false).
  { intros z Hz.
    destruct (Qeq_bool (key z) k) eqn:Ez; [| reflexivity].
    apply Qeq_bool_iff in Hx, Ez.
    assert (key z <= key y)%Q.
    { destruct Hz as [<- | Hz]; [apply Qle_refl |].
      rewrite Forall_forall in Hy; now apply Hy. }
    rewrite Ez, <- Hx in H.
    now elim (Qlt_not_le _ _ E). }
  pose proof (with_key_absent key k (y :: l) Hless) as Hnil.
  unfold with_key in Hnil; simpl in Hnil; now rewrite Hnil.
Qed.

Lemma sort_left_from_sorted (l acc : list A) :
  StronglySorted (descending key) acc ->
  StronglySorted (descending key)
    (fold_left (fun acc x => Js.insert_behind (key_compare key) x acc)
               l acc) /\
  forall k,
    with_key key k
      (fold_left (fun acc x => Js.insert_behind (key_compare key) x acc)
                 l acc) =
    with_key key k (acc ++ l).
Proof.
  revert acc; induction l as [| x l IH]; intros acc Hacc; simpl.
  - split; [exact Hacc | intros k; now rewrite app_nil_r].
  - destruct (IH _ (insert_behind_sorted x acc Hacc)) as [Hs Hk].
    split; [exact Hs |].
    intros k; rewrite Hk; unfold with_key.
    rewrite !filter_app.
    pose proof (with_key_insert_behind k x acc Hacc) as Hi.
    unfold with_key in Hi; rewrite Hi, <- app_assoc.
    f_equal; simpl; now destruct (Qeq_bool (key x) k).
Qed.

Lemma sort_left_by_key (l : list A) :
  Js.sort_left (key_compare key) l = Js.sort (key_compare key) l.
Proof.
  destruct (sort_left_from_sorted l [] (SSorted_nil _)) as [Hs Hk].
  apply (sorted_stable_unique key);
    [exact Hs | apply sort_sorted |].
  intros k; rewrite sort_stable; apply Hk.
Qed.
End SortLeft.

Lemma sort_left_is_sort {A : Type} (key : A -> Q)
      (cmp : A -> A -> comparison) (l : list A) :
  ranks_on key cmp l -> Js.sort_left cmp l = Js.sort cmp l.
Proof.
  intros Hr.
  rewrite (sort_ext cmp (key_compare key) l Hr), <- sort_left_by_key.
  unfold Js.sort_left; apply sort_left_from_ext; exact Hr.
Qed.

Lemma sort_left_meets_contract : sort_contract (@Js.sort_left).
Proof.
  intros A key cmp l Hr.
  rewrite (sort_left_is_sort key cmp l Hr).
  now apply Js_sort_meets_contract with key.
Qed.

Lemma score_server_with_contract
      (array_sort : forall A : Type,
          (A -> A -> comparison) -> list A -> list A)
      (server : Group.t) :
  sort_contract array_sort ->
  score_server_with array_sort server = score_server server.
Proof.
  intros Hc; unfold score_server, score_server_with.
  now rewrite (contract_determines_sort array_sort _ Tool.similarity _ _ Hc
                 (tool_by_similarity_ranks _)).
Qed.

Lemma search_data_with_contract
      (array_sort : forall A : Type,
          (A -> A -> comparison) -> list A -> list A)
      (query : string) (t : Q) (found : list Candidate.t) :
  sort_contract array_sort ->
  search_data_with array_sort query t found = search_data query t found.
Proof.
  intros Hc.
  assert (Hsorted : array_sort _ by_similarity found =
                    Js.sort by_similarity found)
    by exact (contract_determines_sort array_sort _ Candidate.similarity _ _
                Hc (by_similarity_ranks _)).
  assert (Hservers : rank_servers_with array_sort
                       (Js.sort by_similarity found) =
                     rank_servers (Js.sort by_similarity found)).
  { unfold rank_servers, rank_servers_with.
    rewrite (map_ext _ (fun kv => score_server (snd kv)))
      by (intros kv; now apply score_server_with_contract).
    apply contract_determines_sort with max_key; [exact Hc |].
    apply by_maxSimilarity_ranks.
    intros s Hs; apply in_map_iff in Hs; destruct Hs as [kv [<- Hkv]].
    destruct (score_server_grouped _ _ kv (sorted_results_sorted found)
                (group_by_server_grouped _) Hkv)
      as (_ & _ & _ & (mx & Hmx & _)).
    now exists mx. }
  unfold search_data, search_data_with.
  now rewrite Hsorted, Hservers.
Qed.

(** C9.  The response does not depend on the algorithm behind
    [Array.prototype.sort]: any two sorts that meet the contract of the
    language give, on the same candidates in the same order, the same
    tools, the same groups and the same metadata, ties included. *)
Theorem ranking_is_deterministic
        (sort1 sort2 : forall A : Type,
            (A -> A -> comparison) -> list A -> list A)
        (query : string) (t : Q) (found : list Candidate.t) :
  sort_contract sort1 ->
  sort_contract sort2 ->
  search_data_with sort1 query t found = search_data_with sort2 query t found.
Proof.
  intros H1 H2; now rewrite !search_data_with_contract.
Qed.

Lemma ranking_is_deterministic_witness :
  sort_contract (@Js.sort) /\
  sort_contract (@Js.sort_left) /\
  search_data_with (@Js.sort) "files" 0.5%Q tied_candidates =
  search_data_with (@Js.sort_left) "files" 0.5%Q tied_candidates.
Proof.
  split; [apply Js_sort_meets_contract |].
  split; [apply sort_left_meets_contract |].
  apply ranking_is_deterministic;
    [apply Js_sort_meets_contract | apply sort_left_meets_contract].
Defined.

(** The sum and the mean of 0.9 and 0.8 in binary64. *)
Lemma mean_of_scenario_group :
  Js.add (Js.add (Js.Fin 0) (Js.Fin (double 9 (-1)))) (Js.Fin (double 8 (-1)))
  = Js.Fin (double 17000000000000002 (-16)) /\
  mean64 [double 9 (-1); double 8 (-1)]
  = Js.Fin (double 8500000000000001 (-16)) /\
  mean64 [double 95 (-2)] = Js.Fin (double 95 (-2)).
Proof. vm_compute; repeat split. Qed.

(** C8 (as the code behaves).  The scenario of the specification:
    candidates x (server A, 0.9), y (server B, 0.95) and z (server A,
    0.8), threshold 0.5.  The tools come out as y, x, z; the groups as B
    (max 0.95, mean 0.95) then A (max 0.9); the metadata counts 3 results
    and 2 servers and carries the texts of the non-empty branch.  The mean
    of A is the binary64 number 0.8500000000000001: the sum of 0.9 and
    0.8 rounds to 1.7000000000000002. *)
Theorem scenario_three_candidates
        (query : string) (dx dy dz : string) (ix iy iz : Js.value) :
  let x := Candidate.mk "A" "x" dx ix (double 9 (-1)) in
  let y := Candidate.mk "B" "y" dy iy (double 95 (-2)) in
  let z := Candidate.mk "A" "z" dz iz (double 8 (-1)) in
  exists metadata : Metadata,
    search_data query 0.5%Q [x; y; z] =
    SearchData
      [y; x; z]
      [ {| Server.serverName := "B";
           Server.tools := [tool_of y];
           Server.maxSimilarity := Js.Fin (double 95 (-2));
           Server.avgSimilarity := Js.Fin (double 95 (-2)) |};
        {| Server.serverName := "A";
           Server.tools := [tool_of x; tool_of z];
           Server.maxSimilarity := Js.Fin (double 9 (-1));
           Server.avgSimilarity :=
             Js.Fin (double 8500000000000001 (-16)) |} ]
      metadata /\
    Js.num_to_string (Js.Fin (double 8500000000000001 (-16)))
      = "0.8500000000000001" /\
    meta_query metadata = query /\
    meta_threshold metadata = 0.5%Q /\
    totalResults metadata = 3%nat /\
    serverCount metadata = 2%nat /\
    guideline metadata =
      "Found relevant tools. If these tools don't match exactly what you need, try another search with more specific keywords." /\
    nextSteps metadata = "Use the found tools in your servers.".
Proof.
  intros x y z.
  exists {| meta_query := query;
            meta_threshold := 0.5%Q;
            totalResults := 3;
            serverCount := 2;
            guideline := "Found relevant tools. If these tools don't match exactly what you need, try another search with more specific keywords.";
            nextSteps := "Use the found tools in your servers." |}.
  split; [| split; [now vm_compute | repeat split]].
  subst x y z; vm_compute; reflexivity.
Qed.

(** C8 (the claim fails).  In the scenario the mean of server A is not
    0.85: it is the next binary64 number above it, which is written
    0.8500000000000001. *)
Lemma scenario_average_counterexample :
  let x := Candidate.mk "A" "x" "" (Js.Object []) (double 9 (-1)) in
  let y := Candidate.mk "B" "y" "" (Js.Object []) (double 95 (-2)) in
  let z := Candidate.mk "A" "z" "" (Js.Object []) (double 8 (-1)) in
  exists (B A : Server.t) (avgA : Q),
    rank_servers (Js.sort by_similarity [x; y; z]) = [B; A] /\
    Server.serverName A = "A" /\
    Server.avgSimilarity A = Js.Fin avgA /\
    Js.num_to_string (Js.Fin avgA) = "0.8500000000000001" /\
    Js.number_to_string 85 (-2) = "0.85" /\
    (double 85 (-2) < avgA)%Q /\
    ~ (avgA == 0.85)%Q.
Proof.
  cbv zeta; do 3 eexists.
  split; [vm_compute; reflexivity |].
  split; [reflexivity |].
  split; [reflexivity |].
  split; [now vm_compute |].
  split; [now vm_compute |].
  split; [now vm_compute | now vm_compute].
Qed.

(* ================================================================= *)
(** ** The two handlers at their boundary *)

(** C1 (the code departs from the claim).  A request for "sync files"
    that leaves the threshold out reaches the vector search with 0.65:
    the destructuring default makes the omitted threshold a number, so the
    derivation, which gives 0.5 for this query, is skipped. *)
Theorem omitted_threshold_is_not_derived (env : Env)
        (cfg : SmartRoutingConfig) :
  getSmartRoutingConfig env = Returned cfg ->
  enabled cfg = true ->
  spec_deriveThreshold "sync files" = 0.5%Q /\
  thresholdNum Js.Null "sync files" = 0.5%Q /\
  exists rest,
    snd (run (searchTools env (request_of [("query", Js.Str "sync files")]))) =
    GetSmartRoutingConfig
      :: ConsoleLog 0.65%Q "sync files"
      :: SearchToolsByVector "sync files" 10 0.65%Q
      :: rest.
Proof.
  intros Hc He.
  split; [reflexivity | split; [reflexivity |]].
  assert (Hl : limitNum (limit_of (request_of
                                     [("query", Js.Str "sync files")]))
               = Returned 10) by now vm_compute.
  rewrite (searchTools_enabled
             env (request_of [("query", Js.Str "sync files")])
             "sync files" cfg 10 eq_refl Hc He Hl).
  cbv zeta.
  change (thresholdNum
            (threshold_of (request_of [("query", Js.Str "sync files")]))
            "sync files") with 0.65%Q.
  destruct (searchToolsByVector env "sync files" 10 0.65%Q);
    simpl; eauto.
Qed.

Lemma omitted_threshold_is_not_derived_witness :
  spec_deriveThreshold "sync files" = 0.5%Q /\
  thresholdNum Js.Null "sync files" = 0.5%Q /\
  exists rest,
    snd (run (searchTools
                (env_of (Returned {| enabled := true |}) (Returned [])
                        (Threw OtherThrown))
                (request_of [("query", Js.Str "sync files")]))) =
    GetSmartRoutingConfig
      :: ConsoleLog 0.65%Q "sync files"
      :: SearchToolsByVector "sync files" 10 0.65%Q
      :: rest.
Proof.
  apply (omitted_threshold_is_not_derived
           (env_of (Returned {| enabled := true |}) (Returned [])
                   (Threw OtherThrown))
           {| enabled := true |}); reflexivity.
Defined.

(** C2.  When the dispatch returns a result, the handler answers with
    status 200 and [success: true]; the data carries the result's content
    with the tool name and the arguments of the request, whatever
    [isError] says, and an absent content becomes the empty sequence. *)
Theorem callTool_reports_success (env : Env) (req : Request)
        (result : ToolCallResult) :
  Js.truthy (toolName_of req) = true ->
  handleCallToolRequest env
    (mockRequest_of (toolName_of req) (toolArgs_of req)) (extra_of req) =
  Returned result ->
  fst (run (callTool env req)) =
  Returned
    {| status := 200;
       body := {| success := true; message := None; error := None;
                  data := Some (CallData (content_or_empty result)
                                         (toolName_of req)
                                         (toolArgs_of req)) |} |} /\
  (forall items, content result = Some items ->
                 content_or_empty result = items) /\
  (content result = None -> content_or_empty result = []).
Proof.
  intros Ht Hd.
  rewrite (callTool_dispatches env req Ht); cbv zeta; rewrite Hd.
  split; [reflexivity |].
  unfold content_or_empty; split; [intros items -> | intros ->]; reflexivity.
Qed.

Lemma callTool_reports_success_witness :
  fst (run (callTool
              (env_of (Threw OtherThrown) (Threw OtherThrown)
                      (Returned failed_tool_result))
              (request_of [("toolName", Js.Str "sync")]))) =
  Returned
    {| status := 200;
       body := {| success := true; message := None; error := None;
                  data := Some (CallData [] (Js.Str "sync")
                                         (Js.Object [])) |} |}.
Proof.
  exact (proj1 (callTool_reports_success
                  (env_of (Threw OtherThrown) (Threw OtherThrown)
                          (Returned failed_tool_result))
                  (request_of [("toolName", Js.Str "sync")])
                  failed_tool_result eq_refl eq_refl)).
Defined.



(** C5.  A search whose query is missing or is not a string, and an
    invocation whose tool name is missing, are answered 400 with an empty
    trace: no collaborator was called and nothing was written. *)
Theorem validation_precedes_downstream_work (env : Env) (req : Request) :
  (Js.typeof (query_of req) <> Js.TString ->
   run (searchTools env req) =
   (Returned (failure 400
                "Query parameter is required and must be a string"), [])) /\
  (toolName_of req = Js.Undefined ->
   run (callTool env req) =
   (Returned (failure 400 "toolName is required"), [])).
Proof.
  split; intros H.
  - now apply searchTools_rejects, checked_query_not_string.
  - apply callTool_rejects; now rewrite H.
Qed.

Lemma validation_precedes_downstream_work_witness :
  run (searchTools
         (env_of (Returned {| enabled := true |}) (Returned tied_candidates)
                 (Returned failed_tool_result))
         (request_of [("query", Js.Number 42 0)])) =
  (Returned (failure 400
               "Query parameter is required and must be a string"), []) /\
  run (callTool
         (env_of (Returned {| enabled := true |}) (Returned tied_candidates)
                 (Returned failed_tool_result))
         (request_of [("arguments", Js.Object [])])) =
  (Returned (failure 400 "toolName is required"), []).
Proof.
  split.
  - apply (proj1 (validation_precedes_downstream_work
                    (env_of (Returned {| enabled := true |})
                            (Returned tied_candidates)
                            (Returned failed_tool_result))
                    (request_of [("query", Js.Number 42 0)]))).
    discriminate.
  - apply (proj2 (validation_precedes_downstream_work
                    (env_of (Returned {| enabled := true |})
                            (Returned tied_candidates)
                            (Returned failed_tool_result))
                    (request_of [("arguments", Js.Object [])]))).
    reflexivity.
Defined.

(** C10.  The query is checked before the feature gate: with a missing or
    non-string query the answer is the 400 failure, not the 503 one, the
    configuration is not read, and the run is the same under any other
    environment, smart routing off or failing included. *)
Theorem query_check_precedes_feature_gate (env : Env) (req : Request) :
  Js.typeof (query_of req) <> Js.TString ->
  fst (run (searchTools env req)) =
    Returned (failure 400
                "Query parameter is required and must be a string") /\
  fst (run (searchTools env req)) <>
    Returned (failure 503
                "Smart routing is not enabled. Please enable it in settings.") /\
  ~ In GetSmartRoutingConfig (snd (run (searchTools env req))) /\
  (forall other : Env,
      run (searchTools other req) = run (searchTools env req)).
Proof.
  intros H.
  pose proof (fun e => searchTools_rejects e req
                         (checked_query_not_string _ H)) as Hrun.
  rewrite (Hrun env); simpl.
  split; [reflexivity | split; [discriminate | split; [tauto |]]].
  intros other; apply Hrun.
Qed.

Lemma query_check_precedes_feature_gate_witness :
  fst (run (searchTools
              (env_of (Returned {| enabled := false |}) (Returned [])
                      (Threw OtherThrown))
              (request_of [("limit", Js.Number 5 0)]))) =
  Returned (failure 400
              "Query parameter is required and must be a string").
Proof.
  refine (proj1 (query_check_precedes_feature_gate
                   (env_of (Returned {| enabled := false |}) (Returned [])
                           (Threw OtherThrown))
                   (request_of [("limit", Js.Number 5 0)]) _)).
  discriminate.
Defined.

(* ================================================================= *)
(** ** The text of an integer and its parse *)

Lemma append_assoc (a b c : string) : (a ++ b) ++ c = a ++ (b ++ c).
Proof. induction a as [| x a IH]; simpl; [reflexivity | now rewrite IH]. Qed.

Lemma append_nil_r (a : string) : a ++ "" = a.
Proof. induction a as [| x a IH]; simpl; [reflexivity | now rewrite IH]. Qed.

Lemma zeros_snoc (n : nat) : Js.zeros n ++ "0" = Js.zeros (S n).
Proof. induction n as [| n IH]; simpl; [reflexivity | now rewrite IH]. Qed.

Lemma digits_of_revapp (a b : uint) :
  Js.digits_of (revapp a b) = Js.digits_of (rev a) ++ Js.digits_of b.
Proof.
  unfold Js.digits_of; revert b.
  induction a as [| a IH | a IH | a IH | a IH | a IH | a IH | a IH | a IH
                  | a IH | a IH]; intros b;
    [reflexivity | ..];
    unfold rev; simpl revapp;
    rewrite (IH (_ b)), (IH (_ Nil)), append_assoc; reflexivity.
Qed.

(** The digits without their trailing zeros, and the zeros. *)
Lemma nztail_text (d : uint) :
  Js.digits_of (fst (Decimal.nztail d)) ++ Js.zeros (snd (Decimal.nztail d)) =
  Js.digits_of d /\
  nb_digits d = (nb_digits (fst (Decimal.nztail d)) +
                 snd (Decimal.nztail d))%nat.
Proof.
  unfold Decimal.nztail.
  set (aux := fix aux (d_rev : uint) : uint * nat :=
         match d_rev with
         | D0 d_rev0 => let (r, n) := aux d_rev0 in (r, S n)
         | _ => (d_rev, 0%nat)
         end).
  assert (H : forall x,
             Js.digits_of (fst (let (r, n) := aux x in (rev r, n))) ++
             Js.zeros (snd (let (r, n) := aux x in (rev r, n))) =
             Js.digits_of (rev x) /\
             nb_digits x =
             (nb_digits (fst (let (r, n) := aux x in (rev r, n))) +
              snd (let (r, n) := aux x in (rev r, n)))%nat).
  { intros x.
    induction x as [| x IH | x _ | x _ | x _ | x _ | x _ | x _ | x _
                    | x _ | x _];
      try (simpl; rewrite ?append_nil_r, ?DecimalFacts.nb_digits_rev;
           split; [reflexivity | simpl; lia]).
    simpl aux; destruct (aux x) as [r n]; simpl fst in *; simpl snd in *.
    destruct IH as [IH1 IH2]; split.
    - unfold rev at 2; simpl revapp.
      rewrite digits_of_revapp, <- IH1, append_assoc.
      now rewrite <- zeros_snoc.
    - simpl nb_digits; lia. }
  specialize (H (rev d)).
  now rewrite DecimalFacts.rev_rev, DecimalFacts.nb_digits_rev in H.
Qed.

Lemma of_uint_head (d : uint) :
  Pos.of_uint d =
  (DecimalPos.Unsigned.hd d * 10 ^ DecimalPos.Unsigned.usize (DecimalPos.Unsigned.tl d)
   + Pos.of_uint (DecimalPos.Unsigned.tl d))%N.
Proof.
  rewrite !DecimalPos.Unsigned.of_uint_alt.
  destruct d; simpl DecimalPos.Unsigned.hd; simpl DecimalPos.Unsigned.tl;
    [reflexivity | ..];
    unfold rev at 1; simpl revapp;
    rewrite DecimalPos.Unsigned.of_lu_revapp; simpl DecimalPos.Unsigned.of_lu;
    lia.
Qed.

Lemma parse_digits_digits_of (d : uint) (rest : string) (acc : Z) :
  Js.parse_digits 10 (Js.digits_of d ++ rest) true acc =
  Js.parse_digits 10 rest true
    (acc * 10 ^ Z.of_N (DecimalPos.Unsigned.usize d) + Z.of_N (Pos.of_uint d)).
Proof.
  revert acc.
  induction d as [| d IH | d IH | d IH | d IH | d IH | d IH | d IH | d IH
                  | d IH | d IH]; intros acc;
    [simpl; f_equal; lia | ..];
    rewrite (of_uint_head (_ d));
    simpl DecimalPos.Unsigned.hd; simpl DecimalPos.Unsigned.tl;
    simpl DecimalPos.Unsigned.usize;
    unfold Js.digits_of in *; simpl NilEmpty.string_of_uint;
    simpl append; cbn [Js.parse_digits];
    match goal with
    | |- context [Js.digit_value 10 ?c] =>
        let v := eval vm_compute in (Js.digit_value 10 c) in
        change (Js.digit_value 10 c) with v
    end;
    cbv beta iota;
    rewrite IH; f_equal;
    rewrite N2Z.inj_add, N2Z.inj_mul, N2Z.inj_pow, N2Z.inj_succ,
      Z.pow_succ_r by lia;
    simpl Z.of_N; ring.
Qed.

Lemma parseInt_digits_unsigned (d : uint) :
  Js.parseInt (Js.digits_of d) =
  match Js.parse_digits 10 (Js.digits_of d) false 0 with
  | Some n => Some (1 * n)
  | None => None
  end.
Proof.
  destruct d as [| d | d | d | d | d | d | d | d | d | d];
    try reflexivity.
  destruct d; reflexivity.
Qed.

Lemma parseInt_digits_negative (d : uint) :
  Js.parseInt (String "-" (Js.digits_of d)) =
  match Js.parse_digits 10 (Js.digits_of d) false 0 with
  | Some n => Some (-1 * n)
  | None => None
  end.
Proof.
  destruct d as [| d | d | d | d | d | d | d | d | d | d];
    try reflexivity.
  destruct d; reflexivity.
Qed.

Lemma parse_digits_value (d : uint) :
  d <> Nil ->
  Js.parse_digits 10 (Js.digits_of d) false 0 = Some (Z.of_N (Pos.of_uint d)).
Proof.
  intros Hd.
  transitivity (Js.parse_digits 10 (Js.digits_of d ++ "") true 0).
  - rewrite append_nil_r; destruct d; try reflexivity; congruence.
  - rewrite parse_digits_digits_of; simpl; f_equal.
Qed.

(** Text and parse of a positive integer of at most 21 digits. *)
Lemma positive_to_string_integer (p : positive) :
  (nb_digits (Pos.to_uint p) <= 21)%nat ->
  Js.positive_to_string p 0 = Js.digits_of (Pos.to_uint p).
Proof.
  intros Hn; unfold Js.positive_to_string.
  destruct (nztail_text (Pos.to_uint p)) as [Htext Hlen].
  set (d := Pos.to_uint p) in *.
  set (s := fst (Decimal.nztail d)) in *.
  rewrite Z.add_0_r.
  replace (Z.of_nat (nb_digits s) <=? Z.of_nat (nb_digits d)) with true
    by (symmetry; apply Z.leb_le; lia).
  replace (Z.of_nat (nb_digits d) <=? 21) with true
    by (symmetry; apply Z.leb_le; lia).
  simpl andb; cbv iota.
  rewrite <- Htext; f_equal; f_equal; lia.
Qed.

Lemma usize_nb_digits (d : uint) :
  DecimalPos.Unsigned.usize d = N.of_nat (nb_digits d).
Proof.
  induction d; simpl DecimalPos.Unsigned.usize; simpl nb_digits;
    [reflexivity | ..]; rewrite IHd; lia.
Qed.

Lemma to_uint_head (p : positive) :
  Pos.to_uint p <> Nil /\ (1 <= DecimalPos.Unsigned.hd (Pos.to_uint p))%N.
Proof.
  pose proof (DecimalPos.Unsigned.to_of (Pos.to_uint p)) as H.
  rewrite DecimalPos.Unsigned.of_to in H; simpl N.to_uint in H.
  pose proof (DecimalPos.Unsigned.to_uint_nonzero p) as Hz.
  pose proof (DecimalFacts.nzhead_nonzero (Pos.to_uint p)) as Hnz.
  unfold unorm in H.
  destruct (nzhead (Pos.to_uint p)) eqn:E; rewrite H in *;
    try (split; [discriminate | simpl; lia]).
  - now elim Hz.
  - now elim (Hnz u).
Qed.

(** An integer below [10^21] has at most 21 digits. *)
Lemma nb_digits_bound (p : positive) :
  Z.pos p < 10 ^ 21 -> (nb_digits (Pos.to_uint p) <= 21)%nat.
Proof.
  intros Hp.
  destruct (to_uint_head p) as [Hnil Hhd].
  pose proof (of_uint_head (Pos.to_uint p)) as Hv.
  rewrite DecimalPos.Unsigned.of_to, usize_nb_digits in Hv.
  assert (Hlen : nb_digits (Pos.to_uint p) =
                 S (nb_digits (DecimalPos.Unsigned.tl (Pos.to_uint p))))
    by (destruct (Pos.to_uint p); simpl; congruence).
  rewrite Hlen.
  set (n := nb_digits (DecimalPos.Unsigned.tl (Pos.to_uint p))) in *.
  destruct (Nat.le_gt_cases n 20) as [Hle | Hgt]; [lia |].
  exfalso.
  assert (Hpow : (10 ^ 21 <= 10 ^ N.of_nat n)%N)
    by (apply N.pow_le_mono_r; lia).
  assert (Hge : (10 ^ 21 <= N.pos p)%N) by nia.
  apply N2Z.inj_le in Hge; rewrite N2Z.inj_pow in Hge.
  simpl Z.of_N in Hge; lia.
Qed.

(** *** Integers of 22 digits and more: exponent notation *)

Lemma digits_of_app (a b : uint) :
  Js.digits_of (app a b) = Js.digits_of a ++ Js.digits_of b.
Proof.
  unfold app; now rewrite digits_of_revapp, DecimalFacts.rev_rev.
Qed.

Lemma digits_of_head (a b : uint) (rest : string) :
  Js.digits_of a ++ rest = Js.digits_of b ->
  (1 <= DecimalPos.Unsigned.hd b)%N ->
  a <> Nil ->
  DecimalPos.Unsigned.hd a = DecimalPos.Unsigned.hd b.
Proof.
  unfold Js.digits_of; intros E Hb Ha.
  destruct b; simpl in Hb; try lia;
    destruct a; try congruence; simpl in E; try discriminate E; reflexivity.
Qed.

Lemma nztail_head (d : uint) :
  (1 <= DecimalPos.Unsigned.hd d)%N ->
  fst (Decimal.nztail d) <> Nil /\
  DecimalPos.Unsigned.hd (fst (Decimal.nztail d)) = DecimalPos.Unsigned.hd d.
Proof.
  intros Hd; destruct (nztail_text d) as [Htext _].
  assert (Hs : fst (Decimal.nztail d) <> Nil).
  { intros E; rewrite E in Htext; simpl in Htext.
    destruct d; simpl in Hd; try lia;
      destruct (snd (Decimal.nztail _)); discriminate Htext. }
  split; [exact Hs | now apply digits_of_head with (2 := Hd) in Htext].
Qed.

Lemma single_digit (u : uint) :
  nb_digits u = 1%nat ->
  (1 <= DecimalPos.Unsigned.hd u)%N ->
  exists c, Js.digits_of u = String c "" /\
            forall rest, (rest = "" \/ exists r, rest = String "." r \/
                                                 rest = String "e" r) ->
              Js.parseInt (String "-" (String c rest)) =
              Some (- Z.of_N (DecimalPos.Unsigned.hd u)).
Proof.
  intros Hn Hh.
  destruct u as [| u | u | u | u | u | u | u | u | u | u];
    simpl in Hn, Hh; try lia;
    assert (u = Nil) by (apply DecimalFacts.nb_digits_0; lia); subst u;
    (eexists; split; [reflexivity |]);
    intros rest [-> | [r [-> | ->]]]; reflexivity.
Qed.

(** The text of a positive integer of 22 digits or more starts with one
    non-zero digit, followed by a point or by the exponent. *)
Lemma positive_to_string_large (p : positive) :
  (21 < nb_digits (Pos.to_uint p))%nat ->
  exists v, 1 <= v /\
    Js.parseInt (String "-" (Js.positive_to_string p 0)) = Some (- v).
Proof.
  intros Hn; unfold Js.positive_to_string.
  destruct (to_uint_head p) as [Hnil Hhd].
  destruct (nztail_head _ Hhd) as [Hs Hsh].
  set (d := Pos.to_uint p) in *.
  set (s := fst (Decimal.nztail d)) in *.
  rewrite Z.add_0_r.
  replace (Z.of_nat (nb_digits d) <=? 21) with false
    by (symmetry; apply Z.leb_gt; lia).
  replace (Z.of_nat (nb_digits d) <=? 0) with false
    by (symmetry; apply Z.leb_gt; lia).
  rewrite !andb_false_r; cbv iota.
  replace (0 <=? Z.of_nat (nb_digits d) - 1) with true
    by (symmetry; apply Z.leb_le; lia).
  assert (Hk : (1 <= nb_digits s)%nat).
  { destruct s; simpl; try lia; congruence. }
  destruct (Z.eqb_spec (Z.of_nat (nb_digits s)) 1) as [E | E].
  - destruct (single_digit s) as (c & Hc & Hparse); [lia | lia |].
    exists (Z.of_N (DecimalPos.Unsigned.hd s)); split; [lia |].
    rewrite Hc; simpl append.
    apply Hparse; right; eexists; right; reflexivity.
  - set (lead := del_tail (Z.to_nat (Z.of_nat (nb_digits s) - 1)) s).
    assert (Hsplit : app lead (del_head 1 s) = s).
    { unfold lead.
      pose proof (DecimalFacts.app_del_tail_head
                    (Z.to_nat (Z.of_nat (nb_digits s) - 1)) s) as H.
      replace (nb_digits s - Z.to_nat (Z.of_nat (nb_digits s) - 1))%nat
        with 1%nat in H by lia.
      apply H; lia. }
    assert (Hlen : nb_digits lead = 1%nat).
    { unfold lead, del_tail.
      rewrite DecimalFacts.nb_digits_rev.
      replace (Z.to_nat (Z.of_nat (nb_digits s) - 1))
        with (nb_digits (rev s) - 1)%nat
        by (rewrite DecimalFacts.nb_digits_rev; lia).
      apply DecimalFacts.nb_digits_del_head_sub.
      rewrite DecimalFacts.nb_digits_rev; lia. }
    assert (Hhead : DecimalPos.Unsigned.hd lead = DecimalPos.Unsigned.hd s).
    { apply digits_of_head with (rest := Js.digits_of (del_head 1 s)).
      - now rewrite <- digits_of_app, Hsplit.
      - lia.
      - intros E'; rewrite E' in Hlen; discriminate. }
    destruct (single_digit lead) as (c & Hc & Hparse); [lia | lia |].
    exists (Z.of_N (DecimalPos.Unsigned.hd lead)); split; [lia |].
    rewrite Hc; simpl append.
    apply Hparse; right; eexists; left; reflexivity.
Qed.

(* ================================================================= *)
(** ** The text of a number and its parse *)

(** *** Digits and their values *)







Lemma hd_bound (u : uint) : (DecimalPos.Unsigned.hd u <= 9)%N.
Proof. destruct u; simpl; lia. Qed.



(** *** Powers of ten *)






Lemma pow10_lt (a b : Z) : a < b -> (Js.pow10 a < Js.pow10 b)%Q.
Proof. intros H; apply Qpower_lt_compat_l; [exact H | reflexivity]. Qed.














(** *** Decimals that are binary64 numbers *)






(** *** The decade of a positive number *)





(** *** The decimals tried by the search *)
























(* ================================================================= *)
(** ** The effective limit *)






(* ================================================================= *)
(** ** Further properties of the two handlers *)

Lemma searchTools_accepted_reads_config (env : Env) (req : Request)
      (q : string) :
  checked_query (query_of req) = Some q ->
  exists rest,
    snd (run (searchTools env req)) = GetSmartRoutingConfig :: rest.
Proof.
  intros Hq.
  destruct (getSmartRoutingConfig env) as [cfg | e] eqn:Hc.
  - destruct (enabled cfg) eqn:He.
    + destruct (limitNum (limit_of req)) as [l | e] eqn:Hl.
      * rewrite (searchTools_enabled env req q cfg l Hq Hc He Hl); cbv zeta.
        destruct (searchToolsByVector env q _ _); simpl; eauto.
      * rewrite (searchTools_limit_throws env req q cfg e Hq Hc He Hl);
          simpl; eauto.
    + rewrite (searchTools_disabled env req q cfg Hq Hc He); simpl; eauto.
  - rewrite (searchTools_config_throws env req q e Hq Hc); simpl; eauto.
Qed.

(** X1.  The search is turned away with the 400 answer and an empty trace
    exactly when the query is not a non-empty string; the empty string is
    turned away like a missing query. *)
Theorem search_rejects_exactly_unusable_queries (env : Env) (req : Request) :
  run (searchTools env req) =
  (Returned (failure 400 "Query parameter is required and must be a string"),
   [])
  <-> ~ (exists q, query_of req = Js.Str q /\ q <> "").
Proof.
  split.
  - intros Hrun [q Hq]; apply checked_query_spec in Hq.
    destruct (searchTools_accepted_reads_config env req q Hq) as [rest Ht].
    rewrite Hrun in Ht; discriminate.
  - intros Hno; apply searchTools_rejects.
    destruct (checked_query (query_of req)) as [q |] eqn:Hq; [| reflexivity].
    elim Hno; exists q; now apply checked_query_spec.
Qed.

Lemma truthy_false_iff (v : Js.value) :
  Js.truthy v = false <->
  v = Js.Undefined \/ v = Js.Null \/ v = Js.Bool false
  \/ (exists m e, v = Js.Number m e /\ reads_as_zero m e)
  \/ v = Js.Str "".
Proof.
  unfold reads_as_zero; split.
  - destruct v as [| | [|] | m e | s | items | fields];
      cbn [Js.truthy]; try discriminate; auto.
    + destruct (Js.number_value m e) as [q | | |] eqn:E; try discriminate.
      * intros H; apply negb_false_iff, Qeq_bool_iff in H.
        right; right; right; left; exists m, e; split; [reflexivity |].
        now exists q.
      * intros _; pose proof (number_value_not_NaN m e); congruence.
    + intros H; apply negb_false_iff, String.eqb_eq in H; subst; auto 6.
  - intros [-> | [-> | [-> | [(m & e & -> & q & E & Hq) | ->]]]];
      try reflexivity.
    cbn [Js.truthy]; rewrite E.
    apply negb_false_iff, Qeq_bool_iff, Hq.
Qed.

(** X2.  The invocation is turned away with the 400 answer and an empty
    trace exactly when [toolName] is falsy: absent, [null], [false], a
    number that is read as zero (a zero literal, or one so small that it
    rounds to zero) or the empty string.  Any other value, string or not,
    is dispatched. *)
Theorem call_rejects_exactly_falsy_names (env : Env) (req : Request) :
  run (callTool env req) =
  (Returned (failure 400 "toolName is required"), [])
  <-> (toolName_of req = Js.Undefined \/ toolName_of req = Js.Null
       \/ toolName_of req = Js.Bool false
       \/ (exists m e, toolName_of req = Js.Number m e /\ reads_as_zero m e)
       \/ toolName_of req = Js.Str "").
Proof.
  rewrite <- truthy_false_iff; split.
  - intros Hrun; destruct (Js.truthy (toolName_of req)) eqn:Ht;
      [| reflexivity].
    rewrite (callTool_dispatches env req Ht) in Hrun; cbv zeta in Hrun.
    destruct (handleCallToolRequest env _ _); discriminate.
  - apply callTool_rejects.
Qed.

(** X3.  Neither handler lets an exception out: each run ends in an
    answer, with status 200, 400, 503 or 500 for the search and 200, 400
    or 500 for the invocation; [success] is true, and data present, exactly
    on 200. *)
Theorem handlers_always_answer (env : Env) (req : Request) :
  (exists r tr,
      run (searchTools env req) = (Returned r, tr) /\
      (status r = 200 \/ status r = 400 \/ status r = 503 \/ status r = 500) /\
      (success (body r) = true <-> status r = 200) /\
      (data (body r) <> None <-> status r = 200)) /\
  (exists r tr,
      run (callTool env req) = (Returned r, tr) /\
      (status r = 200 \/ status r = 400 \/ status r = 500) /\
      (success (body r) = true <-> status r = 200) /\
      (data (body r) <> None <-> status r = 200)).
Proof.
  split.
  - destruct (checked_query (query_of req)) as [q |] eqn:Hq.
    + destruct (getSmartRoutingConfig env) as [cfg | e] eqn:Hc.
      * destruct (enabled cfg) eqn:He.
        -- destruct (limitNum (limit_of req)) as [l | e] eqn:Hl.
           ++ rewrite (searchTools_enabled env req q cfg l Hq Hc He Hl);
                cbv zeta.
              destruct (searchToolsByVector env q _ _);
                do 2 eexists; (split; [reflexivity |]); simpl;
                intuition (discriminate || lia).
           ++ rewrite (searchTools_limit_throws env req q cfg e Hq Hc He Hl).
              do 2 eexists; (split; [reflexivity |]); simpl;
                intuition (discriminate || lia).
        -- rewrite (searchTools_disabled env req q cfg Hq Hc He).
           do 2 eexists; (split; [reflexivity |]); simpl;
             intuition (discriminate || lia).
      * rewrite (searchTools_config_throws env req q e Hq Hc).
        do 2 eexists; (split; [reflexivity |]); simpl;
          intuition (discriminate || lia).
    + rewrite (searchTools_rejects env req Hq).
      do 2 eexists; (split; [reflexivity |]); simpl;
        intuition (discriminate || lia).
  - destruct (Js.truthy (toolName_of req)) eqn:Ht.
    + rewrite (callTool_dispatches env req Ht); cbv zeta.
      destruct (handleCallToolRequest env _ _);
        do 2 eexists; (split; [reflexivity |]); simpl;
        intuition (discriminate || lia).
    + rewrite (callTool_rejects env req Ht).
      do 2 eexists; (split; [reflexivity |]); simpl;
        intuition (discriminate || lia).
Qed.

(** X4.  When a collaborator of the search throws, be it the
    configuration reader or the vector search, or when the limit has no
    text and its conversion throws, the answer is the 500 failure
    ["Failed to search tools"] whose [error] is the message of the thrown
    [Error], or ["Unknown error occurred"] for any other thrown value; the
    error is written to the console last, and a failing configuration
    reader or limit means the vector search is not called. *)
Theorem search_failure_is_reported (env : Env) (req : Request) (q : string)
        (e : thrown) :
  checked_query (query_of req) = Some q ->
  getSmartRoutingConfig env = Threw e
  \/ (exists cfg,
         getSmartRoutingConfig env = Returned cfg /\ enabled cfg = true /\
         (limitNum (limit_of req) = Threw e
          \/ exists l,
               limitNum (limit_of req) = Returned l /\
               searchToolsByVector env q l
                 (thresholdNum (threshold_of req) q) = Threw e)) ->
  fst (run (searchTools env req)) =
    Returned
      {| status := 500;
         body := {| success := false;
                    message := Some "Failed to search tools";
                    error := Some (match e with
                                   | ErrorObject msg => msg
                                   | OtherThrown => "Unknown error occurred"
                                   end);
                    data := None |} |} /\
  (exists before,
      snd (run (searchTools env req)) =
      (before ++ [ConsoleError "Error searching tools:" e])%list) /\
  (getSmartRoutingConfig env = Threw e \/ limitNum (limit_of req) = Threw e ->
   forall q' l t,
     ~ In (SearchToolsByVector q' l t) (snd (run (searchTools env req)))).
Proof.
  intros Hq [Hc | (cfg & Hc & He & [Hl | (l & Hl & Hs)])].
  - rewrite (searchTools_config_throws env req q e Hq Hc); simpl.
    split; [reflexivity | split].
    + now exists [GetSmartRoutingConfig].
    + intros _ q' l t [H | [H | []]]; discriminate.
  - rewrite (searchTools_limit_throws env req q cfg e Hq Hc He Hl); simpl.
    split; [reflexivity | split].
    + now exists [GetSmartRoutingConfig].
    + intros _ q' l t [H | [H | []]]; discriminate.
  - rewrite (searchTools_enabled env req q cfg l Hq Hc He Hl); cbv zeta.
    rewrite Hs; simpl.
    split; [reflexivity | split].
    + eexists [_; _; _]; reflexivity.
    + intros [Hc' | Hl']; congruence.
Qed.

Lemma search_failure_is_reported_witness :
  fst (run (searchTools
              (env_of (Returned {| enabled := true |})
                      (Threw (ErrorObject "index unavailable"))
                      (Threw OtherThrown))
              (request_of [("query", Js.Str "sync files")]))) =
  Returned
    {| status := 500;
       body := {| success := false;
                  message := Some "Failed to search tools";
                  error := Some "index unavailable";
                  data := None |} |}.
Proof.
  refine (proj1 (search_failure_is_reported
                   (env_of (Returned {| enabled := true |})
                           (Threw (ErrorObject "index unavailable"))
                           (Threw OtherThrown))
                   (request_of [("query", Js.Str "sync files")])
                   "sync files" (ErrorObject "index unavailable")
                   eq_refl _)).
  right; exists {| enabled := true |}; split; [reflexivity |].
  split; [reflexivity |].
  right; exists 10; split; [now vm_compute | reflexivity].
Defined.

(** X5.  When the dispatch throws, the invocation answers the 500 failure
    ["Failed to call tool"] with the thrown message (["Unknown error
    occurred"] for a value that is no [Error]), after exactly one dispatch
    call and one console write. *)
Theorem call_failure_is_reported (env : Env) (req : Request) (e : thrown) :
  Js.truthy (toolName_of req) = true ->
  handleCallToolRequest env
    (mockRequest_of (toolName_of req) (toolArgs_of req)) (extra_of req) =
  Threw e ->
  run (callTool env req) =
  (Returned
     {| status := 500;
        body := {| success := false;
                   message := Some "Failed to call tool";
                   error := Some (match e with
                                  | ErrorObject msg => msg
                                  | OtherThrown => "Unknown error occurred"
                                  end);
                   data := None |} |},
   [HandleCallToolRequest
      (mockRequest_of (toolName_of req) (toolArgs_of req)) (extra_of req);
    ConsoleError "Error calling tool:" e]).
Proof.
  intros Ht Hd.
  rewrite (callTool_dispatches env req Ht); cbv zeta; now rewrite Hd.
Qed.

Lemma call_failure_is_reported_witness :
  fst (run (callTool
              (env_of (Threw OtherThrown) (Threw OtherThrown)
                      (Threw (ErrorObject "server not found")))
              (request_of [("toolName", Js.Str "sync")]))) =
  Returned
    {| status := 500;
       body := {| success := false;
                  message := Some "Failed to call tool";
                  error := Some "server not found";
                  data := None |} |}.
Proof.
  exact (f_equal fst
           (call_failure_is_reported
              (env_of (Threw OtherThrown) (Threw OtherThrown)
                      (Threw (ErrorObject "server not found")))
              (request_of [("toolName", Js.Str "sync")])
              (ErrorObject "server not found") eq_refl eq_refl)).
Defined.

Lemma spec_deriveThreshold_cases (query : string) :
  spec_deriveThreshold query = 0.5%Q
  \/ spec_deriveThreshold query = 0.65%Q
  \/ spec_deriveThreshold query = 0.75%Q.
Proof.
  unfold spec_deriveThreshold.
  destruct (_ || Js.includes query "exact"); auto.
  destruct (_ || _); auto.
Qed.

Lemma thresholdNum_range (threshold : Js.value) (query : string) :
  (0 <= thresholdNum threshold query <= 1)%Q.
Proof.
  destruct (is_number threshold) eqn:Hn.
  - destruct threshold; try discriminate Hn.
    rewrite thresholdNum_explicit; split.
    + apply Q.le_max_l.
    + apply Q.max_lub; [discriminate | apply Q.le_min_l].
  - rewrite (thresholdNum_derived _ _ Hn).
    destruct (spec_deriveThreshold_cases query) as [-> | [-> | ->]];
      split; discriminate.
Qed.

(** X6.  Whatever the request holds, the threshold handed to the vector
    search lies in [0, 1]; a number already in that range is handed over
    as it is, a smaller one as 0 and a larger one as 1. *)
Theorem threshold_stays_in_unit_interval (threshold : Js.value)
        (query : string) :
  (0 <= thresholdNum threshold query <= 1)%Q /\
  (forall m e, threshold = Js.Number m e ->
     let v := Js.decimal_value m e in
     (0 <= v <= 1 -> thresholdNum threshold query == v)%Q /\
     (v <= 0 -> thresholdNum threshold query == 0)%Q /\
     (1 <= v -> thresholdNum threshold query == 1)%Q).
Proof.
  split; [apply thresholdNum_range |].
  intros m e -> v; rewrite thresholdNum_explicit; fold v.
  split; [| split].
  - intros [H0 H1].
    rewrite (Q.min_r 1 v H1); now apply Q.max_r.
  - intros H0.
    apply Q.max_l.
    apply Qle_trans with v; [apply Q.le_min_r | exact H0].
  - intros H1.
    rewrite (Q.min_l 1 v H1); apply Q.max_r; discriminate.
Qed.

Lemma threshold_stays_in_unit_interval_witness :
  (thresholdNum (Js.Number 3 0) "sync files" == 1)%Q /\
  (thresholdNum (Js.Number 25 (-2)) "sync files" == 0.25)%Q.
Proof.
  split.
  - apply (proj2 (proj2 (proj2 (threshold_stays_in_unit_interval
                                  (Js.Number 3 0) "sync files")
                               3 0 eq_refl))).
    discriminate.
  - apply (proj1 (proj2 (threshold_stays_in_unit_interval
                           (Js.Number 25 (-2)) "sync files")
                        25 (-2) eq_refl)).
    split; discriminate.
Defined.

(** X7.  For a threshold that is present but is no number the value is
    derived from the query and the specificity rule overrides the
    broadness rule: 0.75 for a query longer than 30 or containing
    "specific" or "exact", however short; otherwise 0.5 for a query
    shorter than 10 or of at most two space-separated pieces; otherwise
    0.65. *)
Theorem derived_threshold_rule_order (threshold : Js.value) (query : string) :
  is_number threshold = false ->
  let specific :=
    (30 <? Z.of_nat (String.length query))
    || Js.includes query "specific" || Js.includes query "exact" in
  let broad :=
    (Z.of_nat (String.length query) <? 10)
    || (Z.of_nat (List.length (Js.split " " query)) <=? 2) in
  (specific = true -> thresholdNum threshold query = 0.75%Q) /\
  (specific = false -> broad = true ->
   thresholdNum threshold query = 0.5%Q) /\
  (specific = false -> broad = false ->
   thresholdNum threshold query = 0.65%Q).
Proof.
  intros Hn specific broad.
  rewrite (thresholdNum_derived _ _ Hn); unfold spec_deriveThreshold.
  fold specific broad.
  repeat split; intros; repeat match goal with H : _ = _ |- _ => rewrite H end;
    reflexivity.
Qed.

Lemma derived_threshold_rule_order_witness :
  thresholdNum Js.Null "exact" = 0.75%Q.
Proof.
  apply (proj1 (derived_threshold_rule_order Js.Null "exact" eq_refl)).
  reflexivity.
Defined.

(** X13.  The vector search is only ever called for a non-empty string
    query with smart routing enabled, and then with that query unchanged,
    the clamped limit, between 1 and 100, and a threshold between 0 and 1. *)
Theorem vector_search_is_called_in_bounds (env : Env) (req : Request)
        (q : string) (l : Z) (t : Q) :
  In (SearchToolsByVector q l t) (snd (run (searchTools env req))) ->
  query_of req = Js.Str q /\ q <> "" /\
  limitNum (limit_of req) = Returned l /\ 1 <= l <= 100 /\
  t = thresholdNum (threshold_of req) q /\ (0 <= t <= 1)%Q /\
  exists cfg, getSmartRoutingConfig env = Returned cfg /\ enabled cfg = true.
Proof.
  destruct (checked_query (query_of req)) as [q0 |] eqn:Hq.
  - destruct (getSmartRoutingConfig env) as [cfg | e] eqn:Hc.
    + destruct (enabled cfg) eqn:He.
      * destruct (limitNum (limit_of req)) as [l0 | e] eqn:Hl.
        -- rewrite (searchTools_enabled env req q0 cfg l0 Hq Hc He Hl);
             cbv zeta.
           intros Hin.
           assert (E : SearchToolsByVector q0 l0
                         (thresholdNum (threshold_of req) q0) =
                       SearchToolsByVector q l t).
           { destruct (searchToolsByVector env q0 _ _); simpl in Hin;
               intuition discriminate. }
           injection E as <- <- <-.
           apply checked_query_spec in Hq; destruct Hq as [Hq Hne].
           pose proof (limitNum_range _ _ Hl).
           repeat split; auto; try lia; try apply thresholdNum_range.
           now exists cfg.
        -- rewrite (searchTools_limit_throws env req q0 cfg e Hq Hc He Hl);
             simpl.
           intuition discriminate.
      * rewrite (searchTools_disabled env req q0 cfg Hq Hc He); simpl.
        intuition discriminate.
    + rewrite (searchTools_config_throws env req q0 e Hq Hc); simpl.
      intuition discriminate.
  - rewrite (searchTools_rejects env req Hq); simpl; tauto.
Qed.

Lemma vector_search_is_called_in_bounds_witness :
  let env := env_of (Returned {| enabled := true |}) (Returned [])
                    (Threw OtherThrown) in
  let req := request_of [("query", Js.Str "sync files");
                         ("limit", Js.Number 500 0);
                         ("threshold", Js.Number 3 0)] in
  In (SearchToolsByVector "sync files" 100 1%Q)
     (snd (run (searchTools env req))) /\
  limitNum (limit_of req) = Returned 100 /\
  1%Q = thresholdNum (threshold_of req) "sync files".
Proof.
  intros env req.
  assert (Hin : In (SearchToolsByVector "sync files" 100 1%Q)
                   (snd (run (searchTools env req))))
    by (vm_compute; auto).
  split; [exact Hin |].
  destruct (vector_search_is_called_in_bounds env req "sync files" 100 1%Q Hin)
    as (_ & _ & Hl & _ & Ht & _).
  split; assumption.
Defined.

(** X8.  The flat list of the answer is a rearrangement of what the
    vector search returned, nothing lost and nothing added, and results of
    equal similarity keep the order the search gave them. *)
Theorem sorted_results_rearrange_stably (found : list Candidate.t) :
  Permutation (Js.sort by_similarity found) found /\
  forall k : Q,
    with_key Candidate.similarity k (Js.sort by_similarity found) =
    with_key Candidate.similarity k found.
Proof.
  split; [apply sort_perm |].
  intros k; rewrite sort_by_similarity; apply sort_stable.
Qed.

(** X10.  Ranking results that are already ranked changes nothing: the
    answer built from the sorted list is the answer built from the list
    as the search returned it. *)
Theorem ranking_is_idempotent (query : string) (t : Q)
        (found : list Candidate.t) :
  search_data query t (Js.sort by_similarity found) =
  search_data query t found.
Proof.
  rewrite !search_data_unfold.
  assert (E : Js.sort by_similarity (Js.sort by_similarity found) =
              Js.sort by_similarity found).
  { rewrite (sort_by_similarity (Js.sort by_similarity found)).
    apply sort_of_sorted, sorted_results_sorted. }
  now rewrite E.
Qed.

Lemma group_keys_are_result_servers (sorted : list Candidate.t) (k : string) :
  In k (map fst (group_by_server sorted)) <->
  In k (map Candidate.serverName sorted).
Proof.
  destruct (group_by_server_grouped sorted) as (Hnd & Hg & Hall).
  split.
  - intros Hk; apply in_map_iff in Hk; destruct Hk as [kv [<- Hkv]].
    destruct (Hg kv Hkv) as (_ & Ht & Hne).
    rewrite Ht in Hne; unfold tools_of_server in Hne.
    destruct (filter _ sorted) as [| c l] eqn:Ef; [now elim Hne |].
    assert (Hc : In c (filter (fun c => String.eqb (Candidate.serverName c)
                                                   (fst kv)) sorted))
      by (rewrite Ef; now left).
    apply filter_In in Hc; destruct Hc as [Hc E].
    apply String.eqb_eq in E; rewrite <- E; now apply in_map.
  - intros Hk; apply in_map_iff in Hk; destruct Hk as [c [<- Hc]].
    now apply Hall.
Qed.

(** X9.  The counts of the metadata: [totalResults] is the number of
    results the search returned and [serverCount] the number of distinct
    servers among them, so never more than [totalResults]; the texts that
    advise broadening the search are given exactly when nothing was
    found. *)
Theorem metadata_counts (query : string) (t : Q) (found : list Candidate.t)
        (tools : list Candidate.t) (servers : list Server.t)
        (metadata : Metadata) :
  search_data query t found = SearchData tools servers metadata ->
  totalResults metadata = List.length found /\
  serverCount metadata =
    List.length (nodup string_dec (map Candidate.serverName found)) /\
  (serverCount metadata <= totalResults metadata)%nat /\
  (found = [] <->
   guideline metadata =
     "No tools found. Try broadening your search or using different keywords.") /\
  (found = [] <->
   nextSteps metadata =
     "Consider searching for related capabilities or more general terms.").
Proof.
  rewrite search_data_unfold; intros [= <- <- <-]; simpl.
  set (sorted := Js.sort by_similarity found).
  assert (Hlen : List.length sorted = List.length found)
    by apply sort_length.
  assert (Hcount : List.length (rank_servers sorted) =
                   List.length (nodup string_dec
                                      (map Candidate.serverName found))).
  { unfold rank_servers, rank_servers_with.
    rewrite sort_length, length_map,
      <- (length_map fst (group_by_server sorted)).
    apply Permutation_length, NoDup_Permutation.
    - apply group_by_server_grouped.
    - apply NoDup_nodup.
    - intros k; rewrite nodup_In, group_keys_are_result_servers.
      unfold sorted; split; apply Permutation_in, Permutation_map;
        [| symmetry]; apply sort_perm. }
  split; [exact Hlen | split; [exact Hcount | split]].
  - rewrite Hcount, Hlen, <- (length_map Candidate.serverName found).
    clear; induction (map Candidate.serverName found) as [| k l IH];
      simpl; [lia |].
    destruct (in_dec string_dec k l); simpl; lia.
  - rewrite Hlen; destruct found; simpl; repeat split; intros;
      (reflexivity || discriminate).
Qed.

Lemma metadata_counts_witness :
  exists metadata,
    totalResults metadata = 4%nat /\ serverCount metadata = 2%nat.
Proof.
  destruct (search_data "files" 0.5%Q tied_candidates)
    as [tools servers metadata | ? ? ?] eqn:E; [| discriminate E].
  exists metadata.
  destruct (metadata_counts _ _ _ _ _ _ E) as (H1 & H2 & _).
  split; [exact H1 | exact H2].
Defined.

Lemma group_step_keeps_head (kv0 : string * Group.t) (m0 : ServerMap)
      (c : Candidate.t) :
  exists g m', group_step (kv0 :: m0) c = (fst kv0, g) :: m'.
Proof.
  destruct kv0 as [k0 g0]; unfold group_step, Map_set.
  destruct (Map_has ((k0, g0) :: m0) (Candidate.serverName c)); simpl;
    destruct (String.eqb k0 (Candidate.serverName c)); eauto.
Qed.

Lemma fold_group_step_keeps_head (l : list Candidate.t)
      (kv0 : string * Group.t) (m0 : ServerMap) :
  exists g m', fold_left group_step l (kv0 :: m0) = (fst kv0, g) :: m'.
Proof.
  revert kv0 m0; induction l as [| c l IH]; intros kv0 m0; simpl.
  - exists (snd kv0), m0; now destruct kv0.
  - destruct (group_step_keeps_head kv0 m0 c) as (g & m' & ->).
    apply (IH (fst kv0, g) m').
Qed.

Lemma group_by_server_head (c : Candidate.t) (rest : list Candidate.t) :
  exists g m',
    group_by_server (c :: rest) = (Candidate.serverName c, g) :: m'.
Proof.
  unfold group_by_server; simpl fold_left.
  unfold group_step at 2; simpl.
  rewrite String.eqb_refl.
  apply (fold_group_step_keeps_head rest (Candidate.serverName c, _) []).
Qed.

Lemma insert_largest {A : Type} (key : A -> Q) (x : A) (l : list A) :
  (forall y, In y l -> (key y <= key x)%Q) ->
  Js.insert (key_compare key) x l = x :: l.
Proof.
  destruct l as [| y l]; [reflexivity | intros H; cbn [Js.insert]].
  unfold key_compare.
  assert (Hy : (key y <= key x)%Q) by (apply H; now left).
  destruct (Qcompare_spec (key y) (key x)) as [E | E | E];
    try reflexivity.
  now elim (Qlt_not_le _ _ E).
Qed.

(** X11.  When something was found, the first group of the answer is the
    server of the first tool of the flat list: it is named after it, lists
    it first, and has its similarity as [maxSimilarity]. *)
Theorem top_server_owns_top_tool (found : list Candidate.t) :
  found <> [] ->
  exists (c : Candidate.t) (rest : list Candidate.t)
         (s : Server.t) (others : list Server.t) (mx : Q),
    Js.sort by_similarity found = c :: rest /\
    rank_servers (Js.sort by_similarity found) = s :: others /\
    Server.serverName s = Candidate.serverName c /\
    List.hd_error (Server.tools s) = Some (tool_of c) /\
    Server.maxSimilarity s = Js.Fin mx /\
    (mx == Candidate.similarity c)%Q.
Proof.
  intros Hne.
  pose proof (sorted_results_sorted found) as Hsorted.
  pose proof (rank_servers_by_key found) as Hrank.
  pose proof (group_by_server_grouped (Js.sort by_similarity found)) as Hgr.
  destruct (Js.sort by_similarity found) as [| c rest] eqn:Es.
  { apply (f_equal (@List.length _)) in Es.
    rewrite sort_length in Es; destruct found; [congruence | discriminate]. }
  destruct (group_by_server_head c rest) as (g & m' & Eg).
  rewrite Eg in Hrank, Hgr; simpl map in Hrank.
  assert (Hscore : forall kv, In kv ((Candidate.serverName c, g) :: m') ->
            Server.serverName (score_server (snd kv)) = fst kv /\
            Server.tools (score_server (snd kv)) =
              tools_of_server (fst kv) (c :: rest) /\
            Server.tools (score_server (snd kv)) <> [] /\
            scored (score_server (snd kv)))
    by (intros kv; now apply score_server_grouped).
  destruct (Hscore _ (or_introl eq_refl)) as (Hn1 & Ht1 & _ & Hsc1).
  simpl fst in *; simpl snd in *.
  assert (Hhead : Server.tools (score_server g) =
                  tool_of c :: tools_of_server (Candidate.serverName c) rest).
  { rewrite Ht1; unfold tools_of_server; simpl.
    now rewrite String.eqb_refl. }
  assert (Hall : forall c', In c' (c :: rest) ->
            (Candidate.similarity c' <= Candidate.similarity c)%Q).
  { intros c' [<- | Hc']; [apply Qle_refl |].
    inversion Hsorted as [| ? ? _ Hc]; subst.
    rewrite Forall_forall in Hc; now apply Hc. }
  assert (Hbound : forall kv, In kv ((Candidate.serverName c, g) :: m') ->
            (max_key (score_server (snd kv)) <= Candidate.similarity c)%Q).
  { intros kv Hkv; destruct (Hscore kv Hkv) as (_ & Ht & _ & Hsc).
    destruct Hsc as (mx & Hmx & Hin & _).
    unfold max_key; rewrite Hmx.
    apply in_map_iff in Hin; destruct Hin as [tool [<- Htool]].
    rewrite Ht in Htool; unfold tools_of_server in Htool.
    apply in_map_iff in Htool; destruct Htool as [c' [<- Hc']].
    apply filter_In in Hc'; destruct Hc' as [Hc' _].
    now apply Hall. }
  destruct Hsc1 as (mx & Hmx & Hin & Hle & _).
  assert (Hmx_eq : (mx == Candidate.similarity c)%Q).
  { apply Qle_antisym.
    - pose proof (Hbound _ (or_introl eq_refl)) as Hb.
      unfold max_key in Hb; simpl snd in Hb; now rewrite Hmx in Hb.
    - apply (Hle (tool_of c)); rewrite Hhead; now left. }
  exists c, rest, (score_server g),
    (Js.sort (key_compare max_key)
             (map (fun kv => score_server (snd kv)) m')), mx.
  split; [reflexivity |].
  split.
  - rewrite Hrank; simpl Js.sort.
    apply insert_largest; intros y Hy.
    apply sort_In, in_map_iff in Hy; destruct Hy as [kv [<- Hkv]].
    apply Qle_trans with (Candidate.similarity c).
    + apply Hbound; now right.
    + unfold max_key; rewrite Hmx, Hmx_eq; apply Qle_refl.
  - repeat split; auto.
    now rewrite Hhead.
Qed.

Lemma top_server_owns_top_tool_witness :
  exists c s others,
    List.hd_error (Js.sort by_similarity tied_candidates) = Some c /\
    rank_servers (Js.sort by_similarity tied_candidates) = s :: others /\
    Server.serverName s = Candidate.serverName c.
Proof.
  destruct (top_server_owns_top_tool tied_candidates)
    as (c & rest & s & others & mx & Hs & Hr & Hn & _); [discriminate |].
  exists c, s, others; split; [now rewrite Hs | split; assumption].
Defined.

(** X12.  An invocation that passes the check dispatches exactly once,
    under the name ["call_tool"], with the tool name as received; an
    absent [arguments] field is sent as the empty object, a missing or
    empty session header as ["api-session"], and an empty server path
    parameter as no server at all. *)
Theorem call_envelope (env : Env) (req : Request) :
  Js.truthy (toolName_of req) = true ->
  exists (m : MockRequest) (x : Extra) (rest : list event),
    snd (run (callTool env req)) = HandleCallToolRequest m x :: rest /\
    (forall m' x', ~ In (HandleCallToolRequest m' x') rest) /\
    params_name m = "call_tool" /\
    call_toolName (params_arguments m) = toolName_of req /\
    (Js.field (req_body req) "arguments" = Js.Undefined ->
     call_arguments (params_arguments m) = Js.Object []) /\
    (Js.field (req_body req) "arguments" <> Js.Undefined ->
     call_arguments (params_arguments m) =
     Js.field (req_body req) "arguments") /\
    (req_header_x_session_id req = None
     \/ req_header_x_session_id req = Some "" ->
     sessionId x = "api-session") /\
    (forall s, req_header_x_session_id req = Some s -> s <> "" ->
               sessionId x = s) /\
    (req_params_server req = None \/ req_params_server req = Some "" ->
     server x = None) /\
    (forall s, req_params_server req = Some s -> s <> "" ->
               server x = Some s).
Proof.
  intros Ht.
  exists (mockRequest_of (toolName_of req) (toolArgs_of req)), (extra_of req).
  rewrite (callTool_dispatches env req Ht); cbv zeta.
  destruct (handleCallToolRequest env _ _) as [result | e]; simpl;
    eexists; (split; [reflexivity |]);
    (split; [intros m' x' Hin; simpl in Hin; intuition discriminate |]);
    unfold toolArgs_of, text_or;
    repeat split; try reflexivity;
    try (intros H; rewrite H; reflexivity);
    try (intros H; destruct (Js.field (req_body req) "arguments");
         [now elim H | reflexivity ..]);
    try (intros [-> | ->]; reflexivity);
    try (intros s -> Hs; destruct (String.eqb_spec s "");
         [contradiction | reflexivity]).
Qed.

Lemma call_envelope_witness :
  exists m x rest,
    snd (run (callTool
                (env_of (Threw OtherThrown) (Threw OtherThrown)
                        (Returned failed_tool_result))
                (request_of [("toolName", Js.Str "sync")]))) =
    HandleCallToolRequest m x :: rest /\
    sessionId x = "api-session" /\
    call_arguments (params_arguments m) = Js.Object [].
Proof.
  destruct (call_envelope
              (env_of (Threw OtherThrown) (Threw OtherThrown)
                      (Returned failed_tool_result))
              (request_of [("toolName", Js.Str "sync")]) eq_refl)
    as (m & x & rest & Htr & _ & _ & _ & Hargs & _ & Hsid & _).
  exists m, x, rest; split; [exact Htr | split].
  - apply Hsid; now left.
  - now apply Hargs.
Defined.

(* ================================================================= *)
(** ** The frontend service: from a search answer to the servers shown *)

Lemma Map_get_Some (all : list Frontend.Server) (k : string)
      (s : Frontend.Server) :
  Frontend.Map_get all k = Some s -> In s all /\ Frontend.server_name s = k.
Proof.
  unfold Frontend.Map_get; intros H; apply find_some in H.
  destruct H as [Hin E]; apply in_rev in Hin.
  now apply String.eqb_eq in E.
Qed.

Lemma Map_get_None (all : list Frontend.Server) (k : string) :
  Frontend.Map_get all k = None <->
  existsb (fun s => String.eqb (Frontend.server_name s) k) all = false.
Proof.
  unfold Frontend.Map_get; split; intros H.
  - apply not_true_is_false; intros E.
    apply existsb_exists in E; destruct E as [s [Hin E]].
    apply in_rev in Hin.
    now rewrite (find_none _ _ H s Hin) in E.
  - destruct (find _ (List.rev all)) as [s |] eqn:F; [| reflexivity].
    apply find_some in F; destruct F as [Hin E]; apply in_rev in Hin.
    assert (existsb (fun s => String.eqb (Frontend.server_name s) k) all
            = true) by (apply existsb_exists; eauto).
    congruence.
Qed.

Lemma response_server_names (all : list Frontend.Server)
      (entries : list string) :
  map Frontend.server_name
      (flat_map (fun entry =>
                   match Frontend.Map_get all entry with
                   | Some server => [server]
                   | None => []
                   end) entries) =
  filter (fun n =>
            existsb (fun s => String.eqb (Frontend.server_name s) n) all)
         entries.
Proof.
  induction entries as [| n entries IH]; [reflexivity |].
  simpl; rewrite map_app, IH.
  destruct (Frontend.Map_get all n) as [s |] eqn:G.
  - destruct (Map_get_Some _ _ _ G) as [Hin <-].
    assert (existsb (fun s0 => String.eqb (Frontend.server_name s0)
                                          (Frontend.server_name s)) all
            = true) as ->
        by (apply existsb_exists; exists s; split;
            [exact Hin | apply String.eqb_refl]).
    reflexivity.
  - apply Map_get_None in G; now rewrite G.
Qed.

(** X14.  When the answer lists servers, the servers shown are those of
    the list that the page knows, in the order of the list and once per
    entry; each is a server of the page, the last one of its name, and
    names the page does not know are dropped. *)
Theorem shown_servers_follow_answer (data : Frontend.SearchData)
        (all : list Frontend.Server) (entries : list string) :
  Frontend.servers data = Some entries ->
  map Frontend.server_name (Frontend.getServersFromSearchResponse data all) =
    filter (fun n =>
              existsb (fun s => String.eqb (Frontend.server_name s) n) all)
           entries /\
  (forall s, In s (Frontend.getServersFromSearchResponse data all) ->
     In s all /\ In (Frontend.server_name s) entries /\
     Frontend.Map_get all (Frontend.server_name s) = Some s).
Proof.
  intros Hs; unfold Frontend.getServersFromSearchResponse; rewrite Hs.
  split; [apply response_server_names |].
  intros s Hin; apply in_flat_map in Hin.
  destruct Hin as [n [Hn Hin]].
  destruct (Frontend.Map_get all n) as [s' |] eqn:G; [| destruct Hin].
  destruct Hin as [<- | []].
  destruct (Map_get_Some _ _ _ G) as [Hin <-]; auto.
Qed.

Lemma shown_servers_follow_answer_witness :
  map Frontend.server_name
      (Frontend.getServersFromSearchResponse
         {| Frontend.servers := Some ["B"; "ghost"; "A"];
            Frontend.tools := None |}
         [ {| Frontend.server_name := "A"; Frontend.server_tools := None |};
           {| Frontend.server_name := "B"; Frontend.server_tools := None |} ])
  = ["B"; "A"].
Proof.
  exact (proj1 (shown_servers_follow_answer
                  {| Frontend.servers := Some ["B"; "ghost"; "A"];
                     Frontend.tools := None |}
                  [ {| Frontend.server_name := "A";
                       Frontend.server_tools := None |};
                    {| Frontend.server_name := "B";
                       Frontend.server_tools := None |} ]
                  ["B"; "ghost"; "A"] eq_refl)).
Defined.

Lemma Set_add_has (set : list string) (k : string) :
  Frontend.Set_has (Frontend.Set_add set k) k = true.
Proof.
  unfold Frontend.Set_has, Frontend.Set_add.
  destruct (existsb (String.eqb k) set) eqn:E; [exact E |].
  rewrite existsb_app; simpl; now rewrite String.eqb_refl, orb_true_r.
Qed.

Lemma Set_add_keeps (set : list string) (k k' : string) :
  Frontend.Set_has set k' = true ->
  Frontend.Set_has (Frontend.Set_add set k) k' = true.
Proof.
  unfold Frontend.Set_has, Frontend.Set_add; intros H.
  destruct (existsb (String.eqb k) set); [exact H |].
  now rewrite existsb_app, H.
Qed.

Lemma collect_keeps (set : list string) (tool : Frontend.SearchTool)
      (k : string) :
  Frontend.Set_has set k = true ->
  Frontend.Set_has (Frontend.collect_server_names set tool) k = true.
Proof.
  intros H; unfold Frontend.collect_server_names.
  assert (H1 : Frontend.Set_has
                 match Frontend.serverName tool with
                 | Some s => if Frontend.present (Some s)
                             then Frontend.Set_add set s else set
                 | None => set
                 end k = true).
  { destruct (Frontend.serverName tool) as [s |]; [| exact H].
    destruct (Frontend.present (Some s)); [now apply Set_add_keeps | exact H]. }
  destruct (Frontend.name tool) as [n |]; [| exact H1].
  destruct (_ && _); [| exact H1].
  destruct (2 <=? _)%nat; [now apply Set_add_keeps | exact H1].
Qed.

Lemma fold_collect_keeps (results : list Frontend.SearchTool)
      (set : list string) (k : string) :
  Frontend.Set_has set k = true ->
  Frontend.Set_has (fold_left Frontend.collect_server_names results set) k
  = true.
Proof.
  revert set; induction results as [| tool results IH]; intros set H;
    [exact H |].
  simpl; now apply IH, collect_keeps.
Qed.

Lemma fold_collect_step (results : list Frontend.SearchTool)
      (tool : Frontend.SearchTool) (k : string) :
  In tool results ->
  (forall set, Frontend.Set_has (Frontend.collect_server_names set tool) k
               = true) ->
  forall set,
    Frontend.Set_has (fold_left Frontend.collect_server_names results set) k
    = true.
Proof.
  intros Hin Hstep.
  induction results as [| tool' results IH]; [destruct Hin |].
  intros set; simpl; destruct Hin as [-> | Hin].
  - apply fold_collect_keeps, Hstep.
  - now apply IH.
Qed.

Lemma includes_separator (p r : string) (c : ascii) :
  Js.includes (p ++ String c r) (String c "") = true.
Proof.
  induction p as [| a p IH]; simpl.
  - destruct (ascii_dec c c); [now destruct r | congruence].
  - rewrite IH; apply orb_true_r.
Qed.

Lemma split_at_first (p r : string) (c : ascii) :
  Js.includes p (String c "") = false ->
  Js.split c (p ++ String c r) = p :: Js.split c r.
Proof.
  induction p as [| a p IH]; intros H.
  - simpl; now rewrite Ascii.eqb_refl.
  - simpl in H; apply orb_false_iff in H; destruct H as [Ha Hp].
    simpl; rewrite (IH Hp).
    destruct (Ascii.eqb_spec a c) as [-> | _]; [| reflexivity].
    simpl in Ha.
    destruct (ascii_dec c c); [destruct p; discriminate | congruence].
Qed.

Lemma split_nonempty (c : ascii) (s : string) :
  (1 <= List.length (Js.split c s))%nat.
Proof.
  induction s as [| a s IH]; simpl; [lia |].
  destruct (Ascii.eqb a c); simpl; [lia |].
  destruct (Js.split c s); simpl in *; lia.
Qed.

Lemma length_append (a b : string) :
  String.length (a ++ b) = (String.length a + String.length b)%nat.
Proof. induction a as [| x a IH]; simpl; [reflexivity | now rewrite IH]. Qed.

Lemma substring_all (b : string) :
  String.substring 0 (String.length b) b = b.
Proof. induction b as [| x b IH]; simpl; [reflexivity | now rewrite IH]. Qed.

Lemma substring_skip (a b : string) :
  String.substring (String.length a) (String.length b) (a ++ b) = b.
Proof. induction a as [| x a IH]; simpl; [apply substring_all | exact IH]. Qed.

Lemma ends_with_append (a b : string) : ends_with (a ++ b) b = true.
Proof.
  unfold ends_with; rewrite length_append.
  replace (String.length a + String.length b - String.length b)%nat
    with (String.length a) by lia.
  rewrite substring_skip, String.eqb_refl, andb_true_r.
  apply Nat.leb_le; lia.
Qed.

(** X15.  Without a server list in the answer the servers are picked
    from the tools found.  Nothing found gives no server; what is
    returned is a selection of the page's servers in the page's order; a
    server is selected when a tool is tagged with its name, when a tool
    name is qualified by its name before the first slash, or when it owns
    a tool of that name, qualified or not. *)
Theorem servers_picked_from_tools (results : list Frontend.SearchTool)
        (all : list Frontend.Server) :
  Frontend.getServersFromSearchResults None all = [] /\
  (results = [] ->
   Frontend.getServersFromSearchResults (Some results) all = []) /\
  (exists keep,
      Frontend.getServersFromSearchResults (Some results) all =
      filter keep all) /\
  (forall tool s,
      In tool results -> In s all ->
      (Frontend.serverName tool = Some (Frontend.server_name s) /\
       Frontend.server_name s <> "")
      \/ (exists r, Frontend.name tool =
                    Some (Frontend.server_name s ++ String "/" r) /\
                    Js.includes (Frontend.server_name s) "/" = false)
      \/ (exists owned t,
             Frontend.server_tools s = Some owned /\ In t owned /\
             (Frontend.name tool = Some t
              \/ exists p, Frontend.name tool = Some (p ++ String "/" t))) ->
      In s (Frontend.getServersFromSearchResults (Some results) all)).
Proof.
  split; [reflexivity |].
  split; [intros ->; reflexivity |].
  split.
  - destruct results as [| tool results];
      [exists (fun _ => false); now induction all |].
    eexists; reflexivity.
  - intros tool s Hin Hs Hwhy.
    unfold Frontend.getServersFromSearchResults.
    destruct results as [| tool0 results0] eqn:Er; [destruct Hin |].
    rewrite <- Er in *; clear Er tool0 results0.
    apply filter_In; split; [exact Hs |].
    apply orb_true_iff.
    destruct Hwhy as [[Htag Hne] | [[r [Hname Hp]] | Hown]].
    + left; apply (fold_collect_step results tool _ Hin).
      intros set; unfold Frontend.collect_server_names.
      rewrite Htag.
      assert (Frontend.present (Some (Frontend.server_name s)) = true) as ->
          by (simpl; now destruct (String.eqb_spec (Frontend.server_name s) "")).
      assert (H1 := Set_add_has set (Frontend.server_name s)).
      destruct (Frontend.name tool) as [n |]; [| exact H1].
      destruct (_ && _); [| exact H1].
      destruct (2 <=? _)%nat; [now apply Set_add_keeps | exact H1].
    + left; apply (fold_collect_step results tool _ Hin).
      intros set; unfold Frontend.collect_server_names.
      rewrite Hname.
      assert (Frontend.present
                (Some (Frontend.server_name s ++ String "/" r)) = true) as ->
          by (simpl; now destruct (Frontend.server_name s)).
      rewrite includes_separator, (split_at_first _ _ _ Hp); simpl andb.
      cbv iota. simpl List.length. simpl List.hd.
      pose proof (split_nonempty "/" r) as Hlen.
      destruct (List.length (Js.split "/" r)) as [| k]; [lia |].
      simpl; apply Set_add_has.
    + right; apply existsb_exists; exists tool; split; [exact Hin |].
      destruct Hown as (owned & t & Ho & Ht & Hname).
      unfold Frontend.owns_tool; rewrite Ho.
      apply existsb_exists; exists t; split; [exact Ht |].
      unfold Frontend.tool_matches.
      destruct Hname as [-> | [p ->]].
      * now rewrite String.eqb_refl.
      * assert (Frontend.present (Some (p ++ String "/" t)) = true) as ->
            by (simpl; now destruct p).
        change (String "/" t) with ("/" ++ t).
        rewrite ends_with_append; apply orb_true_r.
Qed.

Lemma servers_picked_from_tools_witness :
  let files := {| Frontend.server_name := "files";
                  Frontend.server_tools := Some ["sync"] |} in
  let mail := {| Frontend.server_name := "mail";
                 Frontend.server_tools := None |} in
  let tool := {| Frontend.name := Some "files/sync";
                 Frontend.serverName := None |} in
  In files (Frontend.getServersFromSearchResults (Some [tool]) [mail; files]).
Proof.
  intros files mail tool.
  apply (proj2 (proj2 (proj2 (servers_picked_from_tools [tool] [mail; files])))
           tool files); [now left | right; now left |].
  right; left; exists "sync"; split; reflexivity.
Defined.

(** X16.  Fed with the controller's answer, the page shows the servers
    it knows in the order the controller ranked them; when it knows every
    ranked server, the servers shown are the ranked servers, one for
    one. *)
Theorem shown_servers_are_in_rank_order (query : string) (t : Q)
        (found : list Candidate.t) (all : list Frontend.Server) :
  let ranked := rank_servers (Js.sort by_similarity found) in
  let shown :=
    Frontend.getServersFromSearchResponse
      (view_of_data (search_data query t found)) all in
  map Frontend.server_name shown =
    filter (fun n =>
              existsb (fun s => String.eqb (Frontend.server_name s) n) all)
           (map Server.serverName ranked) /\
  ((forall s, In s ranked ->
      exists f, In f all /\ Frontend.server_name f = Server.serverName s) ->
   map Frontend.server_name shown = map Server.serverName ranked).
Proof.
  intros ranked shown.
  assert (Hnames :
            map Frontend.server_name shown =
            filter (fun n =>
                      existsb (fun s => String.eqb (Frontend.server_name s) n)
                              all)
                   (map Server.serverName ranked)).
  { unfold shown; rewrite search_data_unfold; simpl.
    unfold Frontend.getServersFromSearchResponse; simpl.
    apply response_server_names. }
  split; [exact Hnames |].
  intros Hknown; rewrite Hnames; clear Hnames.
  assert (Hall : forall n, In n (map Server.serverName ranked) ->
            existsb (fun s => String.eqb (Frontend.server_name s) n) all
            = true).
  { intros n Hn; apply in_map_iff in Hn; destruct Hn as [s [<- Hs]].
    destruct (Hknown s Hs) as [f [Hf E]].
    apply existsb_exists; exists f; split; [exact Hf |].
    now apply String.eqb_eq. }
  clear Hknown.
  induction (map Server.serverName ranked) as [| n names IH];
    [reflexivity |].
  simpl; rewrite (Hall n) by now left.
  f_equal; apply IH; intros; apply Hall; now right.
Qed.

Lemma shown_servers_are_in_rank_order_witness :
  map Frontend.server_name
      (Frontend.getServersFromSearchResponse
         (view_of_data (search_data "files" 0.5%Q tied_candidates))
         [ {| Frontend.server_name := "A"; Frontend.server_tools := None |};
           {| Frontend.server_name := "B"; Frontend.server_tools := None |} ])
  = map Server.serverName
        (rank_servers (Js.sort by_similarity tied_candidates)).
Proof.
  apply (proj2 (shown_servers_are_in_rank_order
                  "files" 0.5%Q tied_candidates
                  [ {| Frontend.server_name := "A";
                       Frontend.server_tools := None |};
                    {| Frontend.server_name := "B";
                       Frontend.server_tools := None |} ])).
  intros s Hs.
  exists {| Frontend.server_name := Server.serverName s;
            Frontend.server_tools := None |}.
  split; [| reflexivity].
  vm_compute in Hs; destruct Hs as [<- | [<- | []]]; simpl; auto.
Defined.

(* ================================================================= *)
(** ** The frontend service: the call to the search API *)

(** X17.  The service sends one request, carrying the query, the limit
    (10 when left out), the threshold (0.65 when left out) and the stored
    token (empty when there is none).  It reports success only for an
    answer with an ok status whose body says success, and then hands on
    the body's data; a status that is not ok is reported as
    ["HTTP <status>: <statusText>"] without the body being read; a body
    that says failure is reported with its message, or the fallback text
    when it has none; every failure carries an error text and no data. *)
Theorem service_outcomes (env : Frontend.Env) (query : string)
        (limit threshold : Js.value) :
  let request :=
    {| Frontend.url := Frontend.getApiUrl env "/tools/search";
       Frontend.x_auth_token := text_or (Frontend.token env) "";
       Frontend.fetch_body :=
         [("query", Js.Str query);
          ("limit", Js.json (Js.default_to limit (Js.Number 10 0)));
          ("threshold",
             Js.json (Js.default_to threshold (Js.Number 65 (-2))))] |} in
  let result := fst (Frontend.searchTools env query limit threshold) in
  let events := snd (Frontend.searchTools env query limit threshold) in
  (exists rest, events = Frontend.Fetch request :: rest /\
                forall r, ~ In (Frontend.Fetch r) rest) /\
  (Frontend.outcome_success result = true <->
   exists reply body,
     Frontend.fetch env request = Returned reply /\
     Frontend.ok reply = true /\
     Frontend.json reply = Returned body /\
     Frontend.body_success body = true /\
     Frontend.outcome_data result = Frontend.body_data body) /\
  (Frontend.outcome_success result = true ->
   Frontend.outcome_error result = None /\
   events = [Frontend.Fetch request]) /\
  (Frontend.outcome_success result = false ->
   Frontend.outcome_data result = None /\
   exists text, Frontend.outcome_error result = Some text) /\
  (forall reply,
      Frontend.fetch env request = Returned reply ->
      Frontend.ok reply = false ->
      Frontend.outcome_error result =
      Some ("HTTP " ++ Js.number_to_string (Frontend.reply_status reply) 0
            ++ ": " ++ Frontend.statusText reply)) /\
  (forall reply body,
      Frontend.fetch env request = Returned reply ->
      Frontend.ok reply = true ->
      Frontend.json reply = Returned body ->
      Frontend.body_success body = false ->
      Frontend.outcome_error result =
        Some (text_or (Frontend.body_message body) Frontend.search_failed) /\
      events = [Frontend.Fetch request]).
Proof.
  intros request result events.
  unfold result, events, Frontend.searchTools; fold request.
  destruct (Frontend.fetch env request) as [reply | e] eqn:Hf;
    [destruct (Frontend.ok reply) eqn:Hok;
     [destruct (Frontend.json reply) as [body | e] eqn:Hj;
      [destruct (Frontend.body_success body) eqn:Hb |] |] |];
    unfold Frontend.caught; simpl;
    (split;
     [eexists; split; [reflexivity | simpl; intuition discriminate] |]);
    (split;
     [split;
      [intros H; first [discriminate H
                       | exists reply, body; repeat split; assumption]
      | intros (r' & b' & H1 & H2 & H3 & H4 & H5); congruence] |]);
    (split;
     [intros H; first [discriminate H | split; reflexivity] |]);
    (split;
     [intros H; first [discriminate H
                      | split; [reflexivity | eexists; reflexivity]] |]);
    (split;
     [intros r' H1 H2;
      first [congruence | injection H1 as <-; reflexivity]
     | intros r' b' H1 H2 H3 H4;
       first [congruence | split; congruence]]).
Qed.

Lemma service_outcomes_witness :
  Frontend.outcome_error
    (fst (Frontend.searchTools
            {| Frontend.getApiUrl := fun path => "/api" ++ path;
               Frontend.token := None;
               Frontend.fetch := fun _ =>
                 Returned {| Frontend.ok := false;
                             Frontend.reply_status := 503;
                             Frontend.statusText := "Service Unavailable";
                             Frontend.json := Threw OtherThrown |} |}
            "sync files" Js.Undefined Js.Undefined)) =
  Some "HTTP 503: Service Unavailable".
Proof.
  exact (proj1 (proj2 (proj2 (proj2 (proj2
           (service_outcomes
              {| Frontend.getApiUrl := fun path => "/api" ++ path;
                 Frontend.token := None;
                 Frontend.fetch := fun _ =>
                   Returned {| Frontend.ok := false;
                               Frontend.reply_status := 503;
                               Frontend.statusText := "Service Unavailable";
                               Frontend.json := Threw OtherThrown |} |}
              "sync files" Js.Undefined Js.Undefined)))))
           _ eq_refl eq_refl).
Defined.

Lemma service_sends (env : Frontend.Env) (query : string)
      (limit threshold : Js.value) :
  exists rest,
    snd (Frontend.searchTools env query limit threshold) =
    Frontend.Fetch
      {| Frontend.url := Frontend.getApiUrl env "/tools/search";
         Frontend.x_auth_token := text_or (Frontend.token env) "";
         Frontend.fetch_body :=
           [("query", Js.Str query);
            ("limit", Js.json (Js.default_to limit (Js.Number 10 0)));
            ("threshold",
             Js.json (Js.default_to threshold (Js.Number 65 (-2))))] |}
      :: rest.
Proof.
  unfold Frontend.searchTools.
  destruct (Frontend.fetch env _) as [reply | e];
    [destruct (Frontend.ok reply);
     [destruct (Frontend.json reply) as [body | e];
      [destruct (Frontend.body_success body) |] |] |];
    simpl; eauto.
Qed.

Lemma json_number (m e : Z) :
  Js.json (Js.Number m e) =
  if Js.is_finite (Js.number_value m e) then Js.Number m e else Js.Null.
Proof. reflexivity. Qed.

Lemma json_defaults :
  Js.json (Js.Number 10 0) = Js.Number 10 0 /\
  Js.json (Js.Number 20 0) = Js.Number 20 0 /\
  Js.json (Js.Number 65 (-2)) = Js.Number 65 (-2).
Proof. now vm_compute. Qed.

(** X18.  The threshold of a request sent by the service.  A finite
    number is sent as it is, and no threshold as the default 0.65; the
    controller then clamps the number and never derives the threshold from
    the query.  A number that is not finite (here an infinity, written as
    a literal that overflows) is written [null] by [JSON.stringify], and
    for such a request the controller derives the threshold from the
    query. *)
Theorem service_threshold_reaches_controller
        (env : Frontend.Env) (query : string) (limit threshold : Js.value) :
  exists request rest,
    snd (Frontend.searchTools env query limit threshold) =
      Frontend.Fetch request :: rest /\
    let req := request_of (Frontend.fetch_body request) in
    query_of req = Js.Str query /\
    (threshold = Js.Undefined ->
     is_number (threshold_of req) = true /\
     thresholdNum (threshold_of req) query = 0.65%Q) /\
    (forall m e, threshold = Js.Number m e ->
       Js.is_finite (Js.number_value m e) = true ->
       is_number (threshold_of req) = true /\
       thresholdNum (threshold_of req) query =
       Qmax 0 (Qmin 1 (Js.decimal_value m e))) /\
    (forall m e, threshold = Js.Number m e ->
       Js.is_finite (Js.number_value m e) = false ->
       threshold_of req = Js.Null /\
       thresholdNum (threshold_of req) query = spec_deriveThreshold query).
Proof.
  destruct (service_sends env query limit threshold) as [rest Hs].
  eexists; exists rest; split; [exact Hs |].
  cbv zeta; unfold query_of, threshold_of, request_of.
  cbn [Frontend.fetch_body req_body Js.field String.eqb Ascii.eqb Bool.eqb].
  split; [reflexivity |].
  split; [| split].
  - intros ->; cbn [Js.default_to].
    rewrite (proj2 (proj2 json_defaults)); split; reflexivity.
  - intros m e -> Hfin; cbn [Js.default_to].
    rewrite json_number, Hfin; split; reflexivity.
  - intros m e -> Hfin; cbn [Js.default_to].
    rewrite json_number, Hfin; split; [reflexivity |].
    now apply thresholdNum_derived.
Qed.

Lemma service_threshold_reaches_controller_witness :
  exists request rest,
    snd (Frontend.searchTools
           {| Frontend.getApiUrl := fun path => "/api" ++ path;
              Frontend.token := None;
              Frontend.fetch := fun _ => Threw OtherThrown |}
           "sync files tonight" Js.Undefined (Js.Number 1 400)) =
      Frontend.Fetch request :: rest /\
    threshold_of (request_of (Frontend.fetch_body request)) = Js.Null /\
    thresholdNum (threshold_of (request_of (Frontend.fetch_body request)))
                 "sync files tonight" = 0.65%Q.
Proof.
  destruct (service_threshold_reaches_controller
              {| Frontend.getApiUrl := fun path => "/api" ++ path;
                 Frontend.token := None;
                 Frontend.fetch := fun _ => Threw OtherThrown |}
              "sync files tonight" Js.Undefined (Js.Number 1 400))
    as (request & rest & Hs & _ & _ & _ & H).
  exists request, rest; split; [exact Hs |].
  destruct (H 1 400 eq_refl) as [H1 H2]; [now vm_compute |].
  split; [exact H1 | rewrite H2; reflexivity].
Defined.

(* ================================================================= *)
(** ** The search of the servers page *)

Lemma trim_start_blank (s : string) :
  Js.trim_start s = "" <->
  Forall (fun c => Js.is_white_space c = true) (list_ascii_of_string s).
Proof.
  induction s as [| c s IH]; simpl.
  - split; [constructor | reflexivity].
  - destruct (Js.is_white_space c) eqn:E.
    + rewrite IH; split; [now constructor | now inversion 1].
    + split; [discriminate | inversion 1; congruence].
Qed.

Lemma trim_start_head (s : string) (c : ascii) (r : string) :
  Js.trim_start s = String c r -> Js.is_white_space c = false.
Proof.
  induction s as [| a s IH]; simpl; [discriminate |].
  destruct (Js.is_white_space a) eqn:E; [exact IH |].
  now intros [= <- _].
Qed.

Lemma chars_append (a b : string) :
  list_ascii_of_string (a ++ b) =
  (list_ascii_of_string a ++ list_ascii_of_string b)%list.
Proof. induction a as [| x a IH]; simpl; [reflexivity | now rewrite IH]. Qed.

Lemma chars_rev (s : string) :
  list_ascii_of_string (string_rev s) = List.rev (list_ascii_of_string s).
Proof.
  induction s as [| c s IH]; simpl; [reflexivity |].
  now rewrite chars_append, IH.
Qed.

Lemma string_rev_empty (s : string) : string_rev s = "" -> s = "".
Proof.
  intros H; apply (f_equal list_ascii_of_string) in H.
  rewrite chars_rev in H; simpl in H.
  destruct s as [| c s]; [reflexivity |].
  simpl in H; now destruct (List.rev (list_ascii_of_string s)).
Qed.

(** [trim] leaves nothing exactly of the texts made of white space. *)
Lemma trim_blank (s : string) :
  trim s = "" <->
  Forall (fun c => Js.is_white_space c = true) (list_ascii_of_string s).
Proof.
  unfold trim; split.
  - intros H; apply string_rev_empty, trim_start_blank in H.
    rewrite chars_rev in H; apply Forall_rev in H.
    rewrite List.rev_involutive in H.
    apply trim_start_blank.
    destruct (Js.trim_start s) as [| c r] eqn:E; [reflexivity |].
    apply trim_start_head in E.
    inversion H; congruence.
  - intros H; apply trim_start_blank in H; now rewrite H.
Qed.

(** X19.  A query that is empty or all white space makes no request: the
    results are cleared, the page counts as not searched, no toast is
    shown and every server is listed.  Any other query makes exactly one
    request, for the trimmed query, the limit 20 and the threshold of the
    slider. *)
Theorem blank_query_makes_no_request (env : Frontend.Env) (st : Page.State)
        (all : list Frontend.Server) :
  let blank := Forall (fun c => Js.is_white_space c = true)
                      (list_ascii_of_string (Page.searchQuery st)) in
  let '(st', events, toasts) := Page.handleSearch env st in
  (blank ->
   events = [] /\ toasts = [] /\
   Page.searchResults st' = None /\ Page.hasSearched st' = false /\
   Page.filteredServers st' all = all) /\
  (~ blank ->
   exists request rest,
     events = Frontend.Fetch request :: rest /\
     (forall r, ~ In (Frontend.Fetch r) rest) /\
     Frontend.fetch_body request =
       [("query", Js.Str (trim (Page.searchQuery st)));
        ("limit", Js.Number 20 0);
        ("threshold",
         Js.json (Js.default_to (Page.searchThreshold st)
                                (Js.Number 65 (-2))))]).
Proof.
  intros blank; unfold Page.handleSearch.
  destruct (String.eqb_spec (trim (Page.searchQuery st)) "") as [E | E].
  - split; [intros _; repeat split; reflexivity |].
    intros Hnb; elim Hnb; now apply trim_blank.
  - destruct (Frontend.searchTools env (trim (Page.searchQuery st))
                (Js.Number 20 0) (Page.searchThreshold st))
      as [result events] eqn:Hs.
    assert (Hev : exists request rest,
               events = Frontend.Fetch request :: rest /\
               (forall r, ~ In (Frontend.Fetch r) rest) /\
               Frontend.fetch_body request =
               [("query", Js.Str (trim (Page.searchQuery st)));
                ("limit", Js.Number 20 0);
                ("threshold",
                 Js.json (Js.default_to (Page.searchThreshold st)
                                        (Js.Number 65 (-2))))]).
    { apply (f_equal snd) in Hs; simpl in Hs; subst events.
      unfold Frontend.searchTools; cbn [Js.default_to].
      rewrite (proj1 (proj2 json_defaults)).
      destruct (Frontend.fetch env _) as [reply | e];
        [destruct (Frontend.ok reply);
         [destruct (Frontend.json reply) as [body | e];
          [destruct (Frontend.body_success body) |] |] |];
        simpl; do 2 eexists;
        (split; [reflexivity |]);
        (split; [simpl; intuition discriminate | reflexivity]). }
    destruct (if Frontend.outcome_success result
              then Frontend.outcome_data result else None);
      (split; [intros Hb; apply trim_blank in Hb; contradiction
              | intros _; exact Hev]).
Qed.

Lemma blank_query_makes_no_request_witness :
  fst (Page.handleSearch
         {| Frontend.getApiUrl := fun path => "/api" ++ path;
            Frontend.token := None;
            Frontend.fetch := fun _ => Threw OtherThrown |}
         {| Page.searchQuery := "   ";
            Page.isSearching := false;
            Page.searchResults := None;
            Page.hasSearched := true;
            Page.searchThreshold := Js.Number 65 (-2) |}) =
  ({| Page.searchQuery := "   ";
      Page.isSearching := false;
      Page.searchResults := None;
      Page.hasSearched := false;
      Page.searchThreshold := Js.Number 65 (-2) |}, []).
Proof.
  pose proof (blank_query_makes_no_request
                {| Frontend.getApiUrl := fun path => "/api" ++ path;
                   Frontend.token := None;
                   Frontend.fetch := fun _ => Threw OtherThrown |}
                {| Page.searchQuery := "   ";
                   Page.isSearching := false;
                   Page.searchResults := None;
                   Page.hasSearched := true;
                   Page.searchThreshold := Js.Number 65 (-2) |} []) as H.
  cbv zeta in H.
  destruct (Page.handleSearch _ _) as [[st' events] toasts] eqn:E.
  destruct H as [H _].
  destruct H as (Hev & _); [repeat constructor |].
  vm_compute in E; injection E as <- <- <-; reflexivity.
Defined.

(** X20.  A search for a query that is not blank always settles with the
    busy flag down and the page counted as searched, query and threshold
    untouched, and exactly one toast.  When it failed the results are
    empty, the toast is an error and every server is listed; when it
    succeeded the servers listed are those of the answer and the toast
    counts the tools found.  Clearing the search lists every server
    again. *)
Theorem search_settles (env : Frontend.Env) (st : Page.State)
        (all : list Frontend.Server) :
  trim (Page.searchQuery st) <> "" ->
  let '(st', events, toasts) := Page.handleSearch env st in
  Page.isSearching st' = false /\
  Page.hasSearched st' = true /\
  Page.searchQuery st' = Page.searchQuery st /\
  Page.searchThreshold st' = Page.searchThreshold st /\
  (Page.searchResults st' = None ->
   Page.filteredServers st' all = all /\
   exists text, toasts = [Page.ToastError text]) /\
  (forall data, Page.searchResults st' = Some data ->
     Page.filteredServers st' all =
       Frontend.getServersFromSearchResponse data all /\
     ((Page.toolCount data = 0%nat /\ toasts = [Page.ToastNoResults])
      \/ (Page.toolCount data <> 0%nat /\
          toasts = [Page.ToastResults (Page.toolCount data)]))) /\
  Page.filteredServers (Page.handleClearSearch st') all = all.
Proof.
  intros Hq; unfold Page.handleSearch.
  destruct (String.eqb_spec (trim (Page.searchQuery st)) "") as [E | _];
    [contradiction |].
  destruct (Frontend.searchTools env _ _ _) as [result events].
  destruct (if Frontend.outcome_success result
            then Frontend.outcome_data result else None) as [data |];
    unfold Page.filteredServers; simpl.
  - repeat split; try discriminate.
    + now injection H as <-.
    + injection H as <-.
      destruct (Page.toolCount data) as [| n]; simpl; [left | right];
        split; (reflexivity || discriminate).
  - repeat split; try discriminate; eauto.
Qed.

Lemma search_settles_witness :
  let env := {| Frontend.getApiUrl := fun path => "/api" ++ path;
                Frontend.token := None;
                Frontend.fetch := fun _ => Threw OtherThrown |} in
  let st := {| Page.searchQuery := " sync ";
               Page.isSearching := false;
               Page.searchResults := None;
               Page.hasSearched := false;
               Page.searchThreshold := Js.Number 65 (-2) |} in
  Page.isSearching (fst (fst (Page.handleSearch env st))) = false /\
  Page.hasSearched (fst (fst (Page.handleSearch env st))) = true.
Proof.
  intros env st.
  assert (Hq : trim (Page.searchQuery st) <> "") by discriminate.
  pose proof (search_settles env st [] Hq) as H.
  destruct (Page.handleSearch env st) as [[st' events] toasts].
  destruct H as (H1 & H2 & _); split; assumption.
Defined.

(* ================================================================= *)
(** ** Page, service and controller together *)

Lemma page_request_run (backend : Env) (q : string) (threshold : Js.value)
      (m e : Z) :
  threshold = Js.Number m e ->
  q <> "" ->
  let req := request_of [("query", Js.Str q); ("limit", Js.Number 20 0);
                         ("threshold",
                          Js.json (Js.default_to threshold
                                                 (Js.Number 65 (-2))))] in
  checked_query (query_of req) = Some q /\
  limitNum (limit_of req) = Returned 20 /\
  thresholdNum (threshold_of req) q =
    if Js.is_finite (Js.number_value m e)
    then Qmax 0 (Qmin 1 (Js.decimal_value m e))
    else spec_deriveThreshold q.
Proof.
  intros -> Hq req; split; [| split].
  - apply checked_query_spec; split; [reflexivity | exact Hq].
  - now vm_compute.
  - unfold req, threshold_of, request_of.
    cbn [req_body Js.field String.eqb Ascii.eqb Bool.eqb Js.default_to].
    rewrite json_number.
    destruct (Js.is_finite (Js.number_value m e)); [reflexivity |].
    now apply thresholdNum_derived.
Qed.

(** X21.  A search from the page against a controller with smart routing
    enabled: the vector search is asked for the trimmed query, 20 results
    and the slider's threshold clamped to [0, 1] (a threshold that is not
    finite is sent as [null], and the threshold is then the one derived
    from the query); what it finds comes back ranked, is stored as the
    results of the page, is announced with the number of tools found, and
    the servers listed are the ranked servers the page knows, in rank
    order. *)
Theorem page_search_end_to_end
        (backend : Env) (reason : Z -> string) (env : Frontend.Env)
        (st : Page.State) (all : list Frontend.Server)
        (cfg : SmartRoutingConfig) (found : list Candidate.t) (m e : Z) :
  let q := trim (Page.searchQuery st) in
  let t := if Js.is_finite (Js.number_value m e)
           then Qmax 0 (Qmin 1 (Js.decimal_value m e))
           else spec_deriveThreshold q in
  q <> "" ->
  Page.searchThreshold st = Js.Number m e ->
  (forall request, Frontend.fetch env request =
                   served_by backend reason request) ->
  getSmartRoutingConfig backend = Returned cfg ->
  enabled cfg = true ->
  searchToolsByVector backend q 20 t = Returned found ->
  let '(st', events, toasts) := Page.handleSearch env st in
  Page.searchResults st' = Some (view_of_data (search_data q t found)) /\
  Page.hasSearched st' = true /\
  Page.isSearching st' = false /\
  toasts = [if (0 <? List.length found)%nat
            then Page.ToastResults (List.length found)
            else Page.ToastNoResults] /\
  map Frontend.server_name (Page.filteredServers st' all) =
    filter (fun n =>
              existsb (fun s => String.eqb (Frontend.server_name s) n) all)
           (map Server.serverName
                (rank_servers (Js.sort by_similarity found))).
Proof.
  intros q t Hq Hth Hfetch Hcfg Hen Hfound.
  unfold Page.handleSearch; fold q.
  destruct (String.eqb_spec q "") as [E | _]; [contradiction |].
  unfold Frontend.searchTools; rewrite Hfetch; unfold served_by.
  cbn [Frontend.fetch_body].
  change (Js.default_to (Js.Number 20 0) (Js.Number 10 0))
    with (Js.Number 20 0).
  rewrite (proj1 (proj2 json_defaults)).
  destruct (page_request_run backend q (Page.searchThreshold st) m e
                             Hth Hq)
    as (Hcq & Hlim & Hthr); cbv zeta in Hcq, Hlim, Hthr.
  rewrite (searchTools_enabled backend _ q cfg 20 Hcq Hcfg Hen Hlim);
    cbv zeta.
  rewrite Hthr; fold t; rewrite Hfound.
  cbn -[search_data view_of_data Frontend.getServersFromSearchResponse].
  rewrite search_data_unfold.
  cbn -[Js.sort rank_servers Frontend.getServersFromSearchResponse].
  unfold Page.toolCount, Page.filteredServers.
  cbn -[Js.sort rank_servers Frontend.getServersFromSearchResponse].
  rewrite length_map, sort_length.
  repeat split.
  unfold Frontend.getServersFromSearchResponse; simpl.
  apply response_server_names.
Qed.

Lemma page_search_end_to_end_witness :
  let backend := env_of (Returned {| enabled := true |})
                        (Returned tied_candidates) (Threw OtherThrown) in
  let env := {| Frontend.getApiUrl := fun path => "/api" ++ path;
                Frontend.token := None;
                Frontend.fetch := served_by backend (fun _ => "OK") |} in
  let st := {| Page.searchQuery := " files ";
               Page.isSearching := false;
               Page.searchResults := None;
               Page.hasSearched := false;
               Page.searchThreshold := Js.Number 5 (-1) |} in
  snd (Page.handleSearch env st) = [Page.ToastResults 4].
Proof.
  intros backend env st.
  pose proof (page_search_end_to_end
                backend (fun _ => "OK") env st [] {| enabled := true |}
                tied_candidates 5 (-1)) as H.
  cbv zeta in H.
  destruct (Page.handleSearch env st) as [[st' events] toasts].
  destruct H as (_ & _ & _ & Ht & _);
    try reflexivity; try discriminate; try (intros; reflexivity).
  exact Ht.
Defined.

(** X22.  When the controller turns the page's search away, whatever its
    status and whatever it explains in its message, the page shows the
    error ["HTTP <status>: <statusText>"], stores no results and lists
    every server; with smart routing switched off that is
    ["HTTP 503: ..."]. *)
Theorem page_search_refused
        (backend : Env) (reason : Z -> string) (env : Frontend.Env)
        (st : Page.State) (all : list Frontend.Server) (r : HttpResponse) :
  let q := trim (Page.searchQuery st) in
  q <> "" ->
  (forall request, Frontend.fetch env request =
                   served_by backend reason request) ->
  fst (run (searchTools backend
              (request_of [("query", Js.Str q); ("limit", Js.Number 20 0);
                           ("threshold",
                            Js.json (Js.default_to (Page.searchThreshold st)
                                                   (Js.Number 65 (-2))))]))) =
  Returned r ->
  status r <> 200 ->
  let '(st', events, toasts) := Page.handleSearch env st in
  toasts = [Page.ToastError
              ("HTTP " ++ Js.number_to_string (status r) 0 ++ ": "
               ++ reason (status r))] /\
  Page.searchResults st' = None /\
  Page.hasSearched st' = true /\
  Page.filteredServers st' all = all /\
  (forall cfg, getSmartRoutingConfig backend = Returned cfg ->
               enabled cfg = false -> status r = 503).
Proof.
  intros q Hq Hfetch Hrun Hstatus.
  assert (Hset : status r = 400 \/ status r = 503 \/ status r = 500).
  { assert (Hcq : checked_query
                    (query_of
                       (request_of
                          [("query", Js.Str q); ("limit", Js.Number 20 0);
                           ("threshold",
                            Js.json (Js.default_to (Page.searchThreshold st)
                                                   (Js.Number 65 (-2))))]))
                  = Some q)
      by (apply checked_query_spec; split; [reflexivity | exact Hq]).
    destruct (getSmartRoutingConfig backend) as [cfg | e0] eqn:Hc.
    - destruct (enabled cfg) eqn:He.
      + assert (Hl : limitNum
                       (limit_of
                          (request_of
                             [("query", Js.Str q); ("limit", Js.Number 20 0);
                              ("threshold",
                               Js.json (Js.default_to
                                          (Page.searchThreshold st)
                                          (Js.Number 65 (-2))))]))
                     = Returned 20) by now vm_compute.
        rewrite (searchTools_enabled backend _ q cfg 20 Hcq Hc He Hl) in Hrun.
        cbv zeta in Hrun.
        destruct (searchToolsByVector backend q _ _);
          simpl in Hrun; injection Hrun as <-; simpl in *; auto.
        now elim Hstatus.
      + rewrite (searchTools_disabled backend _ q cfg Hcq Hc He) in Hrun.
        simpl in Hrun; injection Hrun as <-; simpl; auto.
    - rewrite (searchTools_config_throws backend _ q e0 Hcq Hc) in Hrun.
      simpl in Hrun; injection Hrun as <-; simpl; auto. }
  assert (Hok : (200 <=? status r) && (status r <=? 299) = false)
    by (destruct Hset as [-> | [-> | ->]]; reflexivity).
  unfold Page.handleSearch; fold q.
  destruct (String.eqb_spec q "") as [E | _]; [contradiction |].
  unfold Frontend.searchTools; rewrite Hfetch; unfold served_by.
  cbn [Frontend.fetch_body].
  change (Js.default_to (Js.Number 20 0) (Js.Number 10 0))
    with (Js.Number 20 0).
  rewrite (proj1 (proj2 json_defaults)), Hrun.
  unfold reply_of; cbn [Frontend.ok]; rewrite Hok.
  cbn.
  repeat split.
  intros cfg Hc He.
  assert (Hcq : checked_query
                  (query_of
                     (request_of
                        [("query", Js.Str q); ("limit", Js.Number 20 0);
                         ("threshold",
                          Js.json (Js.default_to (Page.searchThreshold st)
                                                 (Js.Number 65 (-2))))]))
                = Some q)
    by (apply checked_query_spec; split; [reflexivity | exact Hq]).
  rewrite (searchTools_disabled backend _ q cfg Hcq Hc He) in Hrun.
  simpl in Hrun; now injection Hrun as <-.
Qed.

Lemma page_search_refused_witness :
  let backend := env_of (Returned {| enabled := false |})
                        (Returned tied_candidates) (Threw OtherThrown) in
  let env := {| Frontend.getApiUrl := fun path => "/api" ++ path;
                Frontend.token := None;
                Frontend.fetch :=
                  served_by backend (fun _ => "Service Unavailable") |} in
  let st := {| Page.searchQuery := "files";
               Page.isSearching := false;
               Page.searchResults := None;
               Page.hasSearched := false;
               Page.searchThreshold := Js.Number 5 (-1) |} in
  snd (Page.handleSearch env st) =
  [Page.ToastError "HTTP 503: Service Unavailable"].
Proof.
  intros backend env st.
  pose proof (page_search_refused
                backend (fun _ => "Service Unavailable") env st []
                (failure 503
                   "Smart routing is not enabled. Please enable it in settings."))
    as H.
  cbv zeta in H.
  destruct (Page.handleSearch env st) as [[st' events] toasts].
  destruct H as (Ht & _);
    try reflexivity; try discriminate; try (intros; reflexivity).
  exact Ht.
Defined.

(* ================================================================= *)
(** ** The configuration offered by a server card *)

Lemma truthy_string_filled (s : option string) (v : string) :
  Card.truthy_string s = Some v -> s = Some v /\ v <> "".
Proof.
  destruct s as [[| a s] |]; simpl; intros H; inversion H; subst.
  split; [reflexivity | discriminate].
Qed.

Lemma or_string_filled (s : option string) (d : string) :
  d <> "" -> Card.or_string s d <> "".
Proof.
  unfold Card.or_string; intros Hd.
  destruct (Card.truthy_string s) as [v |] eqn:E; [| exact Hd].
  now apply truthy_string_filled in E.
Qed.

Lemma when_filled_not_empty (d : option Card.Dict) :
  Card.when_filled d <> Some [].
Proof. destruct d as [[| x d] |]; simpl; discriminate. Qed.

Lemma stdio_command_filled (s : Card.ServerConfig) (c : string) :
  Card.stdio_command s = Some c ->
  Card.command s = Some c /\ c <> "" /\
  (Card.type s = None \/ Card.type s = Some "" \/ Card.type s = Some "stdio").
Proof.
  unfold Card.stdio_command; intros H.
  destruct (Card.truthy_string (Card.command s)) as [c' |] eqn:Ec;
    [| discriminate].
  apply truthy_string_filled in Ec; destruct Ec as [Ec Hc].
  destruct (Card.type s) as [[| a t] |] eqn:Et;
    cbn [Card.truthy_string] in H.
  - inversion H; subst; auto.
  - destruct (String a t =? "stdio")%string eqn:Es; [| discriminate].
    apply String.eqb_eq in Es; inversion H; subst; rewrite Es; auto.
  - inversion H; subst; auto.
Qed.

Lemma stdio_command_not_remote (s : Card.ServerConfig) (c : string) :
  Card.stdio_command s = Some c -> Card.remote_config s = None.
Proof.
  intros H; apply stdio_command_filled in H.
  destruct H as (_ & _ & [Ht | [Ht | Ht]]);
    unfold Card.remote_config; rewrite Ht; reflexivity.
Qed.

Lemma remote_config_remote (c : Card.ServerConfig) (r : Card.Config) :
  Card.remote_config c = Some r ->
  Card.is_remote c = true /\
  exists u t h, r = Card.Remote u t h /\ h <> Some [] /\
                ((t = "sse" /\ h = None) \/ t = "streamable-http").
Proof.
  unfold Card.remote_config, Card.is_remote.
  destruct (Card.type c) as [t |]; [| discriminate].
  destruct (t =? "sse")%string.
  - intros H; inversion H; subst; split; [reflexivity |].
    do 3 eexists; split; [reflexivity |].
    split; [discriminate | left; split; reflexivity].
  - destruct (t =? "streamable-http")%string; [| discriminate].
    intros H; inversion H; subst; split; [reflexivity |].
    do 3 eexists; split; [reflexivity |].
    split; [apply when_filled_not_empty | right; reflexivity].
Qed.

Lemma remote_config_none (c : Card.ServerConfig) :
  Card.remote_config c = None -> Card.is_remote c = false.
Proof.
  unfold Card.remote_config, Card.is_remote.
  destruct (Card.type c) as [t |]; [| reflexivity].
  destruct (t =? "sse")%string; [discriminate |].
  destruct (t =? "streamable-http")%string; [discriminate | reflexivity].
Qed.

Lemma is_remote_not_stdio (s : Card.ServerConfig) :
  Card.is_remote s = true -> Card.stdio_command s = None.
Proof.
  intros H; destruct (Card.stdio_command s) as [c |] eqn:E; [| reflexivity].
  apply stdio_command_not_remote, remote_config_none in E; congruence.
Qed.

Lemma complete_args_scoped (name p : string) (a : list string) :
  Card.complete_args name "npx" a = ["-y"; p] ->
  String.prefix "@" p = true \/ Js.includes p "/" = true.
Proof.
  destruct a as [| flag [| package [| x a]]];
    unfold Card.complete_args; try discriminate.
  change ("npx" =? "npx")%string with true; cbn [andb].
  destruct (flag =? "-y")%string eqn:Ef.
  - apply String.eqb_eq in Ef; subst flag.
    destruct (String.prefix "@" package) eqn:Ep; simpl.
    + intros H; inversion H; subst; now left.
    + destruct (Js.includes package "/") eqn:Ei; simpl.
      * intros H; inversion H; subst; now right.
      * intros H; inversion H; subst; now left.
  - intros H; inversion H; subst; discriminate.
Qed.

Lemma complete_args_other_command (name c : string) (a : list string) :
  Card.complete_args name "npx" a = a -> Card.complete_args name c a = a.
Proof.
  destruct a as [| flag [| package [| x a]]];
    unfold Card.complete_args; try reflexivity.
  change ("npx" =? "npx")%string with true.
  destruct (c =? "npx")%string; cbn [andb]; [tauto | reflexivity].
Qed.

Lemma append_filled (a b : string) : a <> "" -> (a ++ b)%string <> "".
Proof. destruct a; [congruence | discriminate]. Qed.

Lemma single_of_server_well_formed (server : Card.Server) :
  Card.well_formed (Card.single_of_server server).
Proof.
  unfold Card.single_of_server.
  destruct (Card.config server) as [c |]; simpl;
    [| split; discriminate].
  destruct (Card.remote_config c) as [r |] eqn:Er.
  - apply remote_config_remote in Er.
    destruct Er as (_ & u & t & h & -> & Hh & Ht); simpl; auto.
  - simpl; split;
      [apply or_string_filled; discriminate | apply when_filled_not_empty].
Qed.

Lemma deep_link_of_server_well_formed (server : Card.Server) :
  Card.well_formed (Card.deep_link_of_server server).
Proof.
  unfold Card.deep_link_of_server.
  destruct (Card.config server) as [c |]; simpl;
    [| split; discriminate].
  destruct (Card.remote_config c) as [r |] eqn:Er.
  - apply remote_config_remote in Er.
    destruct Er as (_ & u & t & h & -> & Hh & Ht); simpl; auto.
  - simpl; split; [| apply when_filled_not_empty].
    apply append_filled, or_string_filled; discriminate.
Qed.

(** X23. Whenever the configuration shown for a server launches
    [npx -y <package>], the package is scoped: its name starts with [@] or
    contains a [/].  A bare name found in the settings is replaced by
    [@modelcontextprotocol/server-<server name>]. *)
Theorem npx_package_is_completed
    (fetch : outcome Card.Response) (server : Card.Server)
    (p : string) (e : option Card.Dict) :
  fst (Card.generateSingleServerConfig fetch server)
  = Card.Stdio "npx" ["-y"; p] e ->
  String.prefix "@" p = true \/ Js.includes p "/" = true.
Proof.
  assert (Hserver :
    Card.single_of_server server = Card.Stdio "npx" ["-y"; p] e ->
    String.prefix "@" p = true \/ Js.includes p "/" = true).
  { unfold Card.single_of_server.
    destruct (Card.config server) as [c |].
    - destruct (Card.remote_config c) as [r |] eqn:Er.
      + apply remote_config_remote in Er.
        destruct Er as (_ & u & t & h & -> & _); discriminate.
      + cbv zeta; intros H; injection H as Hc Ha He.
        rewrite Hc in Ha; now apply complete_args_scoped in Ha.
    - intros H; inversion H; subst; now left. }
  unfold Card.generateSingleServerConfig.
  destruct (Card.stored_settings fetch server) as [[s |] | err]; simpl;
    try exact Hserver.
  unfold Card.single_of_settings.
  destruct (Card.stdio_command s) as [c |]; [| discriminate].
  cbv zeta; intros H; injection H as Hc' Ha He.
  rewrite Hc' in Ha; now apply complete_args_scoped in Ha.
Qed.

Lemma npx_package_is_completed_witness :
  let server := {| Card.name := "time"; Card.config := None |} in
  let entry :=
    {| Card.type := None; Card.url := None; Card.command := Some "npx";
       Card.args := Some ["-y"; "time"]; Card.env := None;
       Card.headers := None |} in
  let fetch :=
    Returned
      {| Card.ok := true;
         Card.json :=
           Returned
             {| Card.success := true;
                Card.data :=
                  Some {| Card.mcpServers := Some [("time", entry)] |} |} |} in
  fst (Card.generateSingleServerConfig fetch server)
  = Card.Stdio "npx" ["-y"; "@modelcontextprotocol/server-time"] None /\
  (String.prefix "@" "@modelcontextprotocol/server-time" = true \/
   Js.includes "@modelcontextprotocol/server-time" "/" = true).
Proof.
  cbv zeta; split; [reflexivity |].
  apply (npx_package_is_completed
           (Returned
              {| Card.ok := true;
                 Card.json :=
                   Returned
                     {| Card.success := true;
                        Card.data :=
                          Some {| Card.mcpServers :=
                                    Some [("time",
                                           {| Card.type := None;
                                              Card.url := None;
                                              Card.command := Some "npx";
                                              Card.args := Some ["-y"; "time"];
                                              Card.env := None;
                                              Card.headers := None |})] |} |} |})
           {| Card.name := "time"; Card.config := None |} _ None).
  reflexivity.
Defined.

(** X24. Both generators return well-formed configurations whatever the
    settings request does: a launch configuration or command line has a
    non-empty command, an [env] or [headers] that is present is not empty,
    a remote configuration has the type [sse] (then without headers) or
    [streamable-http], and a stored entry is returned as it is only when it
    is not a stdio entry with a command. *)
Theorem generated_configurations_are_well_formed
    (fetch : outcome Card.Response) (server : Card.Server) :
  Card.well_formed (fst (Card.generateSingleServerConfig fetch server)) /\
  Card.well_formed (fst (Card.generateCursorDeepLinkConfig fetch server)).
Proof.
  unfold Card.generateSingleServerConfig, Card.generateCursorDeepLinkConfig.
  destruct (Card.stored_settings fetch server) as [[s |] | err]; simpl;
    try (split; [apply single_of_server_well_formed
                | apply deep_link_of_server_well_formed]).
  unfold Card.single_of_settings, Card.deep_link_of_settings.
  destruct (Card.stdio_command s) as [c |] eqn:Ec; simpl; [| auto].
  apply stdio_command_filled in Ec; destruct Ec as (_ & Hc & _).
  repeat split; try apply when_filled_not_empty; try exact Hc.
  destruct (Card.args s) as [[| x a] |]; now apply append_filled.
Qed.

(** X25. When the settings a card works from give a launched server a
    non-empty argument list that the package completion leaves alone, and
    also when there are no settings at all, the deep-link configuration is
    the shown configuration with command and arguments joined by single
    spaces, and both generators log the same. *)
Theorem deep_link_joins_shown_configuration
    (fetch : outcome Card.Response) (server : Card.Server) :
  (forall s, Card.settings_used fetch server = Some s ->
             Card.is_remote s = false ->
             exists a, Card.args s = Some a /\ a <> [] /\
                       Card.complete_args (Card.name server) "npx" a = a) ->
  Card.generateCursorDeepLinkConfig fetch server
  = (Card.as_command_line
       (fst (Card.generateSingleServerConfig fetch server)),
     snd (Card.generateSingleServerConfig fetch server)).
Proof.
  assert (Hserver :
    (forall s, Card.config server = Some s ->
               Card.is_remote s = false ->
               exists a, Card.args s = Some a /\ a <> [] /\
                         Card.complete_args (Card.name server) "npx" a = a) ->
    Card.deep_link_of_server server
    = Card.as_command_line (Card.single_of_server server)).
  { unfold Card.deep_link_of_server, Card.single_of_server.
    destruct (Card.config server) as [c |]; [| reflexivity].
    intros H; destruct (Card.remote_config c) as [r |] eqn:Er.
    - apply remote_config_remote in Er.
      destruct Er as (_ & u & t & h & -> & _); reflexivity.
    - destruct (H c eq_refl (remote_config_none _ Er)) as (a & Ha & _ & Hk).
      rewrite Ha; cbv zeta; simpl.
      now rewrite (complete_args_other_command _ _ _ Hk). }
  unfold Card.settings_used, Card.generateCursorDeepLinkConfig,
    Card.generateSingleServerConfig.
  destruct (Card.stored_settings fetch server) as [[s |] | err]; simpl;
    intros H; try (now rewrite (Hserver H)).
  f_equal; unfold Card.deep_link_of_settings, Card.single_of_settings.
  destruct (Card.stdio_command s) as [c |] eqn:Ec; [| reflexivity].
  apply stdio_command_not_remote, remote_config_none in Ec.
  destruct (H s eq_refl Ec) as (a & Ha & Hne & Hk).
  rewrite Ha; cbv zeta; simpl.
  rewrite (complete_args_other_command _ _ _ Hk).
  destruct a as [| x a]; [congruence | reflexivity].
Qed.

Lemma deep_link_joins_shown_configuration_witness :
  let entry :=
    {| Card.type := Some "stdio"; Card.url := None;
       Card.command := Some "uvx";
       Card.args := Some ["mcp-server-time"; "--utc"];
       Card.env := Some [("TZ", "UTC")]; Card.headers := None |} in
  let server := {| Card.name := "time"; Card.config := Some entry |} in
  let fetch : outcome Card.Response := Threw (ErrorObject "Failed to fetch") in
  Card.generateCursorDeepLinkConfig fetch server
  = (Card.CommandLine "uvx mcp-server-time --utc" (Some [("TZ", "UTC")]),
     [ConsoleError Card.settings_error (ErrorObject "Failed to fetch")]).
Proof.
  cbv zeta.
  rewrite deep_link_joins_shown_configuration; [reflexivity |].
  intros s Hs _; inversion Hs; subst; simpl.
  exists ["mcp-server-time"; "--utc"].
  split; [reflexivity | split; [discriminate | reflexivity]].
Defined.


